(** * FFmpeg-Commands: metadata acquisition, timecode conversion and rendering

    A shallow embedding of the parts of [MetadataAcquisition.py],
    [FileOperations.py] and [Render.py] that scan the diagnostic text of
    the probe tool, classify streams, convert timecodes and run the
    two-phase render, followed by the properties established about them.

    Python [str] values are modelled as [string] (characters are 8-bit
    code points), [int] as [Z], lists as [list], [dict] as [gmap], the
    file system and the list objects shared between a caller and a
    [Render] instance as finite maps inside an explicit world, and
    [quit()] / uncaught exceptions as the [Raise] outcome of a small
    state-and-exception monad. A [float] is the rational it holds:
    [float] of a decimal text is the binary64 nearest to the decimal. *)

From Stdlib Require Import ZArith QArith String Ascii List Bool Lia DecimalString.
From Stdlib Require DecimalN.
From stdpp Require Import base gmap strings list.
Import ListNotations.

(* ================================================================= *)
(** ** Python string primitives *)

Module PyStr.

(** [s[:n]] for a non-negative [n]. *)
Fixpoint take (n : nat) (s : string) : string :=
  match n, s with
  | O, _ => ""
  | S _, "" => ""
  | S n', String c s' => String c (take n' s')
  end.

(** [s[n:]] for a non-negative [n]. *)
Fixpoint drop (n : nat) (s : string) : string :=
  match n, s with
  | O, _ => s
  | S _, "" => ""
  | S n', String _ s' => drop n' s'
  end.

(** [s[-n:]] for a positive [n]: the last [n] characters, or all of [s]
    when it is shorter. *)
Definition last_n (n : nat) (s : string) : string :=
  drop (String.length s - n) s.

(** [s[:-1]]. *)
Definition drop_last (s : string) : string :=
  take (String.length s - 1) s.

(** [s[i:i+k] == w], where [s[i:]] is the suffix at hand and [k] the
    length written in the source. *)
Definition slice_is (k : nat) (w suffix : string) : bool :=
  String.eqb (take k suffix) w.

(** [kw in s]. *)
Fixpoint contains (kw s : string) : bool :=
  if String.prefix kw s then true
  else match s with
       | "" => false
       | String _ s' => contains kw s'
       end.

(** [s.find(kw)]: index of the first occurrence, [None] for Python's -1. *)
Fixpoint find (kw s : string) : option nat :=
  if String.prefix kw s then Some 0
  else match s with
       | "" => None
       | String _ s' => option_map S (find kw s')
       end.

(** [s.split(kw, 1)[1]] for a non-empty [kw] that occurs in [s]: the
    text after the first occurrence. [None] when [kw] does not occur
    (Python then has no element 1). *)
Fixpoint after_first (kw s : string) : option string :=
  if String.prefix kw s then Some (drop (String.length kw) s)
  else match s with
       | "" => None
       | String _ s' => after_first kw s'
       end.

(** [s.split(c)] for a one-character separator: never the empty list. *)
Fixpoint split_on (c : ascii) (s : string) : list string :=
  match s with
  | "" => [""]
  | String a s' =>
      if Ascii.eqb a c then "" :: split_on c s'
      else match split_on c s' with
           | [] => [String a ""]
           | l :: ls => String a l :: ls
           end
  end.

(** [s.lstrip(c)] for a one-character argument. *)
Fixpoint lstrip (c : ascii) (s : string) : string :=
  match s with
  | "" => ""
  | String a s' => if Ascii.eqb a c then lstrip c s' else s
  end.

(** [s.rstrip(c)] for a one-character argument. *)
Fixpoint rstrip (c : ascii) (s : string) : string :=
  match s with
  | "" => ""
  | String a s' =>
      match rstrip c s' with
      | "" => if Ascii.eqb a c then "" else String a ""
      | r => String a r
      end
  end.

Definition nl : ascii := "010"%char.
Definition cr : ascii := "013"%char.

(** The one-character strings of a newline and of a double quote. *)
Definition NL : string := String nl "".
Definition dq : string := String "034"%char "".

(** The characters [str.splitlines] treats as line boundaries, among the
    8-bit code points: LF, VT, FF, CR, FS, GS, RS and NEL. *)
Definition is_linebreak (a : ascii) : bool :=
  let n := nat_of_ascii a in
  (n =? 10)%nat || (n =? 11)%nat || (n =? 12)%nat || (n =? 13)%nat
  || (n =? 28)%nat || (n =? 29)%nat || (n =? 30)%nat || (n =? 133)%nat.

(** [s.splitlines()]: [cur] is the part of the current line read so far.
    A CR directly followed by LF is one boundary; no empty last line is
    produced. *)
Fixpoint splitlines_from (cur : string) (s : string) : list string :=
  match s with
  | "" => match cur with "" => [] | _ => [cur] end
  | String a s' =>
      if is_linebreak a then
        match s' with
        | String b s'' =>
            if Ascii.eqb a cr && Ascii.eqb b nl
            then cur :: splitlines_from "" s''
            else cur :: splitlines_from "" s'
        | "" => [cur]
        end
      else splitlines_from (cur +:+ String a "") s'
  end.

Definition splitlines (s : string) : list string := splitlines_from "" s.

(** [str(n)] for a non-negative integer. *)
Definition of_N (n : N) : string := NilEmpty.string_of_uint (N.to_uint n).

(** [str(z)] for an integer. *)
Definition of_Z (z : Z) : string := NilEmpty.string_of_int (Z.to_int z).

(** [sep.join(l)]. *)
Definition join (sep : string) (l : list string) : string := String.concat sep l.

End PyStr.

(* ================================================================= *)
(** ** MetadataAcquisition.return_stream_types: the classification loop *)

Module StreamTypes.
Import PyStr.

(** The inner [for ffmpeg_strm_index, ffmpeg_strm_str in enumerate(strm)]
    of the Subtitle branch: at the first parenthesis append
    [Subtitle=] followed by the three characters after it, and leave the
    loop; when the line has no parenthesis nothing is appended. *)
Fixpoint subtitle_lang (suffix : string) (strm_types_list : list string)
  : list string :=
  match suffix with
  | "" => strm_types_list
  | String c rest =>
      if Ascii.eqb c "("%char
      then strm_types_list ++ ["Subtitle=" +:+ take 3 rest]
      else subtitle_lang rest strm_types_list
  end.

(** The loop [for stream_str_index in range(len(strm))]; [suffix] is
    [strm[stream_str_index:]]. The Video, Audio and Data branches end
    the loop with [break]; the Subtitle branch has no [break] of its own
    (its [break] leaves the inner loop only), so the scan goes on with
    the next index. *)
Fixpoint scan_strm (strm suffix : string) (strm_types_list : list string)
  : list string :=
  match suffix with
  | "" => strm_types_list
  | String _ rest =>
      if slice_is 5 "Video" suffix then
        if String.eqb (last_n 14 strm) "(attached pic)"
        then strm_types_list ++ ["Artwork"]
        else strm_types_list ++ ["Video"]
      else if slice_is 5 "Audio" suffix then strm_types_list ++ ["Audio"]
      else if slice_is 4 "Data" suffix then strm_types_list ++ ["Chapter"]
      else if slice_is 8 "Subtitle" suffix
           then scan_strm strm rest (subtitle_lang strm strm_types_list)
      else scan_strm strm rest strm_types_list
  end.

(** [for strm in strm_types: ...] over the lines of the listing. *)
Definition classify_lines (strm_types : list string) : list string :=
  fold_left (fun acc strm => scan_strm strm strm acc) strm_types [].

(** Lines 235-261: split the listing into lines and classify each. *)
Definition classify_listing (listing : string) : list string :=
  classify_lines (splitlines listing).

End StreamTypes.

(* ================================================================= *)
(** ** The world the scripts run in *)

(** Exceptions that leave a call. [quit()] raises [SystemExit]. *)
Inductive exn :=
| SystemExit
| FileNotFoundError
| FileExistsError
| IsADirectoryError
| NotADirectoryError
| DirectoryNotEmpty      (* OSError, errno ENOTEMPTY *)
| SameFileError
| IndexError
| KeyError
| UnboundLocalError
| AttributeError
| TypeError
| ValueError
| CalledProcessError.

#[export] Instance exn_eq_dec : EqDecision exn.
Proof. solve_decision. Defined.

Inductive outcome (A : Type) :=
| Return (a : A)
| Raise (e : exn).
Arguments Return {A} a.
Arguments Raise {A} e.

(** [pathlib] paths: the concrete class and the components. *)
Inductive flavour := PosixPath | WindowsPath.

Record path := Path { path_flavour : flavour; parts : list string }.

#[export] Instance flavour_eq_dec : EqDecision flavour.
Proof. solve_decision. Defined.
#[export] Instance path_eq_dec : EqDecision path.
Proof. solve_decision. Defined.

(** An element of a command list: a string or a path object. *)
Inductive arg :=
| S_ (s : string)
| P_ (p : path).

#[export] Instance arg_eq_dec : EqDecision arg.
Proof. solve_decision. Defined.

(** What the file system holds at a path. *)
Inductive node :=
| File (content : string)
| Dir.

(** A completed process, as the scripts read it: exit status, captured
    streams, and the elapsed time of the call as the [0.2f] format of
    [terminal_render_timer] rounds it, in hundredths of a second. *)
Record proc := Proc {
  returncode : Z;
  proc_stdout : string;
  proc_stderr : string;
  elapsed : N
}.

(** One piece of a printed f-string. *)
Inductive piece :=
| Txt (s : string)
| Pth (p : path)
| Cmd (c : list arg).

(** Observable steps, oldest first in the log. *)
Inductive event :=
| Printed (msg : list piece)
| Spawned (cmd : list arg)
| Statted (p : path).

Module PurePath.
Import PyStr.

(** The components are those of [p.parts]. The first one of an absolute
    path is its anchor: the root on POSIX; a drive, a root or both on
    Windows. The others are names, and a name holds no separator. *)
Definition is_anchor (f : flavour) (s : string) : bool :=
  match f with
  | PosixPath => String.prefix "/" s
  | WindowsPath =>
      contains (String "092"%char "") s || String.eqb (drop 1 s) ":"
  end.

(** A path that is its anchor and nothing more. *)
Definition bare_anchor (p : path) : bool :=
  match parts p with
  | [a] => is_anchor (path_flavour p) a
  | _ => false
  end.

(** [p.name]: the last component, and the empty string for a bare
    anchor. *)
Definition name (p : path) : string :=
  if bare_anchor p then "" else List.last (parts p) "".

(** [p.parent]: the path without its last component. A bare anchor is
    its own parent, and so is the path without components. *)
Definition parent (p : path) : path :=
  if bare_anchor p then p
  else Path (path_flavour p) (removelast (parts p)).

(** [joinpath(d, n)]. *)
Definition joinpath (d : path) (n : string) : path :=
  Path (path_flavour d) (parts d ++ [n]).

(** Index of the last dot of a name ([name.rfind('.')]). *)
Fixpoint rfind_dot (s : string) : option nat :=
  match s with
  | "" => None
  | String c s' =>
      match rfind_dot s' with
      | Some i => Some (S i)
      | None => if Ascii.eqb c "."%char then Some 0 else None
      end
  end.

(** [p.suffix]: from the last dot on, unless the dot starts or ends the
    name. *)
Definition suffix (p : path) : string :=
  let n := name p in
  match rfind_dot n with
  | Some i => if (0 <? i)%nat && (i <? String.length n - 1)%nat
              then drop i n else ""
  | None => ""
  end.

(** [p.stem]: the name without its suffix. *)
Definition stem (p : path) : string :=
  let n := name p in
  match rfind_dot n with
  | Some i => if (0 <? i)%nat && (i <? String.length n - 1)%nat
              then take i n else n
  | None => n
  end.

(** [p.suffixes]: one suffix for each dot of the name after its leading
    dots; none when the name ends with a dot. *)
Definition suffixes (p : path) : list string :=
  let n := name p in
  if String.eqb (last_n 1 n) "." then []
  else map (String "."%char) (tl (split_on "."%char (lstrip "."%char n))).

End PurePath.

(** The commands of the processes a log records. *)
Definition spawned (l : list event) : list (list arg) :=
  omap (fun e => match e with Spawned c => Some c | _ => None end) l.

Section World.

(** The state of everything outside the scripts that a spawned tool may
    read or change besides the file system, and the tools themselves:
    what a process spawned with a command returns and leaves behind. *)
Context {Env : Type}.
Variable spawn :
  list arg -> gmap (list string) node -> Env ->
  proc * gmap (list string) node * Env.

Record World := mkWorld {
  fs : gmap (list string) node;
  heap : gmap nat (list arg);
  log : list event;
  env : Env
}.

Definition M (A : Type) : Type := World -> outcome A * World.

Definition ret {A : Type} (a : A) : M A := fun w => (Return a, w).

#[export] Instance M_ret : MRet M := @ret.

#[export] Instance M_bind : MBind M := fun A B f m w =>
  match m w with
  | (Return a, w') => f a w'
  | (Raise e, w') => (Raise e, w')
  end.

Definition raise {A : Type} (e : exn) : M A := fun w => (Raise e, w).

(** [try: body except e: handler]. *)
Definition try_except {A : Type} (body : M A) (e : exn) (handler : M A) : M A :=
  fun w =>
    match body w with
    | (Raise e', w') => if decide (e' = e) then handler w' else (Raise e', w')
    | r => r
    end.

(** [try: x = first; rest except e: handler], where the handler reads
    [x]: it is bound only if [first] returned. *)
Definition try_bound {A B : Type} (first : M B) (rest : B -> M A) (e : exn)
    (handler : option B -> M A) : M A :=
  fun w =>
    match first w with
    | (Raise e', w') =>
        if decide (e' = e) then handler None w' else (Raise e', w')
    | (Return b, w') =>
        match rest b w' with
        | (Raise e', w'') =>
            if decide (e' = e) then handler (Some b) w'' else (Raise e', w'')
        | r => r
        end
    end.

(** The world after one more event. *)
Definition logged (w : World) (e : event) : World :=
  mkWorld (fs w) (heap w) (log w ++ [e]) (env w).

Definition emit (e : event) : M unit := fun w => (Return tt, logged w e).

Definition print (msg : list piece) : M unit := emit (Printed msg).

(** [if flag is True: print(msg)]. *)
Definition print_if (flag : bool) (msg : list piece) : M unit :=
  if flag then print msg else ret tt.

Definition quit {A : Type} : M A := raise SystemExit.

Definition get_fs : M (gmap (list string) node) := fun w => (Return (fs w), w).

Definition put_fs (f : gmap (list string) node) : M unit :=
  fun w => (Return tt, mkWorld f (heap w) (log w) (env w)).

(** *** List objects *)

(** A fresh list object holding [l]. *)
Definition new_list (l : list arg) : M nat :=
  fun w =>
    let r := fresh (dom (heap w)) in
    (Return r, mkWorld (fs w) (<[r := l]> (heap w)) (log w) (env w)).

(** The current contents of a list object. *)
Definition read_list (r : nat) : M (list arg) :=
  fun w => (Return (default [] (heap w !! r)), w).

(** [l += xs] and [l.append(x)]: the object itself grows. *)
Definition extend_list (r : nat) (xs : list arg) : M unit :=
  fun w =>
    (Return tt,
     mkWorld (fs w) (<[r := default [] (heap w !! r) ++ xs]> (heap w))
             (log w) (env w)).

(** *** Processes *)

(** [subprocess.run(cmd, stdout=PIPE, stderr=PIPE, ...)], with or
    without [check=True]: only the checked form raises on a non-zero
    exit status. The model starts at a program that could be started and
    has completed: [spawn] answers with its exit status, its output and
    its effect on the files. A program that cannot be started at all,
    where [subprocess.run] raises [FileNotFoundError] or another
    [OSError] before any process exists, is outside the model, and every
    statement about a call that runs processes is a statement about the
    runs in which they were started. *)
Definition sub_run (check : bool) (cmd : list arg) : M proc :=
  fun w =>
    let '(p, f, e) := spawn cmd (fs w) (env w) in
    let w' := mkWorld f (heap w) (log w ++ [Spawned cmd]) e in
    if check && negb (returncode p =? 0)%Z
    then (Raise CalledProcessError, w')
    else (Return p, w').

(** [CompletedProcess.check_returncode]. *)
Definition check_returncode (p : proc) : M unit :=
  if (returncode p =? 0)%Z then ret tt else raise CalledProcessError.

(** *** pathlib and shutil on the modelled file system *)

Definition has_children (f : gmap (list string) node) (d : list string) : bool :=
  existsb (λ k, bool_decide (removelast k = d ∧ k ≠ []))
          (map fst (map_to_list f)).

Definition path_exists (p : path) : M bool :=
  _ ← emit (Statted p);
  f ← get_fs;
  ret (bool_decide (is_Some (f !! parts p))).

Definition is_file (p : path) : M bool :=
  _ ← emit (Statted p);
  f ← get_fs;
  ret (match f !! parts p with Some (File _) => true | _ => false end).

Definition mkdir (p : path) : M unit :=
  f ← get_fs;
  match f !! parts p with
  | Some _ => raise FileExistsError
  | None =>
      match f !! parts (PurePath.parent p) with
      | Some Dir => put_fs (<[parts p := Dir]> f)
      | Some (File _) => raise NotADirectoryError
      | None => raise FileNotFoundError
      end
  end.

Definition rmdir (p : path) : M unit :=
  f ← get_fs;
  match f !! parts p with
  | None => raise FileNotFoundError
  | Some (File _) => raise NotADirectoryError
  | Some Dir =>
      if has_children f (parts p) then raise DirectoryNotEmpty
      else put_fs (delete (parts p) f)
  end.

Definition unlink (p : path) : M unit :=
  f ← get_fs;
  match f !! parts p with
  | None => raise FileNotFoundError
  | Some Dir => raise IsADirectoryError
  | Some (File _) => put_fs (delete (parts p) f)
  end.

(** [src.rename(dst)] for a file [src]. An existing file at [dst] is
    replaced on a Posix path and refused on a Windows path. *)
Definition rename (src dst : path) : M unit :=
  f ← get_fs;
  match f !! parts src with
  | None => raise FileNotFoundError
  | Some Dir => raise IsADirectoryError
  | Some (File c) =>
      match f !! parts (PurePath.parent dst) with
      | None => raise FileNotFoundError
      | Some (File _) => raise NotADirectoryError
      | Some Dir =>
          match f !! parts dst, path_flavour dst with
          | Some Dir, _ => raise IsADirectoryError
          | Some (File _), WindowsPath => raise FileExistsError
          | _, _ => put_fs (<[parts dst := File c]> (delete (parts src) f))
          end
      end
  end.

(** [shutil.copy2(src, dst)] where [dst] names the target file. *)
Definition copy2 (src dst : path) : M unit :=
  f ← get_fs;
  match f !! parts src with
  | None => raise FileNotFoundError
  | Some Dir => raise IsADirectoryError
  | Some (File c) =>
      if decide (parts src = parts dst) then raise SameFileError
      else
        match f !! parts dst with
        | Some Dir =>
            let inner := parts dst ++ [PurePath.name src] in
            match f !! inner with
            | Some Dir => raise IsADirectoryError
            | _ => put_fs (<[inner := File c]> f)
            end
        | Some (File _) => put_fs (<[parts dst := File c]> f)
        | None =>
            match f !! parts (PurePath.parent dst) with
            | Some Dir => put_fs (<[parts dst := File c]> f)
            | Some (File _) => raise NotADirectoryError
            | None => raise FileNotFoundError
            end
        end
  end.

(** [d.iterdir()], as a list of paths. *)
Definition iterdir (d : path) : M (list path) :=
  f ← get_fs;
  match f !! parts d with
  | None => raise FileNotFoundError
  | Some (File _) => raise NotADirectoryError
  | Some Dir =>
      ret (map (Path (path_flavour d))
              (filter (λ k, removelast k = parts d ∧ k ≠ [])
                      (map fst (map_to_list f))))
  end.

(** [for x in l: body x], for a body that returns nothing. *)
Fixpoint for_each {A : Type} (l : list A) (body : A -> M unit) : M unit :=
  match l with
  | [] => ret tt
  | x :: l' => _ ← body x; for_each l' body
  end.

(** A computation is framed when, from every world, it keeps the list
    objects as they are and only adds to the log. *)
Definition framed {A : Type} (m : M A) : Prop :=
  forall w, heap (m w).2 = heap w /\ exists evs, log (m w).2 = log w ++ evs.

End World.

Arguments World : clear implicits.
Arguments M : clear implicits.

(* ================================================================= *)
(** ** VerifyInputType.py *)

Module VerifyInputType.
Import PyStr.

(** The classes the check compares: the class of the value at hand and
    the class asked for. Classes other than those the check knows are
    told apart by their qualified name. *)
Inductive pytype :=
| TPath
| TPosixPath
| TWindowsPath
| TInt
| TFloat
| TBool
| TStr
| TList
| TOther (qualname : string).

#[export] Instance pytype_eq_dec : EqDecision pytype.
Proof. solve_decision. Defined.

Definition qualname_of (t : pytype) : string :=
  match t with
  | TPath => "pathlib.Path"
  | TPosixPath => "pathlib.PosixPath"
  | TWindowsPath => "pathlib.WindowsPath"
  | TInt => "int"
  | TFloat => "float"
  | TBool => "bool"
  | TStr => "str"
  | TList => "list"
  | TOther q => q
  end.

(** A class as an f-string shows it. *)
Definition class_text (t : pytype) : string :=
  "<class '" +:+ qualname_of t +:+ "'>".

Section WithEnv.
Context {Env : Type}.

(** The two last lines of the method: the message and [quit()]. *)
Definition reject (in_type : pytype) (in_type_str target_type_err_str : string)
  : M Env (option bool) :=
  _ ← print [Txt ("Error, " +:+ in_type_str +:+ " must be " +:+ target_type_err_str
                  +:+ " not " +:+ dq +:+ class_text in_type +:+ dq)];
  quit.

(** [is_type_or_print_err_and_quit]. [None] is the end of the method,
    [Some false] its [return False]. *)
Definition is_type_or_print_err_and_quit (in_type target_type : pytype)
    (in_type_str : string) : M Env (option bool) :=
  if bool_decide (in_type ≠ target_type) then
    match target_type with
    | TPath =>
        if bool_decide (in_type ≠ TPosixPath) && bool_decide (in_type ≠ TWindowsPath)
        then reject in_type in_type_str "a pathlib PosixPath or WindowsPath"
        else ret (Some false)
    | TInt => reject in_type in_type_str "an int"
    | TFloat => reject in_type in_type_str "a float"
    | TBool => reject in_type in_type_str "True or False"
    | TStr => reject in_type in_type_str "a str"
    | TList => reject in_type in_type_str "a list"
    | _ =>
        _ ← print [Txt ("Error, " +:+ dq +:+ class_text target_type
                        +:+ "," +:+ dq
                        +:+ " is not a type that can be checked in _is_type_or_print_err yet.")];
        quit
    end
  else ret None.

End WithEnv.
End VerifyInputType.

(* ================================================================= *)
(** ** Render.py: the primary phase *)

Module Render.
Import PyStr.

(** [open_after_ren]: False, True, or the name of an application. *)
Inductive open_after :=
| OpenNo
| OpenYes
| OpenWith (app : string).

(** [input_path__pathlib_object_or_list]. *)
Inductive path_or_list :=
| OnePath (p : path)
| PathList (l : list path).

(** A [Render] instance. [ren_cmd] refers to the list object handed to
    the constructor: the instance and its caller share it. *)
Record t := mk {
  in_path : path_or_list;
  out_paths_list : list path;
  ren_cmd : nat;
  print_success : bool;
  print_err : bool;
  print_ren_info : bool;
  print_ren_time : bool;
  open_after_ren : open_after
}.

(** [Render.__init__] with an output that may be one path or a list. *)
Definition init (input : path_or_list) (out_file_or_out_list : path_or_list)
    (render_cmd : nat) (print_success print_err print_ren_info print_ren_time : bool)
    (open_after_ren : open_after) : t :=
  mk input
     (match out_file_or_out_list with
      | OnePath p => [p]
      | PathList l => l
      end)
     render_cmd print_success print_err print_ren_info print_ren_time
     open_after_ren.

(** Two decimal digits of a number below one hundred. *)
Definition two_digits (n : N) : string :=
  if (n <? 10)%N then "0" +:+ of_N n else of_N n.

(** [terminal_render_timer(start, end, operation_keyword)], on the
    elapsed time [cs] in hundredths of a second: [total_ren_dur] is the
    decimal [cs / 100] with two fractional digits. *)
Definition terminal_render_timer (cs : N) (operation_keyword : string) : string :=
  let frac_sec := "." +:+ two_digits (cs mod 100) in
  let seconds0 := (cs / 100)%N in
  let minutes0 := (seconds0 / 60)%N in
  let seconds := (seconds0 mod 60)%N in
  let hours := (minutes0 / 60)%N in
  let minutes := (minutes0 mod 60)%N in
  let begin_word :=
    if String.eqb operation_keyword " to scan" then "took"
    else "Over the course of" in
  let hours_plural := if (hours =? 1)%N then "" else "s" in
  let minutes_plural := if (minutes =? 1)%N then "" else "s" in
  let seconds_plural :=
    if (seconds =? 1)%N && String.eqb frac_sec ".00" then "" else "s" in
  let total_sec :=
    of_N seconds +:+ frac_sec +:+ " second" +:+ seconds_plural
    +:+ operation_keyword +:+ "." in
  let total_min := of_N minutes +:+ " minute" +:+ minutes_plural in
  let total_hr := of_N hours +:+ " hour" +:+ hours_plural in
  let start := begin_word +:+ " " in
  if (1 <=? hours)%N && (1 <=? minutes)%N
  then start +:+ total_hr +:+ ", " +:+ total_min +:+ ", and " +:+ total_sec
  else if (1 <=? minutes)%N
  then start +:+ total_min +:+ " and " +:+ total_sec
  else start +:+ total_sec.

Section WithTools.
Context {Env : Type}.
Variable spawn :
  list arg -> gmap (list string) node -> Env ->
  proc * gmap (list string) node * Env.

(** [_check_open_after_ren]. The loop returns from inside as soon as a
    custom application meets a Windows path. Every modelled path is a
    Posix or a Windows path, so the branch that quits on another path
    class has no counterpart. *)
Fixpoint _check_open_after_ren_loop (self : t) (outs : list path) : M Env bool :=
  match outs with
  | [] => ret true
  | out_path :: outs' =>
      match open_after_ren self, path_flavour out_path with
      | OpenWith app, WindowsPath =>
          _ ← print [Txt "Error, a custom application for opening a video after it finishes rendering is not available for WindowsPath so self.open_after_ren must be True or False, not";
                     Txt app];
          ret false
      | OpenNo, _ => _check_open_after_ren_loop self outs'
      | oar, fl =>
          let open_keyword :=
            match fl with PosixPath => "open" | WindowsPath => "start" end in
          let open_cmd :=
            match oar with
            | OpenWith app => [S_ open_keyword; S_ "-a"; S_ app; P_ out_path]
            | _ => [S_ open_keyword; P_ out_path]
            end in
          _ ← sub_run spawn false open_cmd;
          _check_open_after_ren_loop self outs'
      end
  end.

Definition _check_open_after_ren (self : t) : M Env bool :=
  _check_open_after_ren_loop self (out_paths_list self).

(** [self.out_paths_list[0].exists()]. *)
Definition first_out_exists (self : t) : M Env bool :=
  match out_paths_list self with
  | [] => raise IndexError
  | p :: _ => path_exists p
  end.

Definition print_rendered (self : t) : M Env unit :=
  for_each (out_paths_list self)
    (λ out_path, print [Txt dq; Pth out_path; Txt (dq +:+ " was rendered successfully!")]).

(** What follows [sub.run] inside the [try] of [run_terminal_cmd]. *)
Definition run_terminal_cmd_checked (self : t)
    (append_hide_banner append_faststart : bool) (render_process : proc)
  : M Env bool :=
  _ ← check_returncode render_process;
  shown ← (if print_ren_info self then first_out_exists self else ret false);
  _ ← print_if shown [Txt (String nl (proc_stderr render_process))];
  _ ← (if print_success self && negb append_faststart && negb append_hide_banner
       then print_rendered self
       else
         made ← (if print_success self then first_out_exists self else ret false);
         if (made : bool) then print_rendered self else ret tt);
  _ ← print_if (print_ren_time self)
        [Txt (terminal_render_timer (elapsed render_process) "")];
  _ ← _check_open_after_ren self;
  ret true.

(** The [except sub.CalledProcessError] of [run_terminal_cmd]. *)
Definition run_terminal_cmd_failed (self : t) (render_process : option proc)
  : M Env bool :=
  if print_err self then
    cmd ← read_list (ren_cmd self);
    _ ← print [Txt (String nl "Error, a problem occurred while rendering:")];
    _ ← print [Txt "Terminal input command: "; Cmd cmd];
    match render_process with
    | Some p =>
        _ ← print [Txt (proc_stderr p)];
        _ ← print [];
        ret false
    | None => raise UnboundLocalError
    end
  else ret false.

(** [run_terminal_cmd]: the flags are appended to the command object
    first, then the command runs. *)
Definition run_terminal_cmd (self : t)
    (append_hide_banner append_faststart : bool) : M Env bool :=
  _ ← (if append_hide_banner
       then extend_list (ren_cmd self) [S_ "-hide_banner"] else ret tt);
  _ ← (if append_faststart
       then extend_list (ren_cmd self) [S_ "-movflags"; S_ "+faststart"]
       else ret tt);
  try_bound
    (cmd ← read_list (ren_cmd self); sub_run spawn false cmd)
    (run_terminal_cmd_checked self append_hide_banner append_faststart)
    CalledProcessError
    (run_terminal_cmd_failed self).

(** The flags [run_terminal_cmd] appends by default. *)
Definition default_flags : list arg :=
  [S_ "-hide_banner"; S_ "-movflags"; S_ "+faststart"].

(** The input-path loop of [check_depend_then_ren]. *)
Fixpoint check_inputs (input_path_list : list path) : M Env unit :=
  match input_path_list with
  | [] => ret tt
  | in_path :: rest =>
      e ← path_exists in_path;
      if negb (e : bool) then
        _ ← print [Txt ("Error, input file, " +:+ dq); Pth in_path;
                   Txt (dq +:+ " not found.")];
        (quit : M Env unit)
      else
        f ← is_file in_path;
        if negb (f : bool) then
          _ ← print [Txt ("Error, input " +:+ dq); Pth in_path;
                     Txt (dq +:+ " is not a file.")];
          (quit : M Env unit)
        else check_inputs rest
  end.

(** The output-path loop of [check_depend_then_ren]. *)
Fixpoint check_outputs (outs : list path) : M Env unit :=
  match outs with
  | [] => ret tt
  | out_path :: rest =>
      f ← is_file out_path;
      if (f : bool) then
        _ ← print [Txt ("Error, target output file, " +:+ dq); Pth out_path;
                   Txt (dq +:+ " already exists.")];
        (quit : M Env unit)
      else
        e ← path_exists (PurePath.parent out_path);
        if negb (e : bool) then
          _ ← print [Txt ("Error, " +:+ dq); Pth (PurePath.parent out_path);
                     Txt (dq +:+ " is not a valid output directory.")];
          (quit : M Env unit)
        else check_outputs rest
  end.

(** [check_depend_then_ren]. *)
Definition check_depend_then_ren (self : t) (append_faststart : bool) : M Env bool :=
  let input_path_list :=
    match in_path self with
    | OnePath p => [p]
    | PathList l => l
    end in
  _ ← check_inputs input_path_list;
  _ ← check_outputs (out_paths_list self);
  run_terminal_cmd self true append_faststart.

End WithTools.
End Render.

(* ================================================================= *)
(** ** MetadataAcquisition.py *)

Module MetadataAcquisition.
Import PyStr.

Record t := mk {
  in_path : path;
  print_all_info : bool;
  print_scan_time : bool;
  print_meta_value : bool
}.

(** What [_term_return_file_info] hands back: the captured text, or the
    [False] of its exception handler. *)
Inductive info :=
| Info (text : string)
| InfoFalse.

(** A value passed for one of the twenty fields of [return_metadata]:
    [False] (the default), [True], an integer or a string. *)
Inductive meta_arg :=
| MFalse
| MTrue
| MInt (n : Z)
| MStr (s : string).

(** The dictionary key a value is stored under: [False] and [True] hash
    and compare as the integers 0 and 1. *)
Definition key_of (a : meta_arg) : Z + string :=
  match a with
  | MFalse => inl 0%Z
  | MTrue => inl 1%Z
  | MInt n => inl n
  | MStr s => inr s
  end.

(** The keyword arguments of [return_metadata], in declaration order. *)
Record query := mkQuery {
  artist_author : meta_arg;
  album : meta_arg;
  description : meta_arg;
  lyrics : meta_arg;
  genre : meta_arg;
  composer : meta_arg;
  track_num : meta_arg;
  disc_num : meta_arg;
  date : meta_arg;
  start_offset : meta_arg;
  comment : meta_arg;
  title : meta_arg;
  duration : meta_arg;
  performer : meta_arg;
  max_volume : meta_arg;
  first_aud_strm_info : meta_arg;
  first_vid_strm_info : meta_arg;
  every_stream_info : meta_arg;
  crop_detect : meta_arg;
  vid_dim : meta_arg
}.

(** The call with every field left at its default. *)
Definition no_fields : query :=
  mkQuery MFalse MFalse MFalse MFalse MFalse MFalse MFalse MFalse MFalse MFalse
          MFalse MFalse MFalse MFalse MFalse MFalse MFalse MFalse MFalse MFalse.

(** [dict([...])]: later pairs overwrite earlier ones with an equal key. *)
Definition dict_of (pairs : list (meta_arg * string)) : gmap (Z + string) string :=
  fold_left (λ d kv, <[key_of kv.1 := kv.2]> d) pairs ∅.

Definition meta_dict (q : query) : gmap (Z + string) string :=
  dict_of [
    (artist_author q, "artist");
    (album q, "album");
    (description q, "description");
    (lyrics q, "lyrics");
    (genre q, "genre");
    (composer q, "composer");
    (track_num q, "track");
    (disc_num q, "disc");
    (date q, "date");
    (start_offset q, "start");
    (comment q, "comment");
    (title q, "title");
    (duration q, "Duration");
    (performer q, "performer");
    (max_volume q, "max_volume");
    (first_aud_strm_info q, "Audio");
    (first_vid_strm_info q, "Video");
    (every_stream_info q, "Stream");
    (crop_detect q, "crop");
    (vid_dim q, "dimensions")
  ].

Definition in_meta_value_list (q : query) : list meta_arg :=
  [artist_author q; album q; description q; lyrics q; genre q; composer q;
   track_num q; disc_num q; date q; start_offset q; comment q; title q;
   duration q; performer q; max_volume q; first_aud_strm_info q;
   first_vid_strm_info q; every_stream_info q; crop_detect q; vid_dim q].

(** Truth value of an argument, as [all(...)] tests it. *)
Definition truthy (a : meta_arg) : bool :=
  match a with
  | MFalse => false
  | MTrue => true
  | MInt n => negb (n =? 0)%Z
  | MStr s => negb (String.eqb s "")
  end.

(** [f'{n:02d}']. *)
Definition fmt02d (n : Z) : string :=
  if (0 <=? n)%Z && (n <? 10)%Z then "0" +:+ of_Z n else of_Z n.

(** [list.sort()] on strings and on integers. *)
Fixpoint insert_str (x : string) (l : list string) : list string :=
  match l with
  | [] => [x]
  | y :: l' => if String.ltb x y then x :: l else y :: insert_str x l'
  end.

Definition sort_str (l : list string) : list string :=
  fold_left (λ acc x, insert_str x acc) l [].

Fixpoint insert_int (x : Z) (l : list Z) : list Z :=
  match l with
  | [] => [x]
  | y :: l' => if (x <? y)%Z then x :: l else y :: insert_int x l'
  end.

Definition sort_int (l : list Z) : list Z :=
  fold_left (λ acc x, insert_int x acc) l [].

(** The duplicate scan over the sorted output-order integers:
    [dup_int_scanned] counts, [dupe_in_int] collects each integer once,
    at its second sighting. *)
Fixpoint scan_dupes (ints : list Z) (dup_int_scanned : gmap Z Z)
    (dupe_in_int : list Z) : list Z :=
  match ints with
  | [] => dupe_in_int
  | in_int :: rest =>
      match dup_int_scanned !! in_int with
      | None => scan_dupes rest (<[in_int := 1%Z]> dup_int_scanned) dupe_in_int
      | Some c =>
          scan_dupes rest (<[in_int := (c + 1)%Z]> dup_int_scanned)
            (if (c =? 1)%Z then dupe_in_int ++ [in_int] else dupe_in_int)
      end
  end.

(** *** The scanner of [_find_meta_value] *)

(** The variables the two nested loops update, the texts they print, and
    whether [file_info_after_keyword_list.clear()] has run, which ends
    the outer loop. *)
Record scan := mkScan {
  keyword_value : string;
  complete_key_value : string;
  return_metadata_value_list : list (option string);
  printed : list (list piece);
  cleared : bool
}.

Definition say (flag : bool) (msg : list piece) (st : scan) : list (list piece) :=
  if flag then printed st ++ [msg] else printed st.

(** The value the generic branch completes at a character that is
    neither a colon nor a space. *)
Definition complete_keyword_value (keyword : string) (keyword_value : string)
  : string :=
  let v := rstrip nl keyword_value in
  let v :=
    if String.eqb keyword "start" || String.eqb keyword "Duration"
    then lstrip "0"%char (hd "" (split_on ","%char v))
    else v in
  if String.eqb keyword "Duration" && String.eqb (take 1 v) ":"
  then drop 1 v else v.

(** The loop over the characters of one line. [suffix] is
    [info_line_str[info_line_str_index:]]; [last_line] is the test
    [info_after_key_list_index + 1 == len(file_info_after_keyword_list)].
    Returning [st] is [break] (or the end of the line); the recursive
    call is the next character. *)
Fixpoint scan_line (self : t) (keyword : string) (last_line : bool)
    (suffix : string) (st : scan) : scan :=
  match suffix with
  | "" => st
  | String info_line_str_value rest =>
      if String.eqb keyword "Stream" then
        if Ascii.eqb info_line_str_value "#"%char then
          let kv := rest +:+ NL in
          mkScan kv (complete_key_value st +:+ kv)
                 (return_metadata_value_list st) (printed st) (cleared st)
        else if slice_is 6 "Stream" suffix then
          let kv := drop 8 suffix +:+ NL in
          mkScan kv (complete_key_value st +:+ kv)
                 (return_metadata_value_list st) (printed st) (cleared st)
        else if last_line then
          mkScan (keyword_value st) (complete_key_value st)
                 (return_metadata_value_list st ++ [Some (complete_key_value st)])
                 (say (print_meta_value self)
                      [Txt (NL +:+ keyword +:+ "(s):" +:+ NL
                            +:+ drop_last (complete_key_value st))] st)
                 true
        else if negb (Ascii.eqb info_line_str_value " "%char) then st
        else scan_line self keyword last_line rest st
      else if String.eqb keyword "crop" then
        if slice_is 4 "crop" suffix then
          let kv := drop 5 suffix in
          mkScan kv (complete_key_value st)
                 (return_metadata_value_list st ++ [Some kv])
                 (say (print_meta_value self)
                      [Txt (keyword +:+ ":" +:+ NL +:+ kv)] st)
                 true
        else scan_line self keyword last_line rest st
      else if Ascii.eqb info_line_str_value ":"%char then
        mkScan (keyword_value st +:+ drop 2 suffix +:+ NL)
               (complete_key_value st) (return_metadata_value_list st)
               (printed st) (cleared st)
      else if negb (Ascii.eqb info_line_str_value " "%char) then
        let v := complete_keyword_value keyword (keyword_value st) in
        if String.eqb v "" then
          scan_line self keyword last_line rest
            (mkScan (keyword_value st) (complete_key_value st)
                    (return_metadata_value_list st ++ [None])
                    (say (print_meta_value self)
                         [Txt (keyword +:+ ":" +:+ NL
                               +:+ "Error, metadata value " +:+ dq +:+ keyword
                               +:+ dq +:+ " not found.")] st)
                    (cleared st))
        else
          mkScan (keyword_value st) (complete_key_value st)
                 (return_metadata_value_list st ++ [Some v])
                 (say (print_meta_value self)
                      [Txt (NL +:+ keyword +:+ ":" +:+ NL +:+ v)] st)
                 true
      else scan_line self keyword last_line rest st
  end.

(** The loop over the lines; [index] is [info_after_key_list_index] and
    [len] the length of the whole list. *)
Fixpoint scan_lines (self : t) (keyword : string) (len index : nat)
    (lines : list string) (st : scan) : scan :=
  match lines with
  | [] => st
  | info_line_str :: rest =>
      let st' := scan_line self keyword (index + 1 =? len)%nat info_line_str st in
      if cleared st' then st'
      else scan_lines self keyword len (S index) rest st'
  end.

(** The list the loops run over: the text after the first occurrence of
    the keyword, split into lines, with one more line of a single space. *)
Definition file_info_after_keyword_list (after : string) : list string :=
  split_on nl after ++ [" "].

Definition scan_after (self : t) (keyword after : string) : scan :=
  let lines := file_info_after_keyword_list after in
  scan_lines self keyword (length lines) 0 lines (mkScan "" "" [] [] false).

Section WithTools.
Context {Env : Type}.
Variable spawn :
  list arg -> gmap (list string) node -> Env ->
  proc * gmap (list string) node * Env.

(** [_check_file_exists]. *)
Definition _check_file_exists (self : t) : M Env bool :=
  e ← path_exists (in_path self);
  if negb (e : bool) then
    _ ← print [Txt ("Error, input file, " +:+ dq); Pth (in_path self);
               Txt (dq +:+ " not found.")];
    quit
  else
    f ← is_file (in_path self);
    if negb (f : bool) then
      _ ← print [Txt ("Error, input " +:+ dq); Pth (in_path self);
                 Txt (dq +:+ " is not a file.")];
      quit
    else ret true.

(** The command [_term_return_file_info] runs. *)
Definition info_cmd (self : t) (custom_cmd : option (list arg)) : list arg :=
  match custom_cmd with
  | None => [S_ "ffprobe"; S_ "-i"; P_ (in_path self); S_ "-hide_banner"]
  | Some c => c
  end.

(** What follows [sub.run] inside the [try] of [_term_return_file_info]. *)
Definition _term_return_file_info_report (self : t) (info_process : proc)
  : M Env info :=
  _ ← print_if (print_all_info self) [Txt (proc_stderr info_process)];
  _ ← (if print_scan_time self then
         _ ← print [Txt (NL +:+ dq); Pth (in_path self); Txt dq];
         print [Txt (Render.terminal_render_timer (elapsed info_process) " to scan")]
       else ret tt);
  ret (Info (proc_stderr info_process +:+ proc_stdout info_process)).

(** The [except sub.CalledProcessError] of [_term_return_file_info]. *)
Definition _term_return_file_info_failed (self : t) (cmd : list arg)
    (info_process : option proc) : M Env info :=
  if print_all_info self then
    _ ← print [Txt (NL +:+ "Error, a problem occurred with metadata acquisition:")];
    match info_process with
    | Some p =>
        _ ← print [Txt "Terminal input command: "; Cmd cmd;
                   Txt (NL +:+ proc_stderr p)];
        quit
    | None => raise UnboundLocalError
    end
  else ret InfoFalse.

(** [_term_return_file_info]: the process is run without [check=True]. *)
Definition _term_return_file_info (self : t) (custom_cmd : option (list arg))
  : M Env info :=
  try_bound
    (sub_run spawn false (info_cmd self custom_cmd))
    (_term_return_file_info_report self)
    CalledProcessError
    (_term_return_file_info_failed self (info_cmd self custom_cmd)).

(** [_find_meta_value]. *)
Definition _find_meta_value (self : t) (filter_output : info) (keyword : string)
  : M Env (option string) :=
  match filter_output with
  | InfoFalse => raise TypeError
  | Info text =>
      _ ← print_if (print_all_info self) [Txt (NL +:+ text)];
      if negb (contains keyword text) then
        _ ← print_if (print_meta_value self)
              [Txt (NL +:+ "Error, metadata value " +:+ dq +:+ keyword +:+ dq
                    +:+ " not found.")];
        ret None
      else if String.eqb keyword "" then raise ValueError
      else
        match after_first keyword text with
        | None => raise IndexError
        | Some after =>
            let st := scan_after self keyword after in
            _ ← for_each (printed st) print;
            _ ← print_if (print_meta_value self) [];
            match return_metadata_value_list st with
            | [] => raise IndexError
            | v :: _ => ret v
            end
        end
  end.

(** The nested [calculate_metadata] of [return_metadata]. *)
Definition calculate_metadata (self : t) (null_keyword : string)
    (format_str filter_str output_keyword : string) : M Env (option string) :=
  let calculate_value_cmd :=
    [S_ "ffmpeg"; S_ "-i"; P_ (in_path self); S_ format_str; S_ filter_str;
     S_ "-f"; S_ "null"; S_ null_keyword; S_ "-hide_banner"] in
  info_with_calculated_value ← _term_return_file_info self (Some calculate_value_cmd);
  _find_meta_value self info_with_calculated_value output_keyword.

(** The loop that checks the twenty values and collects the requested
    ones: the output-order integers and the keywords prefixed with their
    integer. *)
Fixpoint collect_fields (d : gmap (Z + string) string) (vals : list meta_arg)
    (out_order_int_list : list Z) (in_meta_keyword_list : list string)
  : M Env (list Z * list string) :=
  match vals with
  | [] => ret (out_order_int_list, in_meta_keyword_list)
  | MFalse :: rest => collect_fields d rest out_order_int_list in_meta_keyword_list
  | MInt n :: rest =>
      match d !! inl n with
      | Some kw =>
          collect_fields d rest (out_order_int_list ++ [n])
                         (in_meta_keyword_list ++ [fmt02d n +:+ kw])
      | None => raise KeyError
      end
  | MTrue :: _ =>
      _ ← print [Txt "Error, metadata values to return can only be integers (in ascending order to return) or False, not <class 'bool'> ";
                 Txt (dq +:+ "True" +:+ dq)];
      quit
  | MStr s :: _ =>
      _ ← print [Txt "Error, metadata values to return can only be integers (in ascending order to return) or False, not <class 'str'> ";
                 Txt (dq +:+ s +:+ dq)];
      quit
  end.

(** The range check over the sorted output-order integers. *)
Fixpoint check_range (ints : list Z) (count : nat) (keywords : nat) : M Env unit :=
  match ints with
  | [] => ret tt
  | meta_key_int :: rest =>
      if (meta_key_int <? 1)%Z || (Z.of_nat count <? meta_key_int)%Z then
        _ ← print [Txt ("Error, return order integer " +:+ dq +:+ of_Z meta_key_int
                        +:+ dq +:+ " must be in range 1-"
                        +:+ of_N (N.of_nat keywords))];
        quit
      else check_range rest count keywords
  end.

(** The loop [for value_keyword in out_keyword_sorted_list]. The local
    [current_key_value] is unbound ([None]) until the body has run once. *)
Fixpoint retrieve (self : t) (null_keyword : string) (keywords : list string)
    (current_key_value : option (option string))
  : M Env (option (option string)) :=
  match keywords with
  | [] => ret current_key_value
  | value_keyword :: rest =>
      v ← (if String.eqb value_keyword "max_volume" then
             calculate_metadata self null_keyword "-af" "volumedetect" "max_volume"
           else if String.eqb value_keyword "crop" then
             calculate_metadata self null_keyword "-vf" "cropdetect" "crop"
           else if String.eqb value_keyword "Stream" then
             file_info ← _term_return_file_info self None;
             _find_meta_value self file_info value_keyword
           else if String.eqb value_keyword "Duration" then
             info_with_dur ←
               _term_return_file_info self
                 (Some [S_ "ffmpeg"; S_ "-i"; P_ (in_path self);
                        S_ "-f"; S_ "null"; S_ "-"]);
             _find_meta_value self info_with_dur value_keyword
           else
             value ←
               _term_return_file_info self
                 (Some [S_ "ffprobe"; S_ "-v"; S_ "quiet"; S_ "-show_entries";
                        S_ ("format_tags=" +:+ value_keyword);
                        S_ "-of"; S_ "default=nw=1:nk=1"; P_ (in_path self)]);
             match value with
             | InfoFalse => raise TypeError
             | Info text =>
                 let this_value :=
                   if String.eqb text "" then None else Some (drop_last text) in
                 _ ← print_if (print_meta_value self)
                       (match this_value with
                        | None => [Txt (NL +:+ "Error, metadata value " +:+ dq
                                        +:+ value_keyword +:+ dq +:+ " not found.")]
                        | Some v => [Txt (NL +:+ value_keyword +:+ ":" +:+ NL +:+ v)]
                        end);
                 ret this_value
             end);
      retrieve self null_keyword rest (Some v)
  end.

(** The message of the check that at least one value was asked for. *)
Definition at_least_one_error : list piece :=
  [Txt "Error, at least one metadata value must be specified to return anything."].

(** [return_metadata]. The first check prints when [all(...)] of the
    twenty values holds, and goes on either way. *)
Definition return_metadata (self : t) (q : query) : M Env (list (option string)) :=
  let d := meta_dict q in
  _ ← print_if (forallb truthy (in_meta_value_list q)) at_least_one_error;
  collected ← collect_fields d (in_meta_value_list q) [] [];
  let in_meta_keyword_list := sort_str (snd collected) in
  let out_order_int_list := sort_int (fst collected) in
  let out_keyword_sorted_list := map (drop 2) in_meta_keyword_list in
  _ ← match scan_dupes out_order_int_list ∅ [] with
      | [] => ret tt
      | dupe :: _ =>
          _ ← print [Txt ("Error, output order number " +:+ dq +:+ of_Z dupe +:+ dq
                          +:+ " can only be specified once.")];
          quit
      end;
  _ ← check_range out_order_int_list (length out_order_int_list)
        (length in_meta_keyword_list);
  _ ← _check_file_exists self;
  let null_keyword :=
    match path_flavour (in_path self) with
    | PosixPath => "/dev/null"
    | WindowsPath => "NUL"
    end in
  current_key_value ← retrieve self null_keyword out_keyword_sorted_list None;
  match current_key_value with
  | None => raise UnboundLocalError
  | Some v => ret [v]
  end.

(** The query [every_stream_info=1]. *)
Definition only_every_stream_info : query :=
  mkQuery MFalse MFalse MFalse MFalse MFalse MFalse MFalse MFalse MFalse MFalse
          MFalse MFalse MFalse MFalse MFalse MFalse MFalse (MInt 1) MFalse MFalse.

(** The query [duration=1]. *)
Definition only_duration : query :=
  mkQuery MFalse MFalse MFalse MFalse MFalse MFalse MFalse MFalse MFalse MFalse
          MFalse MFalse (MInt 1) MFalse MFalse MFalse MFalse MFalse MFalse MFalse.

(** [return_stream_types]. *)
Definition return_stream_types (self : t) : M Env (list string) :=
  l ← return_metadata self only_every_stream_info;
  match l with
  | [] => raise IndexError
  | None :: _ => raise AttributeError
  | Some strm_types :: _ => ret (StreamTypes.classify_listing strm_types)
  end.

(** [extract_metadata_txt_file]. *)
Definition extract_metadata_txt_file (self : t) : M Env path :=
  _ ← _check_file_exists self;
  let ren_meta_txt_file :=
    PurePath.joinpath (PurePath.parent (in_path self))
                      (PurePath.stem (in_path self) +:+ "-METADATA.txt") in
  let ren_meta_txt_file_cmd :=
    [S_ "ffmpeg"; S_ "-i"; P_ (in_path self); S_ "-f"; S_ "ffmetadata";
     S_ "-hide_banner"; P_ ren_meta_txt_file] in
  e ← path_exists ren_meta_txt_file;
  _ ← (if (e : bool) then unlink ren_meta_txt_file else ret tt);
  _ ← _term_return_file_info self (Some ren_meta_txt_file_cmd);
  ret ren_meta_txt_file.

(** What [_return_sub_lang] hands back: a language keyword, [False], or
    the whole dictionary. *)
Inductive sub_lang :=
| Lang (keyword : string)
| LangFalse
| LangDict (d : gmap string string).

(** [lang_dict]: from the language suffix of a subtitle file to the
    keyword of the transcoder. *)
Definition lang_dict : gmap string string :=
  fold_left (λ d kv, <[kv.1 := kv.2]> d)
    [ ("en", "eng"); ("en-CA", "eng"); ("en-GB", "eng"); ("en-US", "eng");
      ("zh-Hans", "zho"); ("zh-Hant", "zho"); ("zh-TW", "zho");
      ("vi", "vie"); ("ca", "cat"); ("it", "ita"); ("iw", "heb");
      ("ar", "ara"); ("cs", "ces"); ("et", "est"); ("id", "ind");
      ("es", "spa"); ("es-419", "spa"); ("ru", "rus"); ("nl", "nld");
      ("pt", "por"); ("no", "nor"); ("tr", "tur"); ("lt", "lit");
      ("th", "tha"); ("ro", "ron"); ("pl", "pol"); ("fr", "fra");
      ("bg", "bul"); ("uk", "ukr"); ("sl", "slv"); ("hr", "hrv");
      ("hu", "hun"); ("pt-BR", "por"); ("fi", "fin"); ("da", "dan");
      ("ja", "jpn"); ("sr", "srp"); ("ko", "kor"); ("sv", "swe");
      ("sk", "slk"); ("de", "deu"); ("ms", "msa") ]
    ∅.

(** [_return_sub_lang]: the expression
    [lang_dict[self.in_path.suffixes[:-1][0][1:]]] inside a [try] that
    handles [KeyError] only. *)
Definition _return_sub_lang (self : t) (check_file : bool) : M Env sub_lang :=
  if check_file then
    try_except
      (match removelast (PurePath.suffixes (in_path self)) with
       | [] => raise IndexError
       | first_suffix :: _ =>
           match lang_dict !! drop 1 first_suffix with
           | Some keyword => ret (Lang keyword)
           | None => raise KeyError
           end
       end)
      KeyError
      (_ ← print_if (print_all_info self || print_meta_value self)
             [Txt ("Error, unknown language found for input " +:+ dq);
              Pth (in_path self); Txt dq];
       ret LangFalse)
  else ret (LangDict lang_dict).

End WithTools.
End MetadataAcquisition.

(* ================================================================= *)
(** ** datetime.strptime on the formats the converter uses *)

Module Strptime.
Import PyStr.

Inductive directive := dH | dM | dS | df.

Inductive item :=
| Dir (d : directive)
| Lit (c : ascii).

Definition is_digit (c : ascii) : bool :=
  let n := nat_of_ascii c in (48 <=? n)%nat && (n <=? 57)%nat.

Definition digit_val (c : ascii) : N := N.of_nat (nat_of_ascii c - 48).

(** [int(s)] for a string of decimal digits. *)
Definition int_of_digits (s : string) : N :=
  fold_left (λ acc c, (10 * acc + digit_val c)%N) (list_ascii_of_string s) 0%N.

Definition all_digits (s : string) : bool :=
  forallb is_digit (list_ascii_of_string s).

(** Whether the first [k] characters of [s] are [k] digits whose value
    is at most [bound]. *)
Definition digits_upto (k : nat) (bound : N) (s : string) : bool :=
  let p := take k s in
  (String.length p =? k)%nat && all_digits p && (int_of_digits p <=? bound)%N.

(** The lengths a directive may consume at the head of [s], in the order
    in which the regular expression of [_strptime] tries them:
    [%H] is [2[0-3]|[0-1]\d|\d], [%M] is [[0-5]\d|\d], [%S] is
    [6[0-1]|[0-5]\d|\d] and [%f] is [[0-9]{1,6}], greedy. *)
Definition candidates (d : directive) (s : string) : list nat :=
  match d with
  | dH => (if digits_upto 2 23 s then [2] else []) ++
          (if digits_upto 1 9 s then [1] else [])
  | dM => (if digits_upto 2 59 s then [2] else []) ++
          (if digits_upto 1 9 s then [1] else [])
  | dS => (if digits_upto 2 61 s then [2] else []) ++
          (if digits_upto 1 9 s then [1] else [])
  | df => filter (λ k, digits_upto k 999999 s = true) [6; 5; 4; 3; 2; 1]
  end%nat.

(** The groups a match binds. *)
Record groups := mkGroups {
  gH : option string;
  gM : option string;
  gS : option string;
  gf : option string
}.

Definition bind_group (d : directive) (v : string) (g : groups) : groups :=
  match d with
  | dH => mkGroups (Some v) (gM g) (gS g) (gf g)
  | dM => mkGroups (gH g) (Some v) (gS g) (gf g)
  | dS => mkGroups (gH g) (gM g) (Some v) (gf g)
  | df => mkGroups (gH g) (gM g) (gS g) (Some v)
  end.

(** [format_regex.match(data_string)]: the first match in backtracking
    order, with the text left after it. *)
Fixpoint re_match (fmt : list item) (s : string) (g : groups)
  : option (groups * string) :=
  match fmt with
  | [] => Some (g, s)
  | Lit c :: fmt' =>
      match s with
      | String a s' => if Ascii.eqb a c then re_match fmt' s' g else None
      | "" => None
      end
  | Dir d :: fmt' =>
      (fix try_each (ks : list nat) : option (groups * string) :=
         match ks with
         | [] => None
         | k :: ks' =>
             match re_match fmt' (drop k s) (bind_group d (take k s) g) with
             | Some r => Some r
             | None => try_each ks'
             end
         end) (candidates d s)
  end.

(** A [datetime.time]. *)
Record time := mkTime {
  hour : N;
  minute : N;
  second : N;
  microsecond : N
}.

Definition group_int (o : option string) : N :=
  match o with
  | Some v => int_of_digits v
  | None => 0%N
  end.

(** The fraction group, padded with zeros on the right to six digits. *)
Definition fraction_of (o : option string) : N :=
  match o with
  | Some v => int_of_digits (v +:+ take (6 - String.length v) "000000")
  | None => 0%N
  end.

(** [datetime.strptime(data_string, fmt).time()]; [None] is
    [ValueError]: no match, text left over, or a second of 60 or 61,
    which the expression accepts and the [datetime] constructor refuses. *)
Definition strptime (data_string : string) (fmt : list item) : option time :=
  match re_match fmt data_string (mkGroups None None None None) with
  | Some (g, "") =>
      if (group_int (gS g) <=? 59)%N
      then Some (mkTime (group_int (gH g)) (group_int (gM g))
                        (group_int (gS g)) (fraction_of (gf g)))
      else None
  | _ => None
  end.

Definition colon : item := Lit ":"%char.
Definition dot : item := Lit "."%char.

(** The six format strings of [_return_input_duration_in_sec]. *)
Definition fmt_HMS : list item := [Dir dH; colon; Dir dM; colon; Dir dS].
Definition fmt_MS : list item := [Dir dM; colon; Dir dS].
Definition fmt_S : list item := [Dir dS].
Definition fmt_HMSf : list item := fmt_HMS ++ [dot; Dir df].
Definition fmt_MSf : list item := fmt_MS ++ [dot; Dir df].
Definition fmt_Sf : list item := fmt_S ++ [dot; Dir df].

(** The binary64 nearest to the positive rational [n / d], ties to the
    even significand, as IEEE 754 rounds and [float] does. The exponent
    [e] is the one that puts [n / (d * 2 ^ e)] between [2 ^ 52] and
    [2 ^ 53]; the scaled value is rounded to an integer [m], and the
    result is [m * 2 ^ e] in lowest terms. The seconds of a day lie far
    inside the normal range of binary64, so overflow to infinity and
    subnormal numbers are not part of the model. *)
Definition round_pos (n d : positive) : Q :=
  let n := Z.pos n in
  let d := Z.pos d in
  let k := (Z.log2 n - Z.log2 d)%Z in
  let reaches :=
    if (0 <=? k)%Z then (d * 2 ^ k <=? n)%Z else (d <=? n * 2 ^ (- k))%Z in
  let e := ((if reaches then k else k - 1) - 52)%Z in
  let num := if (0 <=? e)%Z then n else (n * 2 ^ (- e))%Z in
  let den := if (0 <=? e)%Z then (d * 2 ^ e)%Z else d in
  let m0 := (num / den)%Z in
  let r := (num mod den)%Z in
  let m :=
    if (den <? 2 * r)%Z || ((den =? 2 * r)%Z && Z.odd m0)
    then (m0 + 1)%Z else m0 in
  if (0 <=? e)%Z then (m * 2 ^ e)%Z # 1
  else Qred (m # Z.to_pos (2 ^ (- e))).

Definition round_binary64 (q : Q) : Q :=
  match Qnum q with
  | Z0 => 0
  | Zpos n => round_pos n (Qden q)
  | Zneg n => Qopp (round_pos n (Qden q))
  end.

(** [float(text)] for a text made of digits, a point and at least one
    digit: the binary64 nearest to the rational the decimal denotes,
    held as the rational it is. *)
Definition float_of_decimal (text : string) : option Q :=
  match split_on "."%char text with
  | [ip; fp] =>
      if all_digits ip && all_digits fp
         && negb (String.eqb ip "") && negb (String.eqb fp "")
      then Some (round_binary64
                   (Qred (Z.of_N (int_of_digits (ip +:+ fp))
                          # Pos.pow 10 (Pos.of_nat (String.length fp)))))
      else None
  | _ => None
  end.

Fixpoint is_pow2 (fuel : nat) (p : positive) : bool :=
  match fuel, p with
  | _, xH => true
  | S fuel', xO p' => is_pow2 fuel' p'
  | _, _ => false
  end.

(** A rational in lowest terms with a numerator below 2^53 and a
    denominator that is a power of two up to 2^64: binary64 holds it
    exactly. *)
Definition binary64_exact (q : Q) : bool :=
  (Z.abs (Qnum q) <? 2 ^ 53)%Z && is_pow2 64 (Qden q).

End Strptime.

(* ================================================================= *)
(** ** FileOperations.py: the methods the patch phase and the timecode
       conversion use *)

Module FileOperations.
Import PyStr.

Record t := mk {
  in_path : path;
  out_dir : path;
  print_success : bool;
  print_err : bool;
  print_ren_info : bool;
  print_ren_time : bool;
  open_after_ren : bool;
  standard_out_path : path
}.

(** [FileOperations.__init__] for a single input path: the render time
    is not printed when successes are not, and the standard output path
    is the input's name inside [out_dir]. *)
Definition init (in_path out_dir : path)
    (print_success print_err print_ren_info print_ren_time open_after_ren : bool)
  : t :=
  mk in_path out_dir print_success print_err print_ren_info
     (if print_success then print_ren_time else false)
     open_after_ren
     (PurePath.joinpath out_dir (PurePath.name in_path)).

Definition open_flag (b : bool) : Render.open_after :=
  if b then Render.OpenYes else Render.OpenNo.

(** ['Artwork' in stream_types] and the like. *)
Definition mem (x : string) (l : list string) : bool :=
  existsb (String.eqb x) l.

(** [s.startswith(p)]. *)
Definition startswith (s p : string) : bool := String.prefix p s.

Section WithTools.
Context {Env : Type}.
Variable spawn :
  list arg -> gmap (list string) node -> Env ->
  proc * gmap (list string) node * Env.

(** [Render(...)] on a command list built by the caller: the list
    becomes an object of its own when the method hands it over. *)
Definition render_with (self : t) (input out : path) (ffmpeg_cmd : list arg)
    (open_after_ren : bool) : M Env Render.t :=
  r ← new_list ffmpeg_cmd;
  ret (Render.init (Render.OnePath input) (Render.OnePath out) r
         (print_success self) (print_err self) (print_ren_info self)
         (print_ren_time self) (open_flag open_after_ren)).

(** [copy_over_metadata]. *)
Definition copy_over_metadata (self : t) (copy_this_metadata_file : path)
    (copy_chapters : bool) : M Env unit :=
  let ffmpeg_cmd :=
    [S_ "ffmpeg"; S_ "-i"; P_ (in_path self); S_ "-i"; P_ copy_this_metadata_file]
    ++ (if copy_chapters then [] else [S_ "-map_chapters"; S_ "-1"])
    ++ [S_ "-map"; S_ "0"; S_ "-c"; S_ "copy"; S_ "-map_metadata"; S_ "1";
        P_ (standard_out_path self)] in
  r ← render_with self (in_path self) (standard_out_path self) ffmpeg_cmd
        (open_after_ren self);
  _ ← Render.check_depend_then_ren spawn r true;
  ret tt.

(** [_add_to_ren_cmd__rm_art_stream_index_selector]. The membership test
    yields a boolean, never [None], so the early return is not taken. *)
Definition _add_to_ren_cmd__rm_art_stream_index_selector (self : t)
    (ffmpeg_cmd : list arg) : M Env (list arg) :=
  stream_types ←
    MetadataAcquisition.return_stream_types spawn
      (MetadataAcquisition.mk (in_path self) false false false);
  let rm_strm := if mem "Video" stream_types then "1" else "0" in
  ret (ffmpeg_cmd ++ [S_ "-map"; S_ ("-0:v:" +:+ rm_strm)]).

Definition is_m4 (self : t) : bool :=
  String.eqb (PurePath.suffix (in_path self)) ".m4v"
  || String.eqb (PurePath.suffix (in_path self)) ".m4a".

Definition is_mp (self : t) : bool :=
  String.eqb (PurePath.suffix (in_path self)) ".mp3"
  || String.eqb (PurePath.suffix (in_path self)) ".mp4".

(** [rm_artwork]. *)
Definition rm_artwork (self : t) : M Env bool :=
  if is_m4 self then
    _ ← copy2 (in_path self) (standard_out_path self);
    let atomic_parsley_cmd :=
      [S_ "AtomicParsley"; P_ (standard_out_path self); S_ "--artwork";
       S_ "REMOVE_ALL"; S_ "--overWrite"] in
    r ← render_with self (in_path self) (standard_out_path self)
          atomic_parsley_cmd (open_after_ren self);
    Render.run_terminal_cmd spawn r false false
  else
    stream_types ←
      MetadataAcquisition.return_stream_types spawn
        (MetadataAcquisition.mk (in_path self) (print_ren_info self) false false);
    let art_stream := mem "Artwork" stream_types in
    if negb art_stream && print_err self then
      _ ← print [Txt ("Error, no artwork found in input:" +:+ NL);
                 Pth (in_path self); Txt (NL +:+ "For output:" +:+ NL);
                 Pth (standard_out_path self)];
      ret false
    else
      ffmpeg_cmd ←
        _add_to_ren_cmd__rm_art_stream_index_selector self
          [S_ "ffmpeg"; S_ "-i"; P_ (in_path self); S_ "-map"; S_ "0";
           S_ "-c"; S_ "copy"];
      r ← render_with self (in_path self) (standard_out_path self)
            (ffmpeg_cmd ++ [P_ (standard_out_path self)]) (open_after_ren self);
      _ ← Render.check_depend_then_ren spawn r false;
      ret true.

(** [extract_artwork]: [None] is the [False] it returns when there is
    nothing to extract. *)
Definition extract_artwork (self : t) : M Env (option path) :=
  if negb (is_mp self) && negb (is_m4 self) && print_err self then
    _ ← print [Txt (NL +:+ "Error, artwork extraction is not supported for input extension "
                    +:+ dq +:+ PurePath.suffix (in_path self) +:+ dq);
               Txt (NL +:+ "Please convert " +:+ dq); Pth (in_path self);
               Txt (dq +:+ " to a valid extension (.mp3, .mp4, .m4v, .m4a) for artwork extraction (if it has artwork in the first place)."
                    +:+ NL)];
    ret None
  else
    let art_ext_out_path :=
      PurePath.joinpath (out_dir self) (PurePath.stem (in_path self) +:+ ".jpg") in
    let ffmpeg_cmd :=
      [S_ "ffmpeg"; S_ "-i"; P_ (in_path self); S_ "-map"; S_ "0:v?";
       S_ "-map"; S_ "-0:V?"; S_ "-c"; S_ "copy"; P_ art_ext_out_path] in
    in_strms ←
      MetadataAcquisition.return_stream_types spawn
        (MetadataAcquisition.mk (in_path self) false false false);
    if negb (mem "Artwork" in_strms) then
      _ ← print_if (print_err self)
            [Txt (NL +:+ "Error, no artwork found in input:" +:+ NL +:+ dq);
             Pth (in_path self);
             Txt (dq +:+ NL +:+ "For output:" +:+ NL +:+ dq);
             Pth art_ext_out_path; Txt (dq +:+ NL)];
      ret None
    else
      r ← render_with self (in_path self) art_ext_out_path ffmpeg_cmd
            (open_after_ren self);
      _ ← Render.check_depend_then_ren spawn r false;
      ret (Some art_ext_out_path).

(** The loop of [embed_artwork] that removes the resized copies
    AtomicParsley leaves next to the artwork. *)
Definition rm_resized (in_artwork : path) (file : path) : M Env unit :=
  if startswith (PurePath.stem file) (PurePath.stem in_artwork)
     && startswith (drop (String.length (PurePath.stem in_artwork))
                         (PurePath.stem file)) "-resized-"
     && String.eqb (PurePath.suffix file) ".jpg"
  then unlink file else ret tt.

(** [embed_artwork]: [Some false] is [return False], [None] the end of
    the method. *)
Definition embed_artwork (self : t) (in_artwork : path) : M Env (option bool) :=
  e ← path_exists in_artwork;
  if (e : bool) && negb (String.eqb (PurePath.suffix in_artwork) ".jpg") then
    _ ← print [Txt ("Error, input artwork " +:+ dq); Pth in_artwork;
               Txt (dq +:+ " is not a " +:+ dq +:+ ".jpg" +:+ dq +:+ " file.")];
    ret (Some false)
  else
    e2 ← path_exists in_artwork;
    if negb (e2 : bool) then
      _ ← print [Txt ("Error, input artwork " +:+ dq); Pth in_artwork;
                 Txt (dq +:+ " not found.")];
      ret (Some false)
    else
      temp_rm_art_exists ←
        rm_artwork (init (in_path self) (out_dir self) false false false false false);
      _ ← (if negb (temp_rm_art_exists : bool)
           then copy2 (in_path self) (standard_out_path self) else ret tt);
      let temp_rm_artwork_path :=
        PurePath.joinpath (out_dir self)
          (PurePath.stem (in_path self) +:+ "-temp_rm_art_before_renaming"
           +:+ PurePath.suffix (in_path self)) in
      _ ← rename (standard_out_path self) temp_rm_artwork_path;
      if is_mp self then
        let ffmpeg_cmd :=
          [S_ "ffmpeg"; S_ "-i"; P_ temp_rm_artwork_path; S_ "-i"; P_ in_artwork;
           S_ "-map"; S_ "0"; S_ "-c"; S_ "copy"; S_ "-map"; S_ "1";
           S_ "-c:v:1"; S_ "png"; S_ "-disposition:v:1"; S_ "attached_pic";
           P_ (standard_out_path self)] in
        r ← render_with self (in_path self) (standard_out_path self) ffmpeg_cmd false;
        _ ← Render.check_depend_then_ren spawn r true;
        _ ← unlink temp_rm_artwork_path;
        ret None
      else if is_m4 self then
        let atomic_parsley_cmd :=
          [S_ "AtomicParsley"; P_ temp_rm_artwork_path; S_ "--overWrite";
           S_ "--artwork"; P_ in_artwork] in
        r ← render_with self temp_rm_artwork_path (standard_out_path self)
              atomic_parsley_cmd (open_after_ren self);
        ren_result ← Render.run_terminal_cmd spawn r false false;
        files ← iterdir (PurePath.parent in_artwork);
        _ ← for_each files (rm_resized in_artwork);
        _ ← (if negb (ren_result : bool) && print_err self then
               _ ← print [Txt (NL +:+ "Error, a problem occurred with AtomicParsley while rendering:")];
               print [Txt "Terminal input command: "; Cmd atomic_parsley_cmd]
             else ret tt);
        _ ← rename temp_rm_artwork_path (standard_out_path self);
        ret None
      else
        _ ← print_if (print_err self)
              [Txt (NL +:+ "Error, artwork embedding is not supported for target output extension "
                    +:+ dq +:+ PurePath.suffix (in_path self) +:+ dq);
               Txt (NL +:+ "Please convert " +:+ dq); Pth (in_path self);
               Txt (dq +:+ NL +:+ "to a valid extension (.mp3, .mp4, .m4v, .m4a) for artwork embedding."
                    +:+ NL)];
        ret (Some false).

(** The choice of [timecode_format] from the presence of a point and
    the length of the text; [None] is the explicit [raise ValueError]. *)
Definition timecode_format (duration : string) : option (list Strptime.item) :=
  let n := String.length duration in
  if negb (contains "." duration) then
    if (6 <? n)%nat then Some Strptime.fmt_HMS
    else if (3 <? n)%nat then Some Strptime.fmt_MS
    else if (n =? 2)%nat || (n =? 1)%nat then Some Strptime.fmt_S
    else None
  else
    if (9 <? n)%nat then Some Strptime.fmt_HMSf
    else if (5 <? n)%nat then Some Strptime.fmt_MSf
    else if (3 <? n)%nat then Some Strptime.fmt_Sf
    else None.

(** The text handed to [float] once the time is known. *)
Definition length_sec_text (length : Strptime.time) : string :=
  let length_sec :=
    (Strptime.hour length * 3600 + Strptime.minute length * 60
     + Strptime.second length)%N in
  if (String.length (of_N (Strptime.microsecond length)) =? 6)%nat
  then of_N length_sec +:+ "." +:+ of_N (Strptime.microsecond length)
  else of_N length_sec +:+ ".0" +:+ of_N (Strptime.microsecond length).

(** The end of [_return_input_duration_in_sec], once [strptime] has
    answered: [None] is the [ValueError] that the handler turns into
    [quit()], a time is added up and handed to [float]. *)
Definition seconds_of_time (self : t) (duration : string)
    (parsed : option Strptime.time) : M Env (option Q) :=
  match parsed with
  | None =>
      _ ← print_if (print_err self)
            [Txt ("Error, unable to calculate timecode duration for input "
                  +:+ dq +:+ duration +:+ dq +:+ NL
                  +:+ "Timecode numbers must be in a " +:+ dq +:+ "00:00:00.00"
                  +:+ dq +:+ " format, with a minimum of one number, no more than 2 digits after a period ("
                  +:+ dq +:+ ".00" +:+ dq
                  +:+ ") and if fractions of a second are specified they must have a leading number ("
                  +:+ dq +:+ "0.4" +:+ dq +:+ ")")];
      quit
  | Some length =>
      match Strptime.float_of_decimal (length_sec_text length) with
      | Some x => ret (Some x)
      | None => raise ValueError
      end
  end.

(** The message of a missing duration. *)
Definition no_duration (self : t) : M Env (option Q) :=
  _ ← print_if (print_err self)
        [Txt ("Error, no duration found for input:" +:+ NL +:+ dq);
         Pth (in_path self); Txt (dq +:+ NL)];
  ret None.

(** [_return_input_duration_in_sec]. *)
Definition _return_input_duration_in_sec (self : t)
    (convert_str_timecode_to_sec : string) : M Env (option Q) :=
  duration ←
    (if negb (String.eqb convert_str_timecode_to_sec "")
     then ret (Some convert_str_timecode_to_sec)
     else
       l ← MetadataAcquisition.return_metadata spawn
             (MetadataAcquisition.mk (in_path self) (print_ren_info self)
                                     (print_ren_time self) false)
             MetadataAcquisition.only_duration;
       match l with
       | [] => raise IndexError
       | v :: _ => ret v
       end);
  match duration with
  | None => no_duration self
  | Some duration =>
      if String.eqb duration "N/A" then no_duration self
      else
        seconds_of_time self duration
          (match timecode_format duration with
           | Some fmt => Strptime.strptime duration fmt
           | None => None
           end)
  end.

End WithTools.
End FileOperations.

(* ================================================================= *)
(** ** Render.py: the patch phase *)

Module RenderEmbed.
Import PyStr.

Section WithTools.
Context {Env : Type}.
Variable spawn :
  list arg -> gmap (list string) node -> Env ->
  proc * gmap (list string) node * Env.

Definition temp_dir_name : string := "--temp_dir_to_embed_metadata_silently".

(** The helper object the patch phase builds three times:
    [FileOperations(p, temp_dir, False, self.print_ren_info, False, False)]. *)
Definition helper (self : Render.t) (p temp_dir : path) : FileOperations.t :=
  FileOperations.init p temp_dir false (Render.print_ren_info self) false false false.

(** The artwork step of the patch phase. *)
Definition embed_original_artwork (self : Render.t)
    (in_meta_file out_path temp_dir temp_out_file : path) : M Env unit :=
  temp_art ← FileOperations.extract_artwork spawn (helper self in_meta_file temp_dir);
  match temp_art with
  | None => ret tt
  | Some temp_art =>
      e ← path_exists temp_art;
      if (e : bool) then
        _ ← FileOperations.embed_artwork spawn (helper self out_path temp_dir) temp_art;
        _ ← unlink temp_art;
        _ ← unlink out_path;
        rename temp_out_file out_path
      else ret tt
  end.

(** Lines 142 to 160: what the patch phase does once the embedding
    render has run. *)
Definition swap_in_patched (self : Render.t) (in_meta_file : path)
    (artwork : bool) (out_path temp_directory_to_embed_metadata temp_out_file : path)
  : M Env bool :=
  e ← path_exists temp_out_file;
  _ ← (if negb (e : bool) then
         _ ← print_if (Render.print_err self)
               [Txt ("Error, input file to extract metadata silently from " +:+ dq);
                Pth out_path; Txt (dq +:+ " not found.")];
         rmdir temp_directory_to_embed_metadata
       else
         _ ← unlink out_path;
         rename temp_out_file out_path);
  _ ← (if artwork
       then embed_original_artwork self in_meta_file out_path
              temp_directory_to_embed_metadata temp_out_file
       else ret tt);
  _ ← rmdir temp_directory_to_embed_metadata;
  ret true.

(** The body of [for out_path in self.out_paths_list], which ends in
    [return True]. *)
Definition embed_original_metadata (self : Render.t) (in_meta_file : path)
    (artwork copy_chapters : bool) (out_path : path) : M Env bool :=
  let temp_directory_to_embed_metadata :=
    PurePath.joinpath (PurePath.parent out_path) temp_dir_name in
  _ ← mkdir temp_directory_to_embed_metadata;
  let temp_out_file :=
    PurePath.joinpath temp_directory_to_embed_metadata
      (PurePath.stem out_path +:+ PurePath.suffix out_path) in
  _ ← FileOperations.copy_over_metadata spawn
        (helper self out_path temp_directory_to_embed_metadata)
        in_meta_file copy_chapters;
  swap_in_patched self in_meta_file artwork out_path
    temp_directory_to_embed_metadata temp_out_file.

(** [check_depend_then_ren_and_embed_original_metadata]. [Some true] and
    [Some false] are the two returns; [None] is the end of the method,
    reached when the list of outputs is empty. *)
Definition check_depend_then_ren_and_embed_original_metadata (self : Render.t)
    (append_faststart artwork copy_chapters : bool) : M Env (option bool) :=
  out_file_exists_result ← Render.check_depend_then_ren spawn self append_faststart;
  in_meta_file ←
    match Render.in_path self with
    | Render.PathList [] => raise IndexError
    | Render.PathList (p :: _) => ret p
    | Render.OnePath p => ret p
    end;
  if (out_file_exists_result : bool) then
    match Render.out_paths_list self with
    | [] => ret None
    | out_path :: _ =>
        r ← embed_original_metadata self in_meta_file artwork copy_chapters out_path;
        ret (Some r)
    end
  else ret (Some false).

End WithTools.
End RenderEmbed.

(* ================================================================= *)
(** ** FileOperations.py: a caller of the two-phase render *)

Module FileOperationsRender.
Import PyStr.

Section WithTools.
Context {Env : Type}.
Variable spawn :
  list arg -> gmap (list string) node -> Env ->
  proc * gmap (list string) node * Env.

(** [change_ext], for a [new_ext] that is a string. With the extension
    of the input the file is only copied; otherwise the render runs with
    the defaults of the patch phase. The method returns nothing. *)
Definition change_ext (self : FileOperations.t) (new_ext : string)
    (codec_copy : bool) : M Env unit :=
  let in_path := FileOperations.in_path self in
  let new_ext_out_path :=
    PurePath.joinpath (FileOperations.out_dir self)
                      (PurePath.stem in_path +:+ new_ext) in
  let ffmpeg_cmd :=
    [S_ "ffmpeg"; S_ "-i"; P_ in_path]
    ++ (if codec_copy then [S_ "-c"; S_ "copy"] else [])
    ++ [P_ new_ext_out_path] in
  if String.eqb (PurePath.suffix in_path) (PurePath.suffix new_ext_out_path) then
    _ ← copy2 in_path new_ext_out_path;
    print [Txt ("Error, target output extension, " +:+ dq
                +:+ PurePath.suffix new_ext_out_path +:+ dq
                +:+ " is the same as the input extension so the target output file, "
                +:+ dq);
           Pth new_ext_out_path; Txt (dq +:+ " was just copied.")]
  else
    r ← FileOperations.render_with self in_path new_ext_out_path ffmpeg_cmd
          (FileOperations.open_after_ren self);
    _ ← RenderEmbed.check_depend_then_ren_and_embed_original_metadata spawn r
          true false false;
    ret tt.

End WithTools.
End FileOperationsRender.

(* ================================================================= *)
(** ** Words used to state the properties *)

Module Words.
Import PyStr.

(** No character of [s] is [c]. *)
Fixpoint no_char (c : ascii) (s : string) : bool :=
  match s with
  | "" => true
  | String a s' => negb (Ascii.eqb a c) && no_char c s'
  end.

(** No character of [s] is a line boundary of [splitlines]. *)
Fixpoint no_linebreak (s : string) : bool :=
  match s with
  | "" => true
  | String a s' => negb (is_linebreak a) && no_linebreak s'
  end.

(** [w] occurs in [line], and none of [others] occurs at or before its
    first occurrence. *)
Definition occurs_first (w : string) (others : list string) (line : string) : bool :=
  match find w line with
  | Some i =>
      forallb (fun o => match find o line with
                        | Some j => (i <? j)%nat
                        | None => true
                        end) others
  | None => false
  end.

(** [line] ends with [w]. *)
Definition ends_with (w line : string) : Prop := exists p, line = p +:+ w.

(** The descriptor a Video marker yields. *)
Definition video_or_artwork (strm : string) : string :=
  if String.eqb (last_n 14 strm) "(attached pic)" then "Artwork" else "Video".

(** The entry a line adds to a stream listing: after leading spaces,
    the text after a number sign, or the text from the ninth character
    of the word Stream on, each closed by a newline; [None] for a line
    that starts otherwise or holds only spaces. *)
Fixpoint stream_entry (line : string) : option string :=
  match line with
  | "" => None
  | String c rest =>
      if Ascii.eqb c "#"%char then Some (rest +:+ NL)
      else if String.prefix "Stream" line then Some (drop 8 line +:+ NL)
      else if Ascii.eqb c " "%char then stream_entry rest
      else None
  end.

(** The listing made of the entries of all marker lines. *)
Definition listing_of_all (lines : list string) : string :=
  String.concat "" (omap stream_entry lines).

(** The listing as the specification words it: entries are added up to
    the first line that is no marker line, and nothing after it counts. *)
Fixpoint listing_until_other (lines : list string) : string :=
  match lines with
  | [] => ""
  | line :: rest =>
      match stream_entry line with
      | Some e => e +:+ listing_until_other rest
      | None => ""
      end
  end.
(** A line whose first character other than a space is not a colon: in
    the scan of a tag it starts the next field. *)
Fixpoint starts_new_field (line : string) : bool :=
  match line with
  | "" => false
  | String c rest =>
      if Ascii.eqb c ":"%char then false
      else if Ascii.eqb c " "%char then starts_new_field rest
      else true
  end.
(** What one line that is not the last does to the scanner of the
    Stream keyword. *)
Definition add_entry (st : MetadataAcquisition.scan) (line : string)
  : MetadataAcquisition.scan :=
  match stream_entry line with
  | Some e =>
      MetadataAcquisition.mkScan e
        (MetadataAcquisition.complete_key_value st +:+ e)
        (MetadataAcquisition.return_metadata_value_list st)
        (MetadataAcquisition.printed st) (MetadataAcquisition.cleared st)
  | None => st
  end.

(** The scanner has read the Duration line and nothing is returned yet. *)
Definition reading_duration (st : MetadataAcquisition.scan) : Prop :=
  (exists x, MetadataAcquisition.keyword_value st = "00:01:30.25," +:+ x)
  /\ MetadataAcquisition.return_metadata_value_list st = []
  /\ MetadataAcquisition.cleared st = false.

(** The number of positions of [s] at which [w] starts. *)
Fixpoint occurrences (w s : string) : nat :=
  (if String.prefix w s then 1 else 0)
  + match s with
    | "" => 0
    | String _ s' => occurrences w s'
    end.

(** The text after the first opening parenthesis of [s]. *)
Fixpoint after_paren (s : string) : option string :=
  match s with
  | "" => None
  | String c rest => if Ascii.eqb c "("%char then Some rest else after_paren rest
  end.

(** The descriptors of a line that holds no other marker word than
    Subtitle: one for each occurrence of the word, all with the three
    characters after the first parenthesis of the line; none when the
    line has no parenthesis. *)
Definition subtitle_descriptors (strm : string) : list string :=
  match after_paren strm with
  | Some rest => replicate (occurrences "Subtitle" strm) ("Subtitle=" +:+ take 3 rest)
  | None => []
  end.

(** The world with more events in its log and nothing else changed. *)
Definition also_logged {Env : Type} (w : World Env) (evs : list event) : World Env :=
  mkWorld (fs w) (heap w) (log w ++ evs) (env w).

(** A regular file is at [p]. *)
Definition is_regular (f : gmap (list string) node) (p : path) : bool :=
  match f !! parts p with
  | Some (File _) => true
  | _ => false
  end.

(** No regular file is at [p], and the directory of [p] is there. *)
Definition output_free (f : gmap (list string) node) (p : path) : bool :=
  negb (is_regular f p) && bool_decide (is_Some (f !! parts (PurePath.parent p))).

(** The inputs of a render, as a list. *)
Definition inputs_of (self : Render.t) : list path :=
  match Render.in_path self with
  | Render.OnePath p => [p]
  | Render.PathList l => l
  end.

(** What [check_depend_then_ren] asks of the file system. *)
Definition dependencies_met (f : gmap (list string) node) (self : Render.t) : bool :=
  forallb (is_regular f) (inputs_of self)
  && forallb (output_free f) (Render.out_paths_list self).

(** The flags [run_terminal_cmd] appends for its two arguments. *)
Definition flags_appended (append_hide_banner append_faststart : bool) : list arg :=
  (if append_hide_banner then [S_ "-hide_banner"] else [])
  ++ (if append_faststart then [S_ "-movflags"; S_ "+faststart"] else []).

(** The output-order integers of a query, in the order of the fields. *)
Definition positions (q : MetadataAcquisition.query) : list Z :=
  omap (fun a => match a with
                 | MetadataAcquisition.MInt n => Some n
                 | _ => None
                 end)
       (MetadataAcquisition.in_meta_value_list q).

(** Every field of the query is [False] or an integer. *)
Definition integers_or_false (q : MetadataAcquisition.query) : bool :=
  forallb (fun a => match a with
                    | MetadataAcquisition.MFalse | MetadataAcquisition.MInt _ => true
                    | _ => false
                    end)
          (MetadataAcquisition.in_meta_value_list q).

(** What the duplicate scan keeps true of its two variables: an integer
    counted more than once has been collected. *)
Definition counted_once_or_collected (m : gmap Z Z) (acc : list Z) : Prop :=
  forall k c, m !! k = Some c -> c = 1%Z \/ acc <> [].

(** The events are all printed messages. *)
Definition only_prints (evs : list event) : bool :=
  forallb (fun e => match e with Printed _ => true | _ => false end) evs.

(** A computation that returns from every world and leaves it as it was
    but for the events it adds to the log, none of them a process. *)
Definition runs_nothing {Env A : Type} (m : M Env A) : Prop :=
  forall w, exists a evs,
    spawned evs = [] /\ m w = (Return a, also_logged w evs).

End Words.

(* ================================================================= *)
(** ** Scenarios: concrete files, tools and probe texts *)

Module Scenarios.
Import PyStr.

(** Two lines of a stream listing: a video stream, and the attached
    picture of a container. *)
Definition plain_video_line : string :=
  "0:0(und): Video: h264 (High) (avc1 / 0x31637661), yuv420p, 1920x1080, 24 fps".

Definition attached_pic_line : string :=
  "0:1: Video: mjpeg (Baseline), yuvj420p(pc), 600x600, 90k tbr (attached pic)".

(** A subtitle line with no parenthesis and a later word Data. *)
Definition subtitle_data_line : string := "0:1: Subtitle: subrip, Data".

(** The tags of one file, as the probe prints them on request. *)
Definition tag_answer (cmd : list arg) : string :=
  if bool_decide (S_ "format_tags=title" ∈ cmd) then "Night Drive" +:+ NL
  else if bool_decide (S_ "format_tags=composer" ∈ cmd) then "A. Composer" +:+ NL
  else "".

Definition tag_tools (cmd : list arg) (f : gmap (list string) node) (e : unit)
  : proc * gmap (list string) node * unit :=
  (Proc 0 (tag_answer cmd) "" 0, f, e).

Definition song : MetadataAcquisition.t :=
  MetadataAcquisition.mk (Path PosixPath ["music"; "song.m4a"]) false false false.

Definition song_world : World unit :=
  mkWorld (<[["music"; "song.m4a"] := File "audio"]> (<[["music"] := Dir]> ∅))
          ∅ [] tt.

(** [return_metadata(title=1, composer=2)]: the composer is the sixth
    field, the title the twelfth. *)
Definition title_then_composer : MetadataAcquisition.query :=
  let no := MetadataAcquisition.MFalse in
  MetadataAcquisition.mkQuery
    no no no no no (MetadataAcquisition.MInt 2) no no no no
    no (MetadataAcquisition.MInt 1) no no no no no no no no.

(** [return_metadata(title=1, album=1)] and [return_metadata(title=2)]. *)
Definition title_and_album_first : MetadataAcquisition.query :=
  let no := MetadataAcquisition.MFalse in
  MetadataAcquisition.mkQuery
    no (MetadataAcquisition.MInt 1) no no no no no no no no
    no (MetadataAcquisition.MInt 1) no no no no no no no no.

Definition title_second : MetadataAcquisition.query :=
  let no := MetadataAcquisition.MFalse in
  MetadataAcquisition.mkQuery
    no no no no no no no no no no
    no (MetadataAcquisition.MInt 2) no no no no no no no no.

(** [return_metadata(album=1, title=True)]. *)
Definition album_and_title_true : MetadataAcquisition.query :=
  let no := MetadataAcquisition.MFalse in
  MetadataAcquisition.mkQuery
    no (MetadataAcquisition.MInt 1) no no no no no no no no
    no MetadataAcquisition.MTrue no no no no no no no no.

Definition probe_of (tag : string) : list arg :=
  [S_ "ffprobe"; S_ "-v"; S_ "quiet"; S_ "-show_entries";
   S_ ("format_tags=" +:+ tag); S_ "-of"; S_ "default=nw=1:nk=1";
   P_ (MetadataAcquisition.in_path song)].

Definition clip_in : path := Path PosixPath ["videos"; "in.mp4"].
Definition clip_out : path := Path PosixPath ["videos"; "out.mp4"].
Definition scratch_dir : path :=
  Path PosixPath ["videos"; "--temp_dir_to_embed_metadata_silently"].

(** What the probe prints for the input clip: a video and an audio
    stream, no attached picture. The text is given in the three parts
    around the timecode of its Duration line. *)
Definition clip_probe_pre : string :=
  "Input #0, mov,mp4,m4a,3gp,3g2,mj2, from 'videos/in.mp4':" +:+ NL +:+ "  ".

Definition clip_probe_rest : string := " start: 0.000000, bitrate: 1205 kb/s".

Definition clip_probe_post : string :=
  "    Stream #0:0(und): Video: h264 (High), yuv420p, 1280x720, 24 fps" +:+ NL +:+
  "    Stream #0:1(und): Audio: aac (LC), 44100 Hz, stereo, fltp" +:+ NL.

Definition clip_probe_text : string :=
  clip_probe_pre +:+ "Duration: 00:01:30.25," +:+ clip_probe_rest +:+ NL
  +:+ clip_probe_post.

(** Tools for the scenario: the probe answers with [clip_probe_text];
    the first transcoder run, the primary render, writes the declared
    output; every later transcoder run fails and writes nothing. The
    state counts the transcoder runs. *)
Definition failing_patch_tools (cmd : list arg) (f : gmap (list string) node)
    (runs : nat) : proc * gmap (list string) node * nat :=
  match cmd with
  | S_ "ffprobe" :: _ => (Proc 0 "" clip_probe_text 2, f, runs)
  | _ =>
      match runs with
      | O => (Proc 0 "" "" 120, <[parts clip_out := File "rendered"]> f, 1)
      | S _ => (Proc 1 "" "Conversion failed!" 3, f, S runs)
      end
  end.

Definition clip_world : World nat :=
  mkWorld (<[parts clip_in := File "original"]> (<[["videos"] := Dir]> ∅))
          (<[0 := [S_ "ffmpeg"; S_ "-i"; P_ clip_in; P_ clip_out]]> ∅) [] 0.

(** [Render(clip_in, clip_out, cmd)] with the default flags. *)
Definition clip_job : Render.t :=
  Render.init (Render.OnePath clip_in) (Render.OnePath clip_out) 0
              true true false true Render.OpenNo.

(** A probe of the clip that prints nothing. *)
Definition quiet_probe : MetadataAcquisition.t :=
  MetadataAcquisition.mk (Path PosixPath ["videos"; "in.mp4"]) false false false.

(** The stream part of a probe text, with a Metadata block between the
    two stream lines, and what follows its first word Stream. *)
Definition streams_with_metadata : string :=
  "    Stream #0:0(und): Video: h264 (High), yuv420p, 1280x720" +:+ NL +:+
  "    Metadata:" +:+ NL +:+
  "      handler_name    : VideoHandler" +:+ NL +:+
  "    Stream #0:1(und): Audio: aac (LC), 44100 Hz, stereo" +:+ NL.

Definition after_first_stream : string :=
  " #0:0(und): Video: h264 (High), yuv420p, 1280x720" +:+ NL +:+
  "    Metadata:" +:+ NL +:+
  "      handler_name    : VideoHandler" +:+ NL +:+
  "    Stream #0:1(und): Audio: aac (LC), 44100 Hz, stereo" +:+ NL.

Definition empty_world : World unit := mkWorld ∅ ∅ [] tt.

(** The world once the primary render has written the output and the
    embedding render has failed: the scratch directory is there, empty. *)
Definition after_failed_patch : World nat :=
  mkWorld (<[parts scratch_dir := Dir]>
             (<[parts clip_out := File "rendered"]> (fs clip_world)))
          (heap clip_world) [] 2.

(** The helper object that converts timecodes for the clip. *)
Definition clip_ops : FileOperations.t :=
  FileOperations.init clip_in (Path PosixPath ["videos"; "out"])
                      true true false true false.

End Scenarios.

(* ================================================================= *)
(** * Properties *)

#[local] Arguments String.append !_ _ / : simpl nomatch.

(* ================================================================= *)
(** ** Facts about the string primitives *)

Module PyStrFacts.
Import PyStr Words.

Lemma append_nil_r (s : string) : s +:+ "" = s.
Proof. induction s as [|c s IH]; simpl; [reflexivity | by rewrite IH]. Qed.

Lemma append_cons (c : ascii) (a b : string) :
  String c a +:+ b = String c (a +:+ b).
Proof. reflexivity. Qed.

Lemma append_nil_l (a : string) : "" +:+ a = a.
Proof. reflexivity. Qed.

Lemma append_assoc (a b c : string) : (a +:+ b) +:+ c = a +:+ b +:+ c.
Proof. induction a as [|x a IH]; simpl; [reflexivity | by rewrite IH]. Qed.

Lemma length_append (a b : string) :
  String.length (a +:+ b) = String.length a + String.length b.
Proof. induction a as [|x a IH]; simpl; [reflexivity | by rewrite IH]. Qed.

Lemma take_append (a b : string) : take (String.length a) (a +:+ b) = a.
Proof. induction a as [|x a IH]; simpl; [by destruct b | by rewrite IH]. Qed.

Lemma drop_append (a b : string) : drop (String.length a) (a +:+ b) = b.
Proof. induction a as [|x a IH]; simpl; [reflexivity | exact IH]. Qed.

Lemma take_drop (n : nat) (s : string) : take n s +:+ drop n s = s.
Proof.
  revert s; induction n as [|n IH]; intros [|c s]; simpl; try reflexivity.
  by rewrite IH.
Qed.

Lemma length_drop (n : nat) (s : string) :
  String.length (drop n s) = String.length s - n.
Proof.
  revert s; induction n as [|n IH]; intros [|c s]; simpl;
    rewrite ?IH; lia.
Qed.

(** A slice test against a word of the tested length is a prefix test. *)
Lemma prefix_take (w s : string) :
  String.prefix w s = String.eqb (take (String.length w) s) w.
Proof.
  revert s; induction w as [|x w IH]; intros [|c s]; simpl; try reflexivity.
  destruct (ascii_dec x c) as [->|Hne].
  - rewrite Ascii.eqb_refl. apply IH.
  - destruct (Ascii.eqb_spec c x) as [->|_]; [congruence | reflexivity].
Qed.

Lemma prefix_append (w s : string) : String.prefix w (w +:+ s) = true.
Proof. by rewrite prefix_take, take_append, String.eqb_refl. Qed.

Lemma prefix_true_inv (w s : string) :
  String.prefix w s = true -> s = w +:+ drop (String.length w) s.
Proof.
  rewrite prefix_take. intros H%String.eqb_eq.
  rewrite <- H at 1. by rewrite take_drop.
Qed.

(** [s] ends with [w] exactly when its last [length w] characters are [w]. *)
Lemma last_n_append (p w : string) : last_n (String.length w) (p +:+ w) = w.
Proof.
  unfold last_n. rewrite length_append.
  replace (String.length p + String.length w - String.length w)
    with (String.length p) by lia.
  apply drop_append.
Qed.

Lemma last_n_inv (n : nat) (s w : string) :
  last_n n s = w -> exists p, s = p +:+ w.
Proof.
  unfold last_n. intros <-. eexists. symmetry. apply take_drop.
Qed.

Lemma find_nil (kw : string) :
  find kw "" = if String.prefix kw "" then Some 0 else None.
Proof. reflexivity. Qed.

Lemma find_cons (kw : string) (c : ascii) (s : string) :
  find kw (String c s) =
  if String.prefix kw (String c s) then Some 0 else option_map S (find kw s).
Proof. reflexivity. Qed.

Lemma contains_nil (kw : string) :
  contains kw "" = if String.prefix kw "" then true else false.
Proof. reflexivity. Qed.

Lemma contains_cons (kw : string) (c : ascii) (s : string) :
  contains kw (String c s) =
  if String.prefix kw (String c s) then true else contains kw s.
Proof. reflexivity. Qed.

Lemma after_first_cons (kw : string) (c : ascii) (s : string) :
  after_first kw (String c s) =
  if String.prefix kw (String c s)
  then Some (drop (String.length kw) (String c s)) else after_first kw s.
Proof. reflexivity. Qed.

Lemma after_first_nil (kw : string) :
  after_first kw "" =
  if String.prefix kw "" then Some (drop (String.length kw) "") else None.
Proof. reflexivity. Qed.

Lemma find_zero_prefix (kw s : string) :
  find kw s = Some 0 -> String.prefix kw s = true.
Proof.
  destruct s as [|c s]; [rewrite find_nil | rewrite find_cons];
    destruct (String.prefix kw _); try done.
  by destruct (find kw s).
Qed.

Lemma find_none_prefix (kw s : string) :
  find kw s = None -> String.prefix kw s = false.
Proof.
  destruct s as [|c s]; [rewrite find_nil | rewrite find_cons];
    by destruct (String.prefix kw _).
Qed.

Lemma find_none_tail (kw : string) (c : ascii) (s : string) :
  find kw (String c s) = None -> find kw s = None.
Proof.
  rewrite find_cons. destruct (String.prefix kw _); [done|].
  by destruct (find kw s).
Qed.

Lemma find_succ_tail (kw : string) (c : ascii) (s : string) (i : nat) :
  find kw (String c s) = Some (S i) ->
  String.prefix kw (String c s) = false /\ find kw s = Some i.
Proof.
  rewrite find_cons. destruct (String.prefix kw _); [done|].
  destruct (find kw s); simpl; intros; split; congruence.
Qed.

Lemma contains_find (kw s : string) :
  contains kw s = bool_decide (is_Some (find kw s)).
Proof.
  induction s as [|c s IH].
  - rewrite find_nil, contains_nil. by destruct (String.prefix kw "").
  - rewrite contains_cons, find_cons.
    destruct (String.prefix kw (String c s)); [reflexivity|].
    rewrite IH. by destruct (find kw s).
Qed.

(** The text after the first occurrence, when the occurrence is known. *)
Lemma after_first_at (kw pre x : string) :
  find kw (pre +:+ x) = Some (String.length pre) ->
  after_first kw (pre +:+ x) = Some (drop (String.length kw) x).
Proof.
  induction pre as [|c pre IH]; intros H.
  - rewrite append_nil_l in *. apply find_zero_prefix in H.
    destruct x; [rewrite after_first_nil | rewrite after_first_cons];
      by rewrite H.
  - rewrite append_cons in *. apply find_succ_tail in H as [Hp H].
    rewrite after_first_cons, Hp. by apply IH.
Qed.

Lemma after_first_contains (kw s after : string) :
  after_first kw s = Some after -> contains kw s = true.
Proof.
  induction s as [|c s IH].
  - rewrite after_first_nil, contains_nil. by destruct (String.prefix kw "").
  - rewrite after_first_cons, contains_cons.
    destruct (String.prefix kw (String c s)); [done | exact IH].
Qed.

(** Lines. *)
Lemma no_char_cons (c a : ascii) (s : string) :
  no_char c (String a s) = true -> a <> c /\ no_char c s = true.
Proof.
  simpl. intros [Ha Hs]%andb_true_iff. split; [|done].
  intros ->. by rewrite Ascii.eqb_refl in Ha.
Qed.

Lemma split_on_line (c : ascii) (l rest : string) :
  no_char c l = true ->
  split_on c (l +:+ String c rest) = l :: split_on c rest.
Proof.
  induction l as [|a l IH]; intros H.
  - simpl. by rewrite Ascii.eqb_refl.
  - apply no_char_cons in H as [Ha Hl]. simpl.
    destruct (Ascii.eqb_spec a c) as [->|_]; [done|].
    by rewrite IH.
Qed.

Lemma split_on_last (c : ascii) (l : string) :
  no_char c l = true -> split_on c l = [l].
Proof.
  induction l as [|a l IH]; intros H; [done|].
  apply no_char_cons in H as [Ha Hl]. simpl.
  destruct (Ascii.eqb_spec a c) as [->|_]; [done|].
  by rewrite IH.
Qed.

Lemma splitlines_from_line (cur l rest : string) :
  no_linebreak l = true ->
  splitlines_from cur (l +:+ rest) = splitlines_from (cur +:+ l) rest.
Proof.
  revert cur. induction l as [|a l IH]; intros cur H.
  - by rewrite append_nil_r.
  - simpl in H. apply andb_true_iff in H as [Ha Hl].
    apply negb_true_iff in Ha. simpl. rewrite Ha, IH by done.
    by rewrite append_assoc.
Qed.

Lemma splitlines_from_nl (cur rest : string) :
  splitlines_from cur (String nl rest) = cur :: splitlines_from "" rest.
Proof. destruct rest; reflexivity. Qed.

End PyStrFacts.

(* ================================================================= *)
(** ** The stream classifier *)

Module StreamTypesFacts.
Import PyStr PyStrFacts StreamTypes Words Scenarios.

Lemma occurs_first_spec (w : string) (others : list string) (line : string) :
  occurs_first w others line = true ->
  exists i, find w line = Some i /\
    forall o j, In o others -> find o line = Some j -> i < j.
Proof.
  unfold occurs_first. destruct (find w line) as [i|]; [|done].
  intros H. exists i. split; [done|].
  intros o j Ho Hj. rewrite forallb_forall in H.
  specialize (H o Ho). rewrite Hj in H. by apply Nat.ltb_lt in H.
Qed.

Lemma ends_with_last_n (w line : string) :
  ends_with w line <-> last_n (String.length w) line = w.
Proof.
  split.
  - intros [p ->]. apply last_n_append.
  - apply last_n_inv.
Qed.

Lemma slice_is_prefix (k : nat) (w s : string) :
  k = String.length w -> slice_is k w s = String.prefix w s.
Proof. intros ->. unfold slice_is. by rewrite prefix_take. Qed.

Lemma scan_strm_cons (strm : string) (c : ascii) (rest : string) (acc : list string) :
  scan_strm strm (String c rest) acc =
  if String.prefix "Video" (String c rest) then
    if String.eqb (last_n 14 strm) "(attached pic)"
    then acc ++ ["Artwork"] else acc ++ ["Video"]
  else if String.prefix "Audio" (String c rest) then acc ++ ["Audio"]
  else if String.prefix "Data" (String c rest) then acc ++ ["Chapter"]
  else if String.prefix "Subtitle" (String c rest)
       then scan_strm strm rest (subtitle_lang strm acc)
  else scan_strm strm rest acc.
Proof.
  rewrite <- !(slice_is_prefix _ _ (String c rest)) by reflexivity.
  reflexivity.
Qed.

Lemma scan_strm_video_first (strm suffix : string) (acc : list string) :
  occurs_first "Video" ["Audio"; "Data"; "Subtitle"] suffix = true ->
  scan_strm strm suffix acc = acc ++ [video_or_artwork strm].
Proof.
  intros (i & Hi & Hothers)%occurs_first_spec. revert suffix Hi Hothers.
  induction i as [|i IH]; intros suffix Hi Hothers.
  - apply find_zero_prefix in Hi.
    destruct suffix as [|c rest]; [done|].
    rewrite scan_strm_cons, Hi. unfold video_or_artwork.
    by destruct (String.eqb _ _).
  - destruct suffix as [|c rest]; [done|].
    apply find_succ_tail in Hi as [Hp Hi].
    assert (forall o, In o ["Audio"; "Data"; "Subtitle"] ->
                      String.prefix o (String c rest) = false) as Hno.
    { intros o Ho. destruct (String.prefix o (String c rest)) eqn:E; [|done].
      assert (find o (String c rest) = Some 0) as H0
        by (by rewrite find_cons, E).
      specialize (Hothers o 0 Ho H0). lia. }
    rewrite scan_strm_cons, Hp, !Hno by (simpl; tauto).
    apply IH; [done|].
    intros o j Ho Hj.
    assert (find o (String c rest) = Some (S j)) as HS.
    { rewrite find_cons, (Hno o Ho), Hj. reflexivity. }
    specialize (Hothers o (S j) Ho HS). lia.
Qed.

Lemma subtitle_lang_no_paren (suffix : string) (acc : list string) :
  no_char "("%char suffix = true -> subtitle_lang suffix acc = acc.
Proof.
  induction suffix as [|c rest IH]; intros H; [done|].
  apply no_char_cons in H as [Hc Hrest]. simpl.
  destruct (Ascii.eqb_spec c "("%char); [done | by apply IH].
Qed.

(** Without a parenthesis and without another marker word, a line adds
    nothing, whether or not the word Subtitle occurs in it. *)
Lemma scan_strm_nothing (strm suffix : string) (acc : list string) :
  no_char "("%char strm = true ->
  find "Video" suffix = None -> find "Audio" suffix = None ->
  find "Data" suffix = None ->
  scan_strm strm suffix acc = acc.
Proof.
  intros Hparen. induction suffix as [|c rest IH]; intros HV HA HD; [done|].
  rewrite scan_strm_cons.
  rewrite (find_none_prefix _ _ HV), (find_none_prefix _ _ HA),
    (find_none_prefix _ _ HD).
  rewrite subtitle_lang_no_paren by done.
  apply find_none_tail in HV, HA, HD.
  destruct (String.prefix "Subtitle" _); by apply IH.
Qed.

(** The classification only ever appends. *)
Lemma subtitle_lang_app (suffix : string) (acc : list string) :
  subtitle_lang suffix acc = acc ++ subtitle_lang suffix [].
Proof.
  induction suffix as [|c rest IH]; simpl.
  - by rewrite app_nil_r.
  - destruct (Ascii.eqb c "("%char); [reflexivity | exact IH].
Qed.

Lemma scan_strm_app (strm suffix : string) (acc : list string) :
  scan_strm strm suffix acc = acc ++ scan_strm strm suffix [].
Proof.
  revert acc. induction suffix as [|c rest IH]; intros acc.
  - simpl. by rewrite app_nil_r.
  - rewrite !(scan_strm_cons strm c rest).
    repeat match goal with
           | |- context [if ?b then _ else _] => destruct b; try reflexivity
           end.
    + rewrite IH, (IH (subtitle_lang strm [])), (subtitle_lang_app strm acc).
      by rewrite app_assoc.
    + apply IH.
Qed.

Lemma classify_lines_app (l1 l2 : list string) :
  classify_lines (l1 ++ l2) = classify_lines l1 ++ classify_lines l2.
Proof.
  unfold classify_lines. rewrite fold_left_app.
  generalize (fold_left (fun acc strm => scan_strm strm strm acc) l1 []).
  induction l2 as [|l l2 IH]; intros acc; simpl.
  - by rewrite app_nil_r.
  - rewrite IH, (IH (scan_strm l l [])), (scan_strm_app l l acc).
    by rewrite app_assoc.
Qed.

Lemma classify_lines_cons (l : string) (ls : list string) :
  classify_lines (l :: ls) = scan_strm l l [] ++ classify_lines ls.
Proof. apply (classify_lines_app [l] ls). Qed.

Lemma splitlines_two (l1 l2 : string) :
  no_linebreak l1 = true -> no_linebreak l2 = true ->
  splitlines (l1 +:+ NL +:+ l2 +:+ NL) = [l1; l2].
Proof.
  intros H1 H2. unfold splitlines, NL.
  rewrite splitlines_from_line, append_nil_l by done.
  rewrite append_cons, append_nil_l, splitlines_from_nl.
  rewrite splitlines_from_line, append_nil_l by done.
  by rewrite splitlines_from_nl.
Qed.

(** C7. A listing of two lines whose first marker word is Video, the
    second of which alone ends with the marker of an attached picture,
    is classified as a Video stream followed by an Artwork stream. *)
Theorem C7_video_then_attached_pic (l1 l2 : string) :
  occurs_first "Video" ["Audio"; "Data"; "Subtitle"] l1 = true ->
  ~ ends_with "(attached pic)" l1 ->
  occurs_first "Video" ["Audio"; "Data"; "Subtitle"] l2 = true ->
  ends_with "(attached pic)" l2 ->
  no_linebreak l1 = true -> no_linebreak l2 = true ->
  classify_listing (l1 +:+ NL +:+ l2 +:+ NL) = ["Video"; "Artwork"]
  /\ classify_listing (l1 +:+ NL +:+ l2 +:+ NL) <> ["Video"; "Video"].
Proof.
  intros V1 E1 V2 E2 N1 N2.
  assert (classify_listing (l1 +:+ NL +:+ l2 +:+ NL) = ["Video"; "Artwork"])
    as Heq; [|split; [exact Heq | rewrite Heq; discriminate]].
  unfold classify_listing. rewrite splitlines_two by done.
  rewrite !classify_lines_cons.
  rewrite !scan_strm_video_first by done.
  unfold video_or_artwork.
  apply (ends_with_last_n "(attached pic)") in E2. simpl String.length in E2.
  rewrite E2, String.eqb_refl.
  destruct (String.eqb_spec (last_n 14 l1) "(attached pic)") as [E|_]; [|done].
  exfalso. apply E1. by apply (ends_with_last_n "(attached pic)").
Qed.

Lemma C7_video_then_attached_pic_witness :
  classify_listing (plain_video_line +:+ NL +:+ attached_pic_line +:+ NL)
  = ["Video"; "Artwork"]
  /\ classify_listing (plain_video_line +:+ NL +:+ attached_pic_line +:+ NL)
     <> ["Video"; "Video"].
Proof.
  apply (C7_video_then_attached_pic plain_video_line attached_pic_line).
  - vm_compute; reflexivity.
  - intros E%(ends_with_last_n "(attached pic)"). vm_compute in E. discriminate E.
  - vm_compute; reflexivity.
  - apply (ends_with_last_n "(attached pic)"). vm_compute; reflexivity.
  - vm_compute; reflexivity.
  - vm_compute; reflexivity.
Defined.

(** When every line yields exactly one descriptor, list positions are
    probe positions. *)
Lemma classify_lines_positional (ls : list string) :
  (forall l, In l ls -> length (scan_strm l l []) = 1) ->
  forall i l, ls !! i = Some l ->
    classify_lines ls !! i = scan_strm l l [] !! 0.
Proof.
  induction ls as [|l0 ls IH]; intros Hone i l Hi; [done|].
  rewrite classify_lines_cons.
  assert (length (scan_strm l0 l0 []) = 1) as H0 by (apply Hone; by left).
  destruct (scan_strm l0 l0 []) as [|d [|? ?]] eqn:E; try done.
  destruct i as [|i]; simpl in *.
  - injection Hi as <-. by rewrite E.
  - apply IH; [|done]. intros l' Hl'. apply Hone. by right.
Qed.

(** C10, as stated, fails on a line that holds the word Subtitle, no
    parenthesis, and the word Data after it: the scan goes on past the
    Subtitle marker and appends a Chapter descriptor for the line, so
    the stream after it keeps its probe position. *)
Lemma C10_counterexample :
  contains "Subtitle" subtitle_data_line = true
  /\ no_char "("%char subtitle_data_line = true
  /\ scan_strm subtitle_data_line subtitle_data_line [] = ["Chapter"]
  /\ classify_listing ("0:0: Video: h264" +:+ NL +:+ subtitle_data_line +:+ NL
                       +:+ "0:2: Audio: aac" +:+ NL)
     = ["Video"; "Chapter"; "Audio"].
Proof. vm_compute. repeat split; reflexivity. Qed.

(** C10, amended. A line of the listing that holds the word Subtitle, no
    parenthesis and none of the words Video, Audio and Data gets no
    descriptor: the result is that of the listing without the line, and
    when every other line yields one descriptor, the stream at probe
    position [length before + 1 + k] is found at position
    [length before + k] of the result. *)
Theorem C10_subtitle_without_paren_dropped
    (before after : list string) (line : string) :
  contains "Subtitle" line = true ->
  no_char "("%char line = true ->
  contains "Video" line = false ->
  contains "Audio" line = false ->
  contains "Data" line = false ->
  scan_strm line line [] = []
  /\ classify_lines (before ++ line :: after) = classify_lines (before ++ after)
  /\ ((forall l, In l (before ++ after) -> length (scan_strm l l []) = 1) ->
      forall k l, after !! k = Some l ->
        (before ++ line :: after) !! (length before + 1 + k) = Some l
        /\ classify_lines (before ++ line :: after) !! (length before + k)
           = scan_strm l l [] !! 0).
Proof.
  intros _ Hparen HV HA HD.
  rewrite contains_find in HV, HA, HD.
  assert (forall w, bool_decide (is_Some (find w line)) = false ->
                    find w line = None) as Hnone.
  { intros w H. destruct (find w line); [done | reflexivity]. }
  apply Hnone in HV, HA, HD.
  assert (scan_strm line line [] = []) as Hdrop
    by (by apply scan_strm_nothing).
  assert (classify_lines (before ++ line :: after)
          = classify_lines (before ++ after)) as Hsame.
  { rewrite !classify_lines_app, classify_lines_cons, Hdrop. reflexivity. }
  split; [exact Hdrop|]. split; [exact Hsame|].
  intros Hone k l Hk. split.
  - rewrite lookup_app_r by lia.
    replace (length before + 1 + k - length before) with (S k) by lia.
    exact Hk.
  - rewrite Hsame. apply classify_lines_positional; [exact Hone|].
    rewrite lookup_app_r by lia.
    replace (length before + k - length before) with k by lia.
    exact Hk.
Qed.

Lemma C10_subtitle_without_paren_dropped_witness :
  scan_strm "0:1: Subtitle: subrip" "0:1: Subtitle: subrip" [] = []
  /\ classify_lines (["0:0: Video: h264"] ++ "0:1: Subtitle: subrip" :: ["0:2: Audio: aac"])
     = classify_lines (["0:0: Video: h264"] ++ ["0:2: Audio: aac"])
  /\ classify_lines (["0:0: Video: h264"] ++ "0:1: Subtitle: subrip" :: ["0:2: Audio: aac"])
       !! 1 = Some "Audio".
Proof.
  destruct (C10_subtitle_without_paren_dropped
              ["0:0: Video: h264"] ["0:2: Audio: aac"] "0:1: Subtitle: subrip")
    as (H1 & H2 & H3); try (vm_compute; reflexivity).
  split; [exact H1|]. split; [exact H2|].
  assert (forall l, In l (["0:0: Video: h264"] ++ ["0:2: Audio: aac"]) ->
                    length (scan_strm l l []) = 1) as Hone.
  { intros l [<-|[<-|[]]]; vm_compute; reflexivity. }
  destruct (H3 Hone 0 "0:2: Audio: aac" eq_refl) as [_ H4].
  exact H4.
Defined.

End StreamTypesFacts.
(* ================================================================= *)
(** ** Steps that leave the list objects alone and only add to the log *)

Module Frame.

Section Frame.
Context {Env : Type}.
Variable spawn :
  list arg -> gmap (list string) node -> Env ->
  proc * gmap (list string) node * Env.

Lemma framed_ret {A : Type} (a : A) : framed (Env:=Env) (ret a).
Proof. intros w. split; [reflexivity | exists []; by rewrite app_nil_r]. Qed.

Lemma framed_raise {A : Type} (e : exn) : framed (Env:=Env) (raise (A:=A) e).
Proof. intros w. split; [reflexivity | exists []; by rewrite app_nil_r]. Qed.

Lemma framed_bind {A B : Type} (m : M Env A) (f : A -> M Env B) :
  framed m -> (forall a, framed (f a)) -> framed (m ≫= f).
Proof.
  intros Hm Hf w. unfold mbind, M_bind.
  destruct (Hm w) as [Hh [evs Hl]].
  destruct (m w) as [[a|e] w1]; simpl in *.
  - destruct (Hf a w1) as [Hh' [evs' Hl']]. split; [congruence|].
    exists (evs ++ evs'). rewrite Hl', Hl. by rewrite app_assoc.
  - split; [done | by exists evs].
Qed.

Lemma framed_emit (e : event) : framed (Env:=Env) (emit e).
Proof. intros w. split; [reflexivity | by exists [e]]. Qed.

Lemma framed_print (msg : list piece) : framed (Env:=Env) (print msg).
Proof. apply framed_emit. Qed.

Lemma framed_print_if (b : bool) (msg : list piece) :
  framed (Env:=Env) (print_if b msg).
Proof. destruct b; [apply framed_print | apply framed_ret]. Qed.

Lemma framed_get_fs : framed (@get_fs Env).
Proof. intros w. split; [reflexivity | exists []; by rewrite app_nil_r]. Qed.

Lemma framed_path_exists (p : path) : framed (Env:=Env) (path_exists p).
Proof.
  apply framed_bind; [apply framed_emit|]. intros _.
  apply framed_bind; [apply framed_get_fs|]. intros f. apply framed_ret.
Qed.

Lemma framed_is_file (p : path) : framed (Env:=Env) (is_file p).
Proof.
  apply framed_bind; [apply framed_emit|]. intros _.
  apply framed_bind; [apply framed_get_fs|]. intros f. apply framed_ret.
Qed.

Lemma framed_read_list (r : nat) : framed (@read_list Env r).
Proof. intros w. split; [reflexivity | exists []; by rewrite app_nil_r]. Qed.

Lemma framed_sub_run (check : bool) (cmd : list arg) :
  framed (sub_run spawn check cmd).
Proof.
  intros w. unfold sub_run. destruct (spawn cmd (fs w) (env w)) as [[p f] e].
  destruct (check && _); simpl; (split; [reflexivity | by exists [Spawned cmd]]).
Qed.

Lemma framed_check_returncode (p : proc) : framed (@check_returncode Env p).
Proof.
  unfold check_returncode. destruct (_ =? _)%Z; [apply framed_ret | apply framed_raise].
Qed.

Lemma framed_for_each {A : Type} (l : list A) (body : A -> M Env unit) :
  (forall a, framed (body a)) -> framed (for_each l body).
Proof.
  intros Hb. induction l as [|a l IH]; simpl; [apply framed_ret|].
  apply framed_bind; [apply Hb | intros _; exact IH].
Qed.

Lemma framed_try_bound {A B : Type} (first : M Env B) (rest : B -> M Env A)
    (e : exn) (handler : option B -> M Env A) :
  framed first -> (forall b, framed (rest b)) -> (forall o, framed (handler o)) ->
  framed (try_bound first rest e handler).
Proof.
  intros Hf Hr Hh w. unfold try_bound.
  destruct (Hf w) as [H1 [evs1 L1]].
  destruct (first w) as [[b|e1] w1]; simpl in *.
  - destruct (Hr b w1) as [H2 [evs2 L2]].
    destruct (rest b w1) as [[a|e2] w2]; simpl in *.
    + split; [congruence|]. exists (evs1 ++ evs2). by rewrite L2, L1, app_assoc.
    + destruct (decide (e2 = e)).
      * destruct (Hh (Some b) w2) as [H3 [evs3 L3]]. split; [congruence|].
        exists (evs1 ++ evs2 ++ evs3). by rewrite L3, L2, L1, !app_assoc.
      * simpl. split; [congruence|]. exists (evs1 ++ evs2).
        by rewrite L2, L1, app_assoc.
  - destruct (decide (e1 = e)).
    + destruct (Hh None w1) as [H3 [evs3 L3]]. split; [congruence|].
      exists (evs1 ++ evs3). by rewrite L3, L1, app_assoc.
    + simpl. split; [done | by exists evs1].
Qed.

End Frame.

Create HintDb framed.

#[export] Hint Resolve framed_ret framed_raise framed_emit framed_print
  framed_print_if framed_get_fs framed_path_exists framed_is_file
  framed_read_list framed_sub_run framed_check_returncode : framed.

(** Splits a framed goal along the binds and branches of the code. *)
Ltac framed :=
  repeat first
    [ progress eauto with framed
    | apply framed_bind; [|intros ?]
    | apply framed_for_each; intros ?
    | match goal with
      | |- framed (if ?b then _ else _) => destruct b
      | |- framed (match ?x with _ => _ end) => destruct x
      end ].

End Frame.

(* ================================================================= *)
(** ** Running the primitive steps *)

Module Run.

Section Run.
Context {Env : Type}.

Lemma run_ret {A : Type} (a : A) (w : World Env) : ret a w = (Return a, w).
Proof. reflexivity. Qed.

Lemma run_raise {A : Type} (e : exn) (w : World Env) :
  raise (A:=A) e w = (Raise e, w).
Proof. reflexivity. Qed.

Lemma run_quit {A : Type} (w : World Env) : quit (A:=A) w = (Raise SystemExit, w).
Proof. reflexivity. Qed.

Lemma run_bind {A B : Type} (m : M Env A) (f : A -> M Env B) (w : World Env) :
  (m ≫= f) w =
  match m w with
  | (Return a, w') => f a w'
  | (Raise e, w') => (Raise e, w')
  end.
Proof. reflexivity. Qed.

Lemma run_emit (e : event) (w : World Env) : emit e w = (Return tt, logged w e).
Proof. reflexivity. Qed.

Lemma run_print (msg : list piece) (w : World Env) :
  print msg w = (Return tt, logged w (Printed msg)).
Proof. reflexivity. Qed.

Lemma run_print_if (b : bool) (msg : list piece) (w : World Env) :
  print_if b msg w = (Return tt, if b then logged w (Printed msg) else w).
Proof. by destruct b. Qed.

Lemma run_path_exists (p : path) (w : World Env) :
  path_exists p w
  = (Return (bool_decide (is_Some (fs w !! parts p))), logged w (Statted p)).
Proof. reflexivity. Qed.

Lemma run_is_file (p : path) (w : World Env) :
  is_file p w
  = (Return (match fs w !! parts p with Some (File _) => true | _ => false end),
     logged w (Statted p)).
Proof. reflexivity. Qed.

Lemma bind_Return_inv {A B : Type} (m : M Env A) (f : A -> M Env B)
    (w w' : World Env) (b : B) :
  (m ≫= f) w = (Return b, w') ->
  exists a w1, m w = (Return a, w1) /\ f a w1 = (Return b, w').
Proof.
  rewrite run_bind. destruct (m w) as [[a|e] w1]; [eauto | discriminate].
Qed.

Lemma for_each_print_returns (msgs : list (list piece)) (w : World Env) :
  exists w', for_each msgs print w = (Return tt, w').
Proof.
  revert w. induction msgs as [|m msgs IH]; intros w; simpl; [by eexists|].
  rewrite run_bind, run_print. apply IH.
Qed.

End Run.

(** Runs the code of the goal as far as the primitive steps decide it. *)
Ltac run :=
  repeat first
    [ rewrite run_bind | rewrite run_ret | rewrite run_raise | rewrite run_quit
    | rewrite run_emit | rewrite run_print | rewrite run_print_if
    | rewrite run_path_exists | rewrite run_is_file
    | progress simpl ].

End Run.

(* ================================================================= *)
(** ** The primary phase *)

Module RenderFacts.
Import Frame Render Scenarios.

Section RenderFacts.
Context {Env : Type}.
Variable spawn :
  list arg -> gmap (list string) node -> Env ->
  proc * gmap (list string) node * Env.

Lemma framed_check_open_after_ren (self : t) (outs : list path) :
  framed (_check_open_after_ren_loop spawn self outs).
Proof.
  induction outs as [|p outs IH]; simpl; [apply framed_ret|].
  destruct (open_after_ren self), (path_flavour p); try exact IH;
    (apply framed_bind; [eauto with framed | intros ?; eauto with framed]).
Qed.

Lemma framed_first_out_exists (self : t) : framed (@first_out_exists Env self).
Proof. unfold first_out_exists. framed. Qed.

Lemma framed_print_rendered (self : t) : framed (@print_rendered Env self).
Proof. unfold print_rendered. framed. Qed.

Lemma framed_run_terminal_cmd_checked (self : t) (hb fs : bool) (p : proc) :
  framed (run_terminal_cmd_checked spawn self hb fs p).
Proof.
  unfold run_terminal_cmd_checked.
  pose proof (framed_first_out_exists self).
  pose proof (framed_print_rendered self).
  pose proof (framed_check_open_after_ren self (out_paths_list self)).
  unfold _check_open_after_ren. framed.
Qed.

Lemma framed_run_terminal_cmd_failed (self : t) (o : option proc) :
  framed (@run_terminal_cmd_failed Env self o).
Proof. unfold run_terminal_cmd_failed. framed. Qed.

(** One default call: the command object grows by the flags, the
    process is spawned with the grown command, and nothing later in the
    call touches the object. *)
Lemma run_terminal_cmd_grows (self : t) (w : World Env) (cmd : list arg) :
  heap w !! ren_cmd self = Some cmd ->
  exists o w' evs,
    run_terminal_cmd spawn self true true w = (o, w')
    /\ heap w' = <[ren_cmd self := cmd ++ default_flags]> (heap w)
    /\ log w' = log w ++ Spawned (cmd ++ default_flags) :: evs.
Proof.
  intros Hcmd. unfold run_terminal_cmd.
  unfold mbind at 1 2, M_bind, extend_list. simpl. rewrite Hcmd. simpl.
  rewrite lookup_insert_eq. simpl. rewrite insert_insert_eq.
  rewrite <- app_assoc. change ([S_ "-hide_banner"] ++ _) with default_flags.
  unfold try_bound.
  unfold mbind, M_bind, read_list. simpl. rewrite lookup_insert_eq. simpl.
  unfold sub_run. simpl.
  destruct (spawn (cmd ++ default_flags) (fs w) (env w)) as [[p f] e]. simpl.
  set (w1 := mkWorld _ _ _ _).
  destruct (framed_run_terminal_cmd_checked self true true p w1) as [H2 [evs2 L2]].
  destruct (run_terminal_cmd_checked spawn self true true p w1) as [[b|e2] w2];
    simpl in H2, L2.
  - exists (Return b), w2, evs2. by rewrite H2, L2, <- app_assoc.
  - destruct (decide (e2 = CalledProcessError)).
    + destruct (framed_run_terminal_cmd_failed self (Some p) w2) as [H3 [evs3 L3]].
      destruct (run_terminal_cmd_failed self (Some p) w2) as [o w3]; simpl in *.
      exists o, w3, (evs2 ++ evs3).
      by rewrite H3, H2, L3, L2, <- !app_assoc.
    + exists (Raise e2), w2, evs2. by rewrite H2, L2, <- app_assoc.
Qed.

(** C9. A default call of [run_terminal_cmd] appends the three flags to
    the stored command object before the process is spawned: the
    process receives the grown command, the object differs afterwards
    from what the constructor was given, and a second call on the same
    instance appends the same flags once more. *)
Theorem C9_run_terminal_cmd_appends_flags
    (self : t) (w : World Env) (cmd : list arg) :
  heap w !! ren_cmd self = Some cmd ->
  let w1 := (run_terminal_cmd spawn self true true w).2 in
  let w2 := (run_terminal_cmd spawn self true true w1).2 in
  heap w1 !! ren_cmd self = Some (cmd ++ default_flags)
  /\ (exists evs, log w1 = log w ++ Spawned (cmd ++ default_flags) :: evs)
  /\ heap w1 !! ren_cmd self <> heap w !! ren_cmd self
  /\ heap w2 !! ren_cmd self = Some ((cmd ++ default_flags) ++ default_flags)
  /\ (exists evs,
        log w2 = log w1 ++ Spawned ((cmd ++ default_flags) ++ default_flags) :: evs).
Proof.
  intros Hcmd w1 w2.
  destruct (run_terminal_cmd_grows self w cmd Hcmd)
    as (o1 & w1' & evs1 & E1 & H1 & L1).
  assert (w1 = w1') as -> by (subst w1; by rewrite E1).
  assert (heap w1' !! ren_cmd self = Some (cmd ++ default_flags)) as Hcmd1
    by (rewrite H1; apply lookup_insert_eq).
  destruct (run_terminal_cmd_grows self w1' _ Hcmd1)
    as (o2 & w2' & evs2 & E2 & H2 & L2).
  assert (w2 = w2') as -> by (subst w2; by rewrite E2).
  split; [exact Hcmd1|]. split; [by exists evs1|]. split.
  - rewrite Hcmd1, Hcmd. intros [= E].
    apply (f_equal (@length arg)) in E. rewrite length_app in E. simpl in E. lia.
  - split; [rewrite H2; apply lookup_insert_eq | by exists evs2].
Qed.

End RenderFacts.

Lemma C9_run_terminal_cmd_appends_flags_witness :
  heap (run_terminal_cmd failing_patch_tools clip_job true true clip_world).2
    !! ren_cmd clip_job
  = Some ([S_ "ffmpeg"; S_ "-i"; P_ clip_in; P_ clip_out] ++ default_flags)
  /\ heap (run_terminal_cmd failing_patch_tools clip_job true true
             (run_terminal_cmd failing_patch_tools clip_job true true
                clip_world).2).2
       !! ren_cmd clip_job
     = Some (([S_ "ffmpeg"; S_ "-i"; P_ clip_in; P_ clip_out] ++ default_flags)
             ++ default_flags).
Proof.
  assert (heap clip_world !! ren_cmd clip_job
          = Some [S_ "ffmpeg"; S_ "-i"; P_ clip_in; P_ clip_out]) as Hcmd
    by (vm_compute; reflexivity).
  destruct (C9_run_terminal_cmd_appends_flags failing_patch_tools clip_job
              clip_world _ Hcmd) as (H1 & _ & _ & H2 & _).
  split; [exact H1 | exact H2].
Defined.

End RenderFacts.
(* ================================================================= *)
(** ** Metadata acquisition *)

Module MetadataFacts.
Import PyStr MetadataAcquisition Run Scenarios.

Section MetadataFacts.
Context {Env : Type}.
Variable spawn :
  list arg -> gmap (list string) node -> Env ->
  proc * gmap (list string) node * Env.

Lemma report_returns (self : t) (p : proc) (w : World Env) :
  exists w',
    _term_return_file_info_report self p w
    = (Return (Info (proc_stderr p +:+ proc_stdout p)), w')
    /\ fs w' = fs w /\ env w' = env w.
Proof.
  unfold _term_return_file_info_report, print_if, print, emit, mbind, M_bind, ret.
  destruct (print_all_info self), (print_scan_time self); simpl; eauto.
Qed.

(** C8. [_term_return_file_info] returns the standard error of the
    process followed by its standard output, whatever the exit status;
    the tools' effects on the world are kept; and the handler of
    [CalledProcessError] is never entered: any other handler in its
    place gives the same result. *)
Theorem C8_term_return_file_info_ignores_status
    (self : t) (custom_cmd : option (list arg)) (w : World Env) :
  let cmd := info_cmd self custom_cmd in
  let ran := spawn cmd (fs w) (env w) in
  (exists w',
     _term_return_file_info spawn self custom_cmd w
     = (Return (Info (proc_stderr ran.1.1 +:+ proc_stdout ran.1.1)), w')
     /\ fs w' = ran.1.2 /\ env w' = ran.2)
  /\ (forall handler : option proc -> M Env info,
        try_bound (sub_run spawn false cmd) (_term_return_file_info_report self)
                  CalledProcessError handler w
        = _term_return_file_info spawn self custom_cmd w).
Proof.
  intros cmd ran. unfold _term_return_file_info, try_bound, sub_run. fold cmd.
  subst ran. destruct (spawn cmd (fs w) (env w)) as [[p f] e]. simpl.
  set (w1 := mkWorld _ _ _ _).
  destruct (report_returns self p w1) as (w' & E & Hf & He).
  rewrite E. split; [by exists w' | reflexivity].
Qed.

(** C3, as the code has it. A call with all twenty fields left at
    [False] is not rejected: the message of the at-least-one check is
    not printed, the existence of the input file is tested, no process
    is spawned, and the call ends in [UnboundLocalError] when the file
    is there (in [SystemExit] from the file check when it is not). *)
Theorem C3_no_fields_not_rejected (self : t) (w : World Env) :
  let p := in_path self in
  let r := return_metadata spawn self no_fields w in
  (exists evs,
     log r.2 = log w ++ Statted p :: evs
     /\ ~ In (Printed at_least_one_error) evs
     /\ spawned evs = [])
  /\ r.1 = match fs w !! parts p with
           | Some (File _) => Raise UnboundLocalError
           | _ => Raise SystemExit
           end.
Proof.
  intros p r. subst r. unfold return_metadata.
  generalize (meta_dict no_fields). intros d.
  change (forallb truthy (in_meta_value_list no_fields)) with false.
  change (collect_fields d (in_meta_value_list no_fields) [] [])
    with (ret (A:=list Z * list string) (Env:=Env) ([], [])).
  run. unfold _check_file_exists. run. fold p.
  destruct (fs w !! parts p) as [[c|]|] eqn:E; run.
  - rewrite E. run. split; [|reflexivity]. exists [Statted p].
    split; [simpl; by rewrite <- app_assoc|].
    split; [|reflexivity]. intros [H|[]]. discriminate H.
  - rewrite E. run. split; [|reflexivity]. eexists.
    split; [simpl; rewrite <- !app_assoc; reflexivity|].
    split; [|reflexivity]. intros [H|[H|[]]]; discriminate H.
  - split; [|reflexivity]. eexists.
    split; [simpl; rewrite <- !app_assoc; reflexivity|].
    split; [|reflexivity]. intros [H|[]]. discriminate H.
Qed.

(** Whatever is asked for, a call that returns returns one value: the
    value list is appended to once, after the loop over the keywords. *)
Lemma return_metadata_singleton (self : t) (q : query) (w w' : World Env)
    (l : list (option string)) :
  return_metadata spawn self q w = (Return l, w') -> length l = 1.
Proof.
  unfold return_metadata. intros H.
  repeat (apply bind_Return_inv in H as (? & ? & _ & H)).
  match type of H with
  | match ?c with _ => _ end _ = _ => destruct c; [|discriminate H]
  end.
  rewrite run_ret in H. by injection H as <- _.
Qed.

End MetadataFacts.

Lemma return_metadata_singleton_witness :
  (return_metadata tag_tools song title_then_composer song_world).1
  = Return [Some "A. Composer"]
  /\ length [Some "A. Composer"] = 1.
Proof.
  split; [vm_compute; reflexivity|].
  apply (return_metadata_singleton tag_tools song title_then_composer song_world
           (return_metadata tag_tools song title_then_composer song_world).2).
  vm_compute. reflexivity.
Defined.

(** C2, as the code has it. With the title at position 1 and the
    composer at position 2, both tags are probed, in that order, and the
    call returns one value, the composer: the title read first is lost. *)
Theorem C2_two_fields_one_value :
  (return_metadata tag_tools song title_then_composer song_world).1
  = Return [Some "A. Composer"]
  /\ spawned (log (return_metadata tag_tools song title_then_composer song_world).2)
     = [probe_of "title"; probe_of "composer"].
Proof. vm_compute. split; reflexivity. Qed.

End MetadataFacts.

(* ================================================================= *)
(** ** The scan of the stream listing *)

Module StreamScanFacts.
Import PyStr PyStrFacts MetadataAcquisition Run Words Scenarios.

Section StreamScanFacts.
Context {Env : Type}.

Lemma stream_entry_cons (c : ascii) (rest : string) :
  stream_entry (String c rest) =
  if Ascii.eqb c "#"%char then Some (rest +:+ NL)
  else if String.prefix "Stream" (String c rest)
       then Some (drop 8 (String c rest) +:+ NL)
  else if Ascii.eqb c " "%char then stream_entry rest
  else None.
Proof. reflexivity. Qed.

(** The Stream branch of the character loop, at one character. *)
Lemma scan_line_stream_cons (self : t) (last_line : bool) (c : ascii)
    (rest : string) (st : scan) :
  scan_line self "Stream" last_line (String c rest) st =
  if Ascii.eqb c "#"%char then
    mkScan (rest +:+ NL) (complete_key_value st +:+ rest +:+ NL)
           (return_metadata_value_list st) (printed st) (cleared st)
  else if slice_is 6 "Stream" (String c rest) then
    mkScan (drop 8 (String c rest) +:+ NL)
           (complete_key_value st +:+ drop 8 (String c rest) +:+ NL)
           (return_metadata_value_list st) (printed st) (cleared st)
  else if last_line then
    mkScan (keyword_value st) (complete_key_value st)
           (return_metadata_value_list st ++ [Some (complete_key_value st)])
           (say (print_meta_value self)
                [Txt (NL +:+ "Stream" +:+ "(s):" +:+ NL
                      +:+ drop_last (complete_key_value st))] st)
           true
  else if negb (Ascii.eqb c " "%char) then st
  else scan_line self "Stream" last_line rest st.
Proof. reflexivity. Qed.

Lemma scan_line_stream (self : t) (line : string) (st : scan) :
  scan_line self "Stream" false line st = add_entry st line.
Proof.
  unfold add_entry. induction line as [|c rest IH]; [reflexivity|].
  rewrite scan_line_stream_cons, stream_entry_cons.
  unfold slice_is.
  change 6 with (String.length "Stream"). rewrite <- prefix_take.
  destruct (Ascii.eqb c "#"); [reflexivity|].
  destruct (String.prefix "Stream" (String c rest)); [reflexivity|].
  destruct (Ascii.eqb c " "); simpl; [exact IH | reflexivity].
Qed.

Lemma add_entry_cleared (st : scan) (line : string) :
  cleared (add_entry st line) = cleared st.
Proof. unfold add_entry. by destruct (stream_entry line). Qed.

Lemma concat_cons_nosep (x : string) (l : list string) :
  String.concat "" (x :: l) = x +:+ String.concat "" l.
Proof. destruct l; simpl; [by rewrite append_nil_r | reflexivity]. Qed.

Lemma listing_of_all_cons (l : string) (lines : list string) :
  listing_of_all (l :: lines) =
  match stream_entry l with
  | Some e => e +:+ listing_of_all lines
  | None => listing_of_all lines
  end.
Proof.
  unfold listing_of_all. change (omap stream_entry (l :: lines))
    with (match stream_entry l with
          | Some e => e :: omap stream_entry lines
          | None => omap stream_entry lines
          end).
  destruct (stream_entry l); [apply concat_cons_nosep | reflexivity].
Qed.

Lemma fold_add_entry (lines : list string) (st : scan) :
  complete_key_value (fold_left add_entry lines st)
  = complete_key_value st +:+ listing_of_all lines
  /\ return_metadata_value_list (fold_left add_entry lines st)
     = return_metadata_value_list st
  /\ printed (fold_left add_entry lines st) = printed st.
Proof.
  revert st. induction lines as [|l lines IH]; intros st.
  - simpl. by rewrite append_nil_r.
  - change (fold_left add_entry (l :: lines) st)
      with (fold_left add_entry lines (add_entry st l)).
    destruct (IH (add_entry st l)) as (H1 & H2 & H3).
    rewrite H1, H2, H3, listing_of_all_cons. unfold add_entry.
    destruct (stream_entry l) as [e|]; simpl; [|done].
    by rewrite append_assoc.
Qed.

(** The whole scan: every line before the closing one adds its entry,
    and the closing line of one space hands the listing over. *)
Lemma scan_lines_stream (self : t) (lines : list string) (len index : nat)
    (st : scan) :
  cleared st = false ->
  index + length lines + 1 = len ->
  scan_lines self "Stream" len index (lines ++ [" "]) st
  = scan_line self "Stream" true " " (fold_left add_entry lines st).
Proof.
  revert index st. induction lines as [|l lines IH]; intros index st Hc Hlen.
  - simpl in *. replace (index + 1 =? len)%nat with true
      by (symmetry; apply Nat.eqb_eq; lia).
    by destruct (cleared _).
  - simpl app. simpl scan_lines. simpl in Hlen.
    replace (index + 1 =? len)%nat with false
      by (symmetry; apply Nat.eqb_neq; lia).
    rewrite scan_line_stream, add_entry_cleared, Hc.
    simpl fold_left. apply IH; [by rewrite add_entry_cleared | lia].
Qed.

Lemma scan_after_stream (self : t) (after : string) :
  return_metadata_value_list (scan_after self "Stream" after)
  = [Some (listing_of_all (split_on nl after))].
Proof.
  unfold scan_after, file_info_after_keyword_list.
  rewrite (scan_lines_stream self (split_on nl after) _ 0); [|reflexivity|].
  - destruct (fold_add_entry (split_on nl after) (mkScan "" "" [] [] false))
      as (H1 & H2 & _).
    simpl. rewrite H1, H2. reflexivity.
  - rewrite length_app. simpl. lia.
Qed.

(** C4, amended. With the keyword Stream, the value extracted from a
    text in which the word occurs is the listing of all marker lines
    among the lines after its first occurrence: a line that is neither
    kind of marker is passed over and the scan goes on to the end of the
    text, so marker lines after such a line still contribute. *)
Theorem C4_stream_listing_collects_all_marker_lines
    (self : t) (text after : string) (w : World Env) :
  after_first "Stream" text = Some after ->
  (_find_meta_value self (Info text) "Stream" w).1
  = Return (Some (listing_of_all (split_on nl after))).
Proof.
  intros Hafter. unfold _find_meta_value. cbv beta iota.
  rewrite run_bind, run_print_if.
  rewrite (after_first_contains _ _ _ Hafter), Hafter.
  change (negb true) with false.
  change (String.eqb "Stream" "") with false. cbv beta iota.
  rewrite run_bind.
  destruct (for_each_print_returns (printed (scan_after self "Stream" after))
              (if print_all_info self
               then logged w (Printed [Txt (NL +:+ text)]) else w)) as [w' ->].
  rewrite run_bind, run_print_if, scan_after_stream. reflexivity.
Qed.

End StreamScanFacts.

Lemma C4_stream_listing_collects_all_marker_lines_witness :
  (_find_meta_value quiet_probe (Info streams_with_metadata) "Stream" empty_world).1
  = Return (Some (listing_of_all (split_on nl after_first_stream))).
Proof.
  apply (C4_stream_listing_collects_all_marker_lines
           quiet_probe streams_with_metadata after_first_stream empty_world).
  vm_compute. reflexivity.
Defined.

(** C4, as stated, fails on a probe text with a Metadata block between
    two stream lines: the block's first line is neither kind of marker,
    yet the audio stream after it is part of the listing, which is
    therefore not the listing cut at the first such line. *)
Lemma C4_counterexample :
  (_find_meta_value quiet_probe (Info streams_with_metadata) "Stream" empty_world).1
  = Return (Some ("0:0(und): Video: h264 (High), yuv420p, 1280x720" +:+ NL +:+
                  "0:1(und): Audio: aac (LC), 44100 Hz, stereo" +:+ NL))
  /\ stream_entry "    Metadata:" = None
  /\ listing_until_other (split_on nl after_first_stream)
     = "0:0(und): Video: h264 (High), yuv420p, 1280x720" +:+ NL
  /\ after_first "Stream" streams_with_metadata = Some after_first_stream.
Proof. vm_compute. repeat split; reflexivity. Qed.

End StreamScanFacts.

(* ================================================================= *)
(** ** Durations and timecodes *)

Module DurationFacts.
Import PyStr PyStrFacts MetadataAcquisition Run Words.

Section DurationFacts.
Context {Env : Type}.
Variable spawn :
  list arg -> gmap (list string) node -> Env ->
  proc * gmap (list string) node * Env.

Lemma no_char_append (c : ascii) (a b : string) :
  no_char c (a +:+ b) = no_char c a && no_char c b.
Proof.
  induction a as [|x a IH]; simpl; [reflexivity|].
  by rewrite IH, andb_assoc.
Qed.

Lemma rstrip_cons_ne (c a : ascii) (s : string) :
  a <> c -> rstrip c (String a s) = String a (rstrip c s).
Proof.
  intros Hne. simpl. destruct (rstrip c s); [|reflexivity].
  destruct (Ascii.eqb_spec a c); [contradiction | reflexivity].
Qed.

Lemma hd_split_on_ne (c a : ascii) (s : string) :
  a <> c ->
  hd "" (split_on c (String a s)) = String a (hd "" (split_on c s)).
Proof.
  intros Hne. simpl. destruct (Ascii.eqb_spec a c); [contradiction|].
  by destruct (split_on c s).
Qed.

Lemma hd_split_on_eq (c : ascii) (s : string) :
  hd "" (split_on c (String c s)) = "".
Proof. simpl. by rewrite Ascii.eqb_refl. Qed.

(** The value completed from a Duration line that starts with the
    timecode and a comma. *)
Lemma complete_duration (x : string) :
  complete_keyword_value "Duration" ("00:01:30.25," +:+ x) = "01:30.25".
Proof.
  unfold complete_keyword_value. simpl String.append.
  rewrite !rstrip_cons_ne by discriminate.
  change (String.eqb "Duration" "start" || String.eqb "Duration" "Duration")
    with true. cbv iota.
  rewrite !hd_split_on_ne by discriminate. rewrite hd_split_on_eq.
  reflexivity.
Qed.

(** The generic branch of the character loop, at one character. *)
Lemma scan_line_duration_cons (self : t) (last_line : bool) (c : ascii)
    (rest : string) (st : scan) :
  scan_line self "Duration" last_line (String c rest) st =
  if Ascii.eqb c ":"%char then
    mkScan (keyword_value st +:+ drop 2 (String c rest) +:+ NL)
           (complete_key_value st) (return_metadata_value_list st)
           (printed st) (cleared st)
  else if negb (Ascii.eqb c " "%char) then
    let v := complete_keyword_value "Duration" (keyword_value st) in
    if String.eqb v "" then
      scan_line self "Duration" last_line rest
        (mkScan (keyword_value st) (complete_key_value st)
                (return_metadata_value_list st ++ [None])
                (say (print_meta_value self)
                     [Txt ("Duration" +:+ ":" +:+ NL
                           +:+ "Error, metadata value " +:+ dq +:+ "Duration"
                           +:+ dq +:+ " not found.")] st)
                (cleared st))
    else
      mkScan (keyword_value st) (complete_key_value st)
             (return_metadata_value_list st ++ [Some v])
             (say (print_meta_value self)
                  [Txt (NL +:+ "Duration" +:+ ":" +:+ NL +:+ v)] st)
             true
  else scan_line self "Duration" last_line rest st.
Proof. reflexivity. Qed.

Lemma scan_line_duration (self : t) (last_line : bool) (line : string)
    (st : scan) :
  reading_duration st ->
  if starts_new_field line
  then return_metadata_value_list (scan_line self "Duration" last_line line st)
       = [Some "01:30.25"]
       /\ cleared (scan_line self "Duration" last_line line st) = true
  else reading_duration (scan_line self "Duration" last_line line st).
Proof.
  intros Hst. induction line as [|c rest IH]; [exact Hst|].
  rewrite scan_line_duration_cons. simpl starts_new_field.
  destruct (Ascii.eqb c ":").
  - destruct Hst as ([x Hx] & Hr & Hc). repeat split; simpl; try done.
    exists (x +:+ drop 2 (String c rest) +:+ NL).
    by rewrite Hx, append_assoc.
  - destruct (Ascii.eqb c " "); simpl negb; cbv iota; [exact IH|].
    destruct Hst as ([x Hx] & Hr & Hc).
    rewrite Hx, complete_duration. simpl. by rewrite Hr.
Qed.

Lemma scan_lines_duration (self : t) (len index : nat) (lines : list string)
    (st : scan) :
  reading_duration st ->
  existsb starts_new_field lines = true ->
  return_metadata_value_list (scan_lines self "Duration" len index lines st)
  = [Some "01:30.25"].
Proof.
  revert index st. induction lines as [|l lines IH]; intros index st Hst Hex;
    [discriminate|].
  simpl scan_lines.
  pose proof (scan_line_duration self (index + 1 =? len)%nat l st Hst) as Hl.
  simpl in Hex. destruct (starts_new_field l).
  - destruct Hl as [Hr Hc]. by rewrite Hc.
  - destruct Hl as (Hx & Hr & Hc). rewrite Hc.
    apply IH; [by repeat split | exact Hex].
Qed.

(** The extraction half of C6. *)
Lemma find_duration (self : t) (pre rest post : string) (w : World Env) :
  find "Duration" (pre +:+ "Duration: 00:01:30.25," +:+ rest +:+ NL +:+ post)
  = Some (String.length pre) ->
  no_char nl rest = true ->
  existsb starts_new_field (split_on nl post) = true ->
  exists w',
    _find_meta_value self
      (Info (pre +:+ "Duration: 00:01:30.25," +:+ rest +:+ NL +:+ post))
      "Duration" w
    = (Return (Some "01:30.25"), w').
Proof.
  intros Hfind Hrest Hpost.
  pose proof (after_first_at _ _ _ Hfind) as Hafter.
  simpl drop in Hafter.
  unfold _find_meta_value. cbv beta iota.
  rewrite run_bind, run_print_if.
  rewrite (after_first_contains _ _ _ Hafter), Hafter.
  change (negb true) with false.
  change (String.eqb "Duration" "") with false. cbv beta iota.
  set (after := String ":" _).
  assert (return_metadata_value_list (scan_after self "Duration" after)
          = [Some "01:30.25"]) as Hscan.
  { unfold scan_after, file_info_after_keyword_list. subst after.
    match goal with
    | |- context [split_on nl ?t] =>
        change t with ((": 00:01:30.25," +:+ rest) +:+ String nl post)
    end.
    rewrite split_on_line; [|by rewrite no_char_append, Hrest].
    simpl app. simpl scan_lines. simpl String.append.
    apply scan_lines_duration.
    - repeat split; simpl; try done. by exists (rest +:+ NL).
    - rewrite existsb_app, Hpost. reflexivity. }
  rewrite run_bind.
  match goal with
  | |- context [for_each ?l print ?w0] =>
      destruct (for_each_print_returns l w0) as [w1 ->]
  end.
  rewrite run_bind, run_print_if, Hscan. eexists. reflexivity.
Qed.

End DurationFacts.
End DurationFacts.

Module TimecodeFacts.
Import PyStr PyStrFacts Run Words Scenarios FileOperations Strptime.

Section TimecodeFacts.
Context {Env : Type}.
Variable spawn :
  list arg -> gmap (list string) node -> Env ->
  proc * gmap (list string) node * Env.

Lemma eqb_length (a b : string) :
  String.eqb a b = true -> String.length a = String.length b.
Proof. by intros ->%String.eqb_eq. Qed.

(** A text given to the converter, other than the empty default and the
    marker of an unknown duration, goes to [strptime] with the chosen
    format. *)
Lemma duration_dispatch (self : t) (s : string) (w : World Env) :
  s <> "" -> s <> "N/A" ->
  _return_input_duration_in_sec spawn self s w
  = seconds_of_time self s
      (match timecode_format s with
       | Some fmt => strptime s fmt
       | None => None
       end) w.
Proof.
  intros Hne Hna. unfold _return_input_duration_in_sec.
  rewrite run_bind.
  apply String.eqb_neq in Hne, Hna. rewrite Hne.
  change (negb false) with true. cbv iota.
  rewrite run_ret. cbv beta iota. by rewrite Hna.
Qed.

Lemma timecode_format_no_point (s : string) :
  contains "." s = false ->
  timecode_format s =
  let n := String.length s in
  if (6 <? n)%nat then Some fmt_HMS
  else if (3 <? n)%nat then Some fmt_MS
  else if (n =? 2)%nat || (n =? 1)%nat then Some fmt_S
  else None.
Proof. intros H. unfold timecode_format. by rewrite H. Qed.

Lemma seconds_of_time_fatal (self : t) (s : string) (w : World Env) :
  (seconds_of_time self s None w).1 = Raise SystemExit.
Proof.
  unfold seconds_of_time. by rewrite run_bind, run_print_if, run_quit.
Qed.

(** The marker of an unknown duration is answered with [None], after the
    message that no duration was found, before any format is chosen. *)
Lemma duration_unknown (self : t) (w : World Env) :
  (_return_input_duration_in_sec spawn self "N/A" w).1 = Return None.
Proof.
  unfold _return_input_duration_in_sec. rewrite run_bind.
  change (negb (String.eqb "N/A" "")) with true. cbv iota.
  rewrite run_ret. cbv beta iota.
  change (String.eqb "N/A" "N/A") with true. cbv iota.
  unfold no_duration. rewrite run_bind, run_print_if.
  by destruct (print_err self).
Qed.

(** C5, amended. A non-empty timecode without a point is parsed in the
    format its length selects: hours, minutes and seconds above six
    characters, minutes and seconds for four to six, plain seconds for
    one or two, and a fatal exit for three, the marker N/A apart: that
    three-character text is the unknown duration and is answered with
    [None] before the format is chosen. The text of one digit 5 gives
    five seconds, the text 123 is fatal. *)
Theorem C5_format_chosen_by_length (self : t) (s : string) (w : World Env) :
  contains "." s = false ->
  let n := String.length s in
  let parsed_as fmt := seconds_of_time self s (strptime s fmt) w in
  (6 < n -> _return_input_duration_in_sec spawn self s w = parsed_as fmt_HMS)
  /\ (3 < n <= 6 ->
      _return_input_duration_in_sec spawn self s w = parsed_as fmt_MS)
  /\ (n = 1 \/ n = 2 ->
      _return_input_duration_in_sec spawn self s w = parsed_as fmt_S)
  /\ (n = 3 -> s <> "N/A" ->
      (_return_input_duration_in_sec spawn self s w).1 = Raise SystemExit)
  /\ (_return_input_duration_in_sec spawn self "N/A" w).1 = Return None
  /\ _return_input_duration_in_sec spawn self "5" w = (Return (Some (5 # 1)), w)
  /\ binary64_exact (5 # 1) = true
  /\ (_return_input_duration_in_sec spawn self "123" w).1 = Raise SystemExit.
Proof.
  intros Hdot n parsed_as.
  assert (forall k, n = k -> k <> 0 -> s <> "") as Hne.
  { intros k Hk Hk0 ->. simpl in n. lia. }
  assert (n <> 3 -> s <> "N/A") as Hna.
  { intros Hn ->. by apply Hn. }
  pose proof (timecode_format_no_point s Hdot) as Hfmt. fold n in Hfmt.
  cbv zeta in Hfmt.
  repeat apply conj.
  - intros Hn. rewrite duration_dispatch, Hfmt;
      [|apply (Hne n); lia|apply Hna; lia].
    by replace (6 <? n)%nat with true by (symmetry; apply Nat.ltb_lt; lia).
  - intros Hn. rewrite duration_dispatch, Hfmt;
      [|apply (Hne n); lia|apply Hna; lia].
    replace (6 <? n)%nat with false by (symmetry; apply Nat.ltb_ge; lia).
    by replace (3 <? n)%nat with true by (symmetry; apply Nat.ltb_lt; lia).
  - intros Hn. rewrite duration_dispatch, Hfmt;
      [|apply (Hne n); lia|apply Hna; lia].
    replace (6 <? n)%nat with false by (symmetry; apply Nat.ltb_ge; lia).
    replace (3 <? n)%nat with false by (symmetry; apply Nat.ltb_ge; lia).
    destruct Hn as [-> | ->]; reflexivity.
  - intros Hn Hs. rewrite duration_dispatch, Hfmt; [|apply (Hne n); lia|done].
    rewrite Hn. apply seconds_of_time_fatal.
  - apply duration_unknown.
  - rewrite duration_dispatch by discriminate. reflexivity.
  - reflexivity.
  - rewrite duration_dispatch by discriminate. apply seconds_of_time_fatal.
Qed.

(** The conversion half of C6. *)
Lemma convert_duration (self : t) (w : World Env) :
  _return_input_duration_in_sec spawn self "01:30.25" w
  = (Return (Some (361 # 4)), w).
Proof. rewrite duration_dispatch by discriminate. reflexivity. Qed.

(** C6. In a probe text whose first occurrence of the word Duration is a
    line of the form [Duration: 00:01:30.25, ...] and in which some
    later line starts the next field, the extraction of the keyword
    Duration yields the text 01:30.25, and the timecode converter turns
    that text into 361/4 seconds, that is 90.25, a value binary64 holds
    exactly. *)
Theorem C6_duration_extracted_and_converted
    (probe : MetadataAcquisition.t) (self : t) (pre rest post : string)
    (w : World Env) :
  find "Duration" (pre +:+ "Duration: 00:01:30.25," +:+ rest +:+ NL +:+ post)
  = Some (String.length pre) ->
  no_char nl rest = true ->
  existsb starts_new_field (split_on nl post) = true ->
  exists w',
    MetadataAcquisition._find_meta_value probe
      (MetadataAcquisition.Info
         (pre +:+ "Duration: 00:01:30.25," +:+ rest +:+ NL +:+ post))
      "Duration" w
    = (Return (Some "01:30.25"), w')
    /\ _return_input_duration_in_sec spawn self "01:30.25" w'
       = (Return (Some (361 # 4)), w')
    /\ (361 # 4 == 90.25)%Q
    /\ binary64_exact (361 # 4) = true.
Proof.
  intros Hfind Hrest Hpost.
  destruct (DurationFacts.find_duration probe pre rest post w Hfind Hrest Hpost)
    as [w' Hw'].
  exists w'. split; [exact Hw'|]. split; [apply convert_duration|].
  split; reflexivity.
Qed.

End TimecodeFacts.

Lemma C5_format_chosen_by_length_witness :
  _return_input_duration_in_sec failing_patch_tools clip_ops "1:02:03" clip_world
  = seconds_of_time clip_ops "1:02:03" (strptime "1:02:03" fmt_HMS) clip_world
  /\ _return_input_duration_in_sec failing_patch_tools clip_ops "1:02:03" clip_world
     = (Return (Some (3723 # 1)), clip_world).
Proof.
  assert (contains "." "1:02:03" = false) as Hdot by reflexivity.
  destruct (C5_format_chosen_by_length failing_patch_tools clip_ops "1:02:03"
              clip_world Hdot) as (H & _).
  assert (6 < String.length "1:02:03") as Hlen by (simpl; lia).
  split; [exact (H Hlen)|].
  rewrite (H Hlen). vm_compute. reflexivity.
Defined.

(** C5, as stated, fails on the text N/A: it holds no point and has
    three characters, a length the claim has rejected as fatal, and the
    converter returns [None]. *)
Lemma C5_counterexample :
  contains "." "N/A" = false
  /\ String.length "N/A" = 3
  /\ (_return_input_duration_in_sec failing_patch_tools clip_ops "N/A"
        clip_world).1
     = Return None.
Proof. repeat split; vm_compute; reflexivity. Qed.

Lemma C6_duration_extracted_and_converted_witness :
  exists w',
    MetadataAcquisition._find_meta_value quiet_probe
      (MetadataAcquisition.Info
         (clip_probe_pre +:+ "Duration: 00:01:30.25," +:+ clip_probe_rest
          +:+ NL +:+ clip_probe_post))
      "Duration" clip_world
    = (Return (Some "01:30.25"), w')
    /\ _return_input_duration_in_sec failing_patch_tools clip_ops "01:30.25" w'
       = (Return (Some (361 # 4)), w')
    /\ (361 # 4 == 90.25)%Q
    /\ binary64_exact (361 # 4) = true.
Proof.
  apply (C6_duration_extracted_and_converted failing_patch_tools quiet_probe
           clip_ops clip_probe_pre clip_probe_rest clip_probe_post clip_world).
  - vm_compute. reflexivity.
  - vm_compute. reflexivity.
  - vm_compute. reflexivity.
Defined.

End TimecodeFacts.

(* ================================================================= *)
(** ** The patch phase *)

Module RenderEmbedFacts.
Import PyStr Run RenderEmbed Scenarios.

Section RenderEmbedFacts.
Context {Env : Type}.
Variable spawn :
  list arg -> gmap (list string) node -> Env ->
  proc * gmap (list string) node * Env.

Lemma run_rmdir (p : path) (w : World Env) :
  rmdir p w =
  match fs w !! parts p with
  | None => (Raise FileNotFoundError, w)
  | Some (File _) => (Raise NotADirectoryError, w)
  | Some Dir =>
      if has_children (fs w) (parts p) then (Raise DirectoryNotEmpty, w)
      else (Return tt, mkWorld (delete (parts p) (fs w)) (heap w) (log w) (env w))
  end.
Proof.
  unfold rmdir. rewrite run_bind. unfold get_fs.
  destruct (fs w !! parts p) as [[c|]|]; try reflexivity.
  by destruct (has_children _ _).
Qed.

(** When the patched copy is missing and no artwork is asked for, the
    patch phase removes the scratch directory and then removes it again:
    the call never returns. The output of the primary render is left as
    it was. *)
Lemma swap_in_patched_miss (self : Render.t) (in_meta_file out_path temp_dir
    temp_out_file : path) (w : World Env) :
  fs w !! parts temp_out_file = None ->
  parts out_path <> parts temp_dir ->
  exists e w',
    swap_in_patched spawn self in_meta_file false out_path temp_dir temp_out_file w
    = (Raise e, w')
    /\ fs w' !! parts out_path = fs w !! parts out_path
    /\ (fs w !! parts temp_dir = Some Dir ->
        has_children (fs w) (parts temp_dir) = false ->
        e = FileNotFoundError /\ fs w' = delete (parts temp_dir) (fs w)).
Proof.
  intros Hmiss Hne. unfold swap_in_patched.
  rewrite run_bind, run_path_exists, Hmiss. simpl.
  rewrite !run_bind, run_print_if.
  set (w1 := if Render.print_err self then _ else _).
  assert (fs w1 = fs (logged w (Statted temp_out_file))) as Hfs
    by (subst w1; by destruct (Render.print_err self)).
  simpl in Hfs. rewrite run_rmdir, Hfs.
  destruct (fs w !! parts temp_dir) as [[c|]|] eqn:Ed.
  - exists NotADirectoryError, w1. rewrite Hfs. by repeat split.
  - destruct (has_children (fs w) (parts temp_dir)) eqn:Ec.
    + exists DirectoryNotEmpty, w1. rewrite Hfs. by repeat split.
    + rewrite run_bind, run_ret, run_bind, run_rmdir. simpl.
      rewrite lookup_delete_eq. eexists _, _. split; [reflexivity|]. simpl.
      split; [by rewrite lookup_delete_ne | done].
  - exists FileNotFoundError, w1. rewrite Hfs. by repeat split.
Qed.

End RenderEmbedFacts.

Lemma swap_in_patched_miss_witness :
  exists w',
    swap_in_patched failing_patch_tools clip_job clip_in false clip_out
      scratch_dir (PurePath.joinpath scratch_dir "out.mp4") after_failed_patch
    = (Raise FileNotFoundError, w')
    /\ fs w' !! parts clip_out = Some (File "rendered")
    /\ fs w' !! parts scratch_dir = None.
Proof.
  destruct (swap_in_patched_miss failing_patch_tools clip_job clip_in clip_out
              scratch_dir (PurePath.joinpath scratch_dir "out.mp4")
              after_failed_patch)
    as (e & w' & Hrun & Hout & Hdir).
  - vm_compute. reflexivity.
  - discriminate.
  - destruct Hdir as [-> Hfs]; [vm_compute; reflexivity ..|].
    exists w'. split; [exact Hrun|]. split.
    + rewrite Hout. vm_compute. reflexivity.
    + rewrite Hfs. apply lookup_delete_eq.
Defined.

(** C1, as the code has it. The primary render writes the output and
    the embedding render leaves no copy in the scratch directory: the
    call does not return. It removes the scratch directory where it
    reports the miss and once more before [return True], and the second
    removal raises [FileNotFoundError], with or without the artwork
    step. The output of the primary render is still there, unchanged,
    and the scratch directory is gone. *)
Theorem C1_patch_miss_raises :
  (check_depend_then_ren_and_embed_original_metadata
     failing_patch_tools clip_job true false false clip_world).1
  = Raise FileNotFoundError
  /\ (check_depend_then_ren_and_embed_original_metadata
        failing_patch_tools clip_job true true false clip_world).1
     = Raise FileNotFoundError
  /\ fs (check_depend_then_ren_and_embed_original_metadata
           failing_patch_tools clip_job true false false clip_world).2
     = <[parts clip_out := File "rendered"]> (fs clip_world)
  /\ fs (check_depend_then_ren_and_embed_original_metadata
           failing_patch_tools clip_job true false false clip_world).2
       !! parts scratch_dir = None.
Proof. vm_compute. repeat split; reflexivity. Qed.

End RenderEmbedFacts.

(* ================================================================= *)
(** ** The value of a timecode *)

Module TimecodeValueFacts.
Import PyStr PyStrFacts Run Words Scenarios FileOperations Strptime.

(** *** Decimal texts *)

Lemma fold_digits_pos (d : Decimal.uint) (p : positive) :
  fold_left (λ acc c, (10 * acc + digit_val c)%N)
    (list_ascii_of_string (NilEmpty.string_of_uint d)) (N.pos p)
  = N.pos (Pos.of_uint_acc d p).
Proof.
  revert p. induction d; intros p; simpl; try reflexivity;
    rewrite <- IHd; f_equal; unfold digit_val; simpl; lia.
Qed.

Lemma fold_digits_zero (d : Decimal.uint) :
  fold_left (λ acc c, (10 * acc + digit_val c)%N)
    (list_ascii_of_string (NilEmpty.string_of_uint d)) 0%N
  = Pos.of_uint d.
Proof.
  induction d; simpl; try reflexivity; try exact IHd;
    apply (fold_digits_pos d).
Qed.

(** [int(str(n)) == n]. *)
Lemma int_of_digits_of_N (n : N) : int_of_digits (of_N n) = n.
Proof.
  unfold int_of_digits, of_N. rewrite fold_digits_zero.
  apply DecimalN.Unsigned.of_to.
Qed.

Lemma all_digits_uint (d : Decimal.uint) :
  all_digits (NilEmpty.string_of_uint d) = true.
Proof. induction d; simpl; try reflexivity; exact IHd. Qed.

Lemma all_digits_of_N (n : N) : all_digits (of_N n) = true.
Proof. apply all_digits_uint. Qed.

Lemma of_N_nonempty (n : N) : of_N n <> "".
Proof.
  destruct n as [|p]; [discriminate|].
  intros E. pose proof (int_of_digits_of_N (N.pos p)) as H.
  rewrite E in H. discriminate H.
Qed.

Lemma list_ascii_append (a b : string) :
  list_ascii_of_string (a +:+ b)
  = list_ascii_of_string a ++ list_ascii_of_string b.
Proof. induction a as [|c a IH]; simpl; [reflexivity | by rewrite IH]. Qed.

Lemma all_digits_append (a b : string) :
  all_digits (a +:+ b) = all_digits a && all_digits b.
Proof. unfold all_digits. by rewrite list_ascii_append, forallb_app. Qed.

Lemma fold_digits_shift (l : list ascii) (acc : N) :
  fold_left (λ acc c, (10 * acc + digit_val c)%N) l acc
  = (acc * 10 ^ N.of_nat (length l)
     + fold_left (λ acc c, (10 * acc + digit_val c)%N) l 0)%N.
Proof.
  revert acc. induction l as [|c l IH]; intros acc.
  - simpl. lia.
  - cbn [fold_left length]. rewrite IH, (IH (10 * 0 + digit_val c)%N).
    rewrite Nat2N.inj_succ, N.pow_succ_r'. lia.
Qed.

Lemma length_list_ascii (s : string) :
  length (list_ascii_of_string s) = String.length s.
Proof. induction s as [|c s IH]; simpl; [reflexivity | by rewrite IH]. Qed.

Lemma int_of_digits_append (a b : string) :
  int_of_digits (a +:+ b)
  = (int_of_digits a * 10 ^ N.of_nat (String.length b) + int_of_digits b)%N.
Proof.
  unfold int_of_digits. rewrite list_ascii_append, fold_left_app.
  by rewrite fold_digits_shift, length_list_ascii.
Qed.

Lemma all_digits_no_point (s : string) :
  all_digits s = true -> no_char "."%char s = true.
Proof.
  induction s as [|c s IH]; [done|].
  unfold all_digits. simpl. intros [Hc Hs]%andb_true_iff.
  rewrite (IH Hs), andb_true_r.
  destruct (Ascii.eqb_spec c "."%char) as [->|_]; [discriminate Hc | done].
Qed.

(** [float] of a text made of two runs of digits around a point. *)
Lemma float_of_point_text (ip fp : string) :
  all_digits ip = true -> all_digits fp = true -> ip <> "" -> fp <> "" ->
  float_of_decimal (ip +:+ "." +:+ fp)
  = Some (round_binary64
            (Qred (Z.of_N (int_of_digits (ip +:+ fp))
                   # Pos.pow 10 (Pos.of_nat (String.length fp))))).
Proof.
  intros Hi Hf Ni Nf. unfold float_of_decimal.
  change (ip +:+ "." +:+ fp) with (ip +:+ String "."%char fp).
  rewrite split_on_line by (by apply all_digits_no_point).
  rewrite split_on_last by (by apply all_digits_no_point).
  rewrite Hi, Hf.
  apply String.eqb_neq in Ni, Nf. by rewrite Ni, Nf.
Qed.

(** *** Two-digit fields *)

(** The text of a number below one hundred: two digits that denote it. *)
Lemma two_digits_shape (n : N) :
  (n < 100)%N ->
  exists a b, Render.two_digits n = String a (String b "")
    /\ is_digit a = true /\ is_digit b = true
    /\ (10 * digit_val a + digit_val b)%N = n.
Proof.
  intros Hn.
  assert (forallb (λ k, match Render.two_digits (N.of_nat k) with
                        | String a (String b "") =>
                            is_digit a && is_digit b
                            && (10 * digit_val a + digit_val b =? N.of_nat k)%N
                        | _ => false
                        end) (seq 0 100) = true) as Hall
    by (vm_compute; reflexivity).
  rewrite forallb_forall in Hall.
  specialize (Hall (N.to_nat n)). rewrite N2Nat.id in Hall.
  assert (In (N.to_nat n) (seq 0 100)) as Hin by (apply in_seq; lia).
  specialize (Hall Hin).
  destruct (Render.two_digits n) as [|a [|b [|]]]; try discriminate Hall.
  exists a, b. split; [reflexivity|].
  apply andb_true_iff in Hall as [[Ha Hb]%andb_true_iff Hv%N.eqb_eq]. done.
Qed.

Lemma digits_upto_two (a b : ascii) (rest : string) (bound : N) :
  is_digit a = true -> is_digit b = true ->
  digits_upto 2 bound (String a (String b rest))
  = (10 * digit_val a + digit_val b <=? bound)%N.
Proof.
  intros Ha Hb. unfold digits_upto, all_digits, int_of_digits.
  cbn [take String.length list_ascii_of_string forallb fold_left Nat.eqb].
  rewrite Ha, Hb. cbn [andb]. f_equal; lia.
Qed.

Lemma digits_upto_short (k : nat) (bound : N) (s : string) :
  String.length s < k -> digits_upto k bound s = false.
Proof.
  intros Hk. unfold digits_upto.
  assert (String.length (take k s) = String.length s) as ->.
  { revert s Hk. induction k as [|k IH]; intros [|c s] Hk; simpl in *; try lia.
    rewrite IH; [reflexivity | lia]. }
  replace (String.length s =? k)%nat with false
    by (symmetry; apply Nat.eqb_neq; lia).
  reflexivity.
Qed.

(** A directive that can take [k] characters first, with a match of the
    rest of the format after them, matches that way. *)
Lemma re_match_dir (d : directive) (fmt : list item) (s : string) (g : groups)
    (k : nat) (ks : list nat) (r : groups * string) :
  candidates d s = k :: ks ->
  re_match fmt (drop k s) (bind_group d (take k s) g) = Some r ->
  re_match (Dir d :: fmt) s g = Some r.
Proof. intros Hc Hr. cbn [re_match]. rewrite Hc, Hr. reflexivity. Qed.

Lemma re_match_lit (c : ascii) (fmt : list item) (s : string) (g : groups) :
  re_match (Lit c :: fmt) (String c s) g = re_match fmt s g.
Proof. cbn [re_match]. by rewrite Ascii.eqb_refl. Qed.

Lemma candidates_two (d : directive) (a b : ascii) (rest : string) (bound : N) :
  match d with dH => bound = 23 | dM => bound = 59 | dS => bound = 61 | df => False end%N ->
  is_digit a = true -> is_digit b = true ->
  (10 * digit_val a + digit_val b <= bound)%N ->
  exists ks, candidates d (String a (String b rest)) = 2 :: ks.
Proof.
  intros Hd Ha Hb Hv.
  destruct d; [subst bound ..|done]; unfold candidates;
    rewrite digits_upto_two by done;
    (replace (_ <=? _)%N with true by (symmetry; apply N.leb_le; lia));
    eexists; reflexivity.
Qed.

Lemma candidates_fraction_two (a b : ascii) :
  is_digit a = true -> is_digit b = true ->
  exists ks, candidates df (String a (String b "")) = 2 :: ks.
Proof.
  intros Ha Hb. unfold candidates.
  rewrite !filter_cons.
  rewrite !(digits_upto_short _ _ (String a (String b ""))) by (simpl; lia).
  rewrite digits_upto_two by done.
  assert (digit_val a <= 9 /\ digit_val b <= 9)%N as [Va Vb].
  { unfold is_digit in Ha, Hb. unfold digit_val.
    apply andb_true_iff in Ha as [_ Ha%Nat.leb_le].
    apply andb_true_iff in Hb as [_ Hb%Nat.leb_le]. lia. }
  replace (_ <=? _)%N with true by (symmetry; apply N.leb_le; lia).
  repeat (case_decide; try done); eexists; reflexivity.
Qed.

Lemma int_of_two (a b : ascii) :
  int_of_digits (String a (String b "")) = (10 * digit_val a + digit_val b)%N.
Proof. unfold int_of_digits. cbn [list_ascii_of_string fold_left]. lia. Qed.

Lemma fraction_of_two (a b : ascii) :
  fraction_of (Some (String a (String b "")))
  = ((10 * digit_val a + digit_val b) * 10000)%N.
Proof.
  unfold fraction_of, int_of_digits.
  cbn [String.length Nat.sub take String.append list_ascii_of_string fold_left].
  change (digit_val "0") with 0%N. lia.
Qed.

(** A two-digit field within its bound is taken whole. *)
Lemma match_field (d : directive) (bound : N) (a b : ascii) (rest : string)
    (fmt : list item) (g : groups) (r : groups * string) :
  match d with dH => bound = 23 | dM => bound = 59 | dS => bound = 61 | df => False end%N ->
  is_digit a = true -> is_digit b = true ->
  (10 * digit_val a + digit_val b <= bound)%N ->
  re_match fmt rest (bind_group d (String a (String b "")) g) = Some r ->
  re_match (Dir d :: fmt) (String a (String b rest)) g = Some r.
Proof.
  intros Hd Ha Hb Hv Hr.
  destruct (candidates_two d a b rest bound Hd Ha Hb Hv) as [ks Hk].
  exact (re_match_dir d fmt _ g 2 ks r Hk Hr).
Qed.

Lemma match_fraction (a b : ascii) (g : groups) :
  is_digit a = true -> is_digit b = true ->
  re_match [Dir df] (String a (String b "")) g
  = Some (bind_group df (String a (String b "")) g, "").
Proof.
  intros Ha Hb. destruct (candidates_fraction_two a b Ha Hb) as [ks Hk].
  exact (re_match_dir df [] _ g 2 ks _ Hk eq_refl).
Qed.

Lemma contains_point_cons (c : ascii) (s : string) :
  contains "." (String c s) = Ascii.eqb c "."%char || contains "." s.
Proof.
  rewrite contains_cons. cbn [String.prefix].
  destruct (ascii_dec "."%char c) as [<-|Hne]; [by destruct s|].
  destruct (Ascii.eqb_spec c "."%char) as [->|_]; [done | reflexivity].
Qed.

Lemma digit_not_point (c : ascii) :
  is_digit c = true -> Ascii.eqb c "."%char = false.
Proof.
  intros H. destruct (Ascii.eqb_spec c "."%char) as [->|_]; [discriminate H | done].
Qed.

(** Takes the fields of a format one after the other. *)
Ltac take_fields :=
  unfold strptime, fmt_HMSf, fmt_MSf, fmt_Sf, fmt_HMS, fmt_MS, fmt_S, colon, dot;
  cbn [app];
  match goal with
  | |- match ?m with _ => _ end = _ =>
      let r := fresh "r" in
      evar (r : (groups * string)%type);
      assert (m = Some r) as ->; subst r
  end;
  [ repeat first
      [ rewrite re_match_lit
      | apply match_fraction; assumption
      | eapply (match_field dH 23); [reflexivity|assumption|assumption|lia|]
      | eapply (match_field dM 59); [reflexivity|assumption|assumption|lia|]
      | eapply (match_field dS 61); [reflexivity|assumption|assumption|lia|]
      | reflexivity ]
  | cbn [bind_group gH gM gS gf group_int];
    rewrite ?int_of_two, ?fraction_of_two;
    match goal with
    | |- (if (?x <=? 59)%N then _ else _) = _ =>
        replace (x <=? 59)%N with true by (symmetry; apply N.leb_le; lia)
    end;
    reflexivity ].

(** The format chosen for a text given by its characters. *)
Ltac point_format :=
  unfold timecode_format;
  rewrite !contains_point_cons;
  repeat match goal with
         | H : is_digit ?c = true |- _ => rewrite (digit_not_point c H)
         end;
  reflexivity.

Section Parsed.
Variables h1 h2 m1 m2 s1 s2 c1 c2 : ascii.
Hypothesis (Dh1 : is_digit h1 = true) (Dh2 : is_digit h2 = true).
Hypothesis (Dm1 : is_digit m1 = true) (Dm2 : is_digit m2 = true).
Hypothesis (Ds1 : is_digit s1 = true) (Ds2 : is_digit s2 = true).
Hypothesis (Dc1 : is_digit c1 = true) (Dc2 : is_digit c2 = true).
Hypothesis Hh : (10 * digit_val h1 + digit_val h2 < 24)%N.
Hypothesis Hm : (10 * digit_val m1 + digit_val m2 < 60)%N.
Hypothesis Hs : (10 * digit_val s1 + digit_val s2 < 60)%N.

Let h := (10 * digit_val h1 + digit_val h2)%N.
Let m := (10 * digit_val m1 + digit_val m2)%N.
Let s := (10 * digit_val s1 + digit_val s2)%N.
Let c := (10 * digit_val c1 + digit_val c2)%N.

Lemma strptime_HMSf :
  strptime (String h1 (String h2 (String ":" (String m1 (String m2 (String ":"
             (String s1 (String s2 (String "." (String c1 (String c2 "")))))))))))
           fmt_HMSf
  = Some (mkTime h m s (c * 10000)).
Proof. take_fields. Qed.

Lemma strptime_MSf :
  strptime (String m1 (String m2 (String ":"
             (String s1 (String s2 (String "." (String c1 (String c2 ""))))))))
           fmt_MSf
  = Some (mkTime 0 m s (c * 10000)).
Proof. take_fields. Qed.

Lemma strptime_Sf :
  strptime (String s1 (String s2 (String "." (String c1 (String c2 ""))))) fmt_Sf
  = Some (mkTime 0 0 s (c * 10000)).
Proof. take_fields. Qed.

Lemma strptime_HMS :
  strptime (String h1 (String h2 (String ":" (String m1 (String m2 (String ":"
             (String s1 (String s2 ""))))))))
           fmt_HMS
  = Some (mkTime h m s (0 * 10000)).
Proof. take_fields. Qed.

Lemma strptime_MS :
  strptime (String m1 (String m2 (String ":" (String s1 (String s2 ""))))) fmt_MS
  = Some (mkTime 0 m s (0 * 10000)).
Proof. take_fields. Qed.

Lemma strptime_S :
  strptime (String s1 (String s2 "")) fmt_S = Some (mkTime 0 0 s (0 * 10000)).
Proof. take_fields. Qed.

End Parsed.

Section Values.
Context {Env : Type}.
Variable spawn :
  list arg -> gmap (list string) node -> Env ->
  proc * gmap (list string) node * Env.

(** The text handed to [float] for a time with hundredths [c], and what
    it denotes. *)
Lemma seconds_of_hundredths (self : t) (text : string) (h m s c : N)
    (w : World Env) :
  (c < 100)%N ->
  seconds_of_time (Env:=Env) self text (Some (mkTime h m s (c * 10000))) w
  = (Return (Some (round_binary64
                     (Qred (Z.of_N ((h * 3600 + m * 60 + s) * 100 + c) # 100)))), w).
Proof.
  intros Hc. unfold seconds_of_time, length_sec_text.
  cbn [hour minute second microsecond].
  set (secs := (h * 3600 + m * 60 + s)%N).
  set (micro := of_N (c * 10000)).
  assert (exists fp,
            (if (String.length micro =? 6)%nat
             then of_N secs +:+ "." +:+ micro
             else of_N secs +:+ ".0" +:+ micro) = of_N secs +:+ "." +:+ fp
            /\ all_digits fp = true /\ fp <> ""
            /\ (int_of_digits fp * 100
                = c * 10 ^ N.of_nat (String.length fp))%N) as (fp & -> & Hd & Hne & Hv).
  { assert (forallb (λ k,
              let mu := of_N (N.of_nat k * 10000) in
              let fp := if (String.length mu =? 6)%nat then mu else "0" +:+ mu in
              all_digits fp && negb (String.eqb fp "")
              && (int_of_digits fp * 100
                  =? N.of_nat k * 10 ^ N.of_nat (String.length fp))%N)
              (seq 0 100) = true) as Hall by (vm_compute; reflexivity).
    rewrite forallb_forall in Hall.
    assert (In (N.to_nat c) (seq 0 100)) as Hin by (apply in_seq; lia).
    specialize (Hall _ Hin). rewrite N2Nat.id in Hall. cbv zeta in Hall. fold micro in Hall.
    exists (if (String.length micro =? 6)%nat then micro else "0" +:+ micro).
    apply andb_true_iff in Hall as [[H1 H2%negb_true_iff%String.eqb_neq]%andb_true_iff
                                    H3%N.eqb_eq].
    split; [by destruct (String.length micro =? 6)%nat|]. done. }
  rewrite float_of_point_text;
    [|apply all_digits_of_N|exact Hd|apply of_N_nonempty|exact Hne].
  rewrite run_ret. do 4 f_equal. apply Qred_complete.
  rewrite int_of_digits_append, int_of_digits_of_N.
  unfold Qeq. cbn [Qnum Qden].
  assert (Z.pos (10 ^ Pos.of_nat (String.length fp))
          = Z.of_N (10 ^ N.of_nat (String.length fp))) as ->.
  { destruct fp as [|x fp]; [done|]. cbn [String.length].
    rewrite Pos2Z.inj_pow, N2Z.inj_pow. f_equal.
    rewrite <- positive_nat_Z, Nat2Pos.id, nat_N_Z by done. reflexivity. }
  change (Z.pos 100) with (Z.of_N 100). rewrite <- !N2Z.inj_mul. f_equal. nia.
Qed.

(** Timecodes written with two digits in every field are converted to
    the float of the seconds they denote, that is the binary64 nearest
    to them, with and without hundredths, in each of the six formats. *)
Theorem two_digit_timecodes_nearest_double (self : t) (h m s c : N) (w : World Env) :
  (h < 24)%N -> (m < 60)%N -> (s < 60)%N -> (c < 100)%N ->
  let HH := Render.two_digits h in
  let MM := Render.two_digits m in
  let SS := Render.two_digits s in
  let CC := Render.two_digits c in
  let convert text := _return_input_duration_in_sec spawn self text w in
  let seconds secs hundredths :=
    (Return (Some (round_binary64
                     (Qred (Z.of_N (secs * 100 + hundredths) # 100)))), w) in
  convert (HH +:+ ":" +:+ MM +:+ ":" +:+ SS +:+ "." +:+ CC)
  = seconds (h * 3600 + m * 60 + s)%N c
  /\ convert (MM +:+ ":" +:+ SS +:+ "." +:+ CC) = seconds (m * 60 + s)%N c
  /\ convert (SS +:+ "." +:+ CC) = seconds s c
  /\ convert (HH +:+ ":" +:+ MM +:+ ":" +:+ SS)
     = seconds (h * 3600 + m * 60 + s)%N 0%N
  /\ convert (MM +:+ ":" +:+ SS) = seconds (m * 60 + s)%N 0%N
  /\ convert SS = seconds s 0%N.
Proof.
  intros Hh Hm Hs Hc HH MM SS CC convert seconds.
  destruct (two_digits_shape h) as (h1 & h2 & Eh & Dh1 & Dh2 & Vh); [lia|].
  destruct (two_digits_shape m) as (m1 & m2 & Em & Dm1 & Dm2 & Vm); [lia|].
  destruct (two_digits_shape s) as (s1 & s2 & Es & Ds1 & Ds2 & Vs); [lia|].
  destruct (two_digits_shape c) as (c1 & c2 & Ec & Dc1 & Dc2 & Vc); [lia|].
  subst HH MM SS CC convert seconds. cbv beta. rewrite Eh, Em, Es, Ec.
  cbn [String.append].
  assert (forall text fmt hh mm ss cc,
            text <> "" -> text <> "N/A" -> (cc < 100)%N ->
            timecode_format text = Some fmt ->
            strptime text fmt = Some (mkTime hh mm ss (cc * 10000)) ->
            _return_input_duration_in_sec spawn self text w
            = (Return (Some (round_binary64
                               (Qred (Z.of_N ((hh * 3600 + mm * 60 + ss) * 100 + cc)
                                      # 100)))), w)) as Hrun.
  { intros text fmt hh mm ss cc H1 H2 H3 Hf Hp.
    rewrite TimecodeFacts.duration_dispatch by done. rewrite Hf, Hp.
    by apply seconds_of_hundredths. }
  subst h m s c.
  repeat apply conj.
  - apply (Hrun _ fmt_HMSf); [discriminate|discriminate|lia|by point_format|].
    eapply strptime_HMSf; eassumption.
  - apply (Hrun _ fmt_MSf 0%N); [discriminate|discriminate|lia|by point_format|].
    eapply strptime_MSf; eassumption.
  - apply (Hrun _ fmt_Sf 0%N 0%N); [discriminate|discriminate|lia|by point_format|].
    eapply strptime_Sf; eassumption.
  - apply (Hrun _ fmt_HMS _ _ _ 0%N); [discriminate|discriminate|lia|by point_format|].
    eapply strptime_HMS; eassumption.
  - apply (Hrun _ fmt_MS 0%N _ _ 0%N); [discriminate|discriminate|lia|by point_format|].
    eapply strptime_MS; eassumption.
  - apply (Hrun _ fmt_S 0%N 0%N _ 0%N); [discriminate|discriminate|lia|by point_format|].
    eapply strptime_S; eassumption.
Qed.

(** A timecode with a point is parsed in the format its length selects:
    hours, minutes, seconds and fraction above nine characters, minutes,
    seconds and fraction for six to nine, seconds and fraction for four
    and five, and a fatal exit up to three. So the text 5.5 is fatal,
    and so is 1:00:00.5, whose nine characters are read as minutes,
    seconds and fraction. *)
Theorem fraction_format_chosen_by_length (self : t) (s : string) (w : World Env) :
  contains "." s = true ->
  let n := String.length s in
  let parsed_as fmt := seconds_of_time self s (strptime s fmt) w in
  (9 < n -> _return_input_duration_in_sec spawn self s w = parsed_as fmt_HMSf)
  /\ (5 < n <= 9 ->
      _return_input_duration_in_sec spawn self s w = parsed_as fmt_MSf)
  /\ (3 < n <= 5 ->
      _return_input_duration_in_sec spawn self s w = parsed_as fmt_Sf)
  /\ (n <= 3 -> (_return_input_duration_in_sec spawn self s w).1 = Raise SystemExit)
  /\ (_return_input_duration_in_sec spawn self "5.5" w).1 = Raise SystemExit
  /\ (_return_input_duration_in_sec spawn self "1:00:00.5" w).1 = Raise SystemExit.
Proof.
  intros Hdot n parsed_as.
  assert (s <> "") as Hne by (intros ->; discriminate Hdot).
  assert (s <> "N/A") as Hna by (intros ->; discriminate Hdot).
  assert (_return_input_duration_in_sec spawn self s w
          = seconds_of_time self s
              (match (if (9 <? n)%nat then Some fmt_HMSf
                      else if (5 <? n)%nat then Some fmt_MSf
                      else if (3 <? n)%nat then Some fmt_Sf
                      else None) with
               | Some fmt => strptime s fmt
               | None => None
               end) w) as Hrun.
  { rewrite TimecodeFacts.duration_dispatch by done.
    unfold timecode_format. by rewrite Hdot. }
  repeat apply conj.
  - intros Hn. rewrite Hrun.
    by replace (9 <? n)%nat with true by (symmetry; apply Nat.ltb_lt; lia).
  - intros Hn. rewrite Hrun.
    replace (9 <? n)%nat with false by (symmetry; apply Nat.ltb_ge; lia).
    by replace (5 <? n)%nat with true by (symmetry; apply Nat.ltb_lt; lia).
  - intros Hn. rewrite Hrun.
    replace (9 <? n)%nat with false by (symmetry; apply Nat.ltb_ge; lia).
    replace (5 <? n)%nat with false by (symmetry; apply Nat.ltb_ge; lia).
    by replace (3 <? n)%nat with true by (symmetry; apply Nat.ltb_lt; lia).
  - intros Hn. rewrite Hrun.
    replace (9 <? n)%nat with false by (symmetry; apply Nat.ltb_ge; lia).
    replace (5 <? n)%nat with false by (symmetry; apply Nat.ltb_ge; lia).
    replace (3 <? n)%nat with false by (symmetry; apply Nat.ltb_ge; lia).
    apply TimecodeFacts.seconds_of_time_fatal.
  - rewrite TimecodeFacts.duration_dispatch by discriminate.
    apply TimecodeFacts.seconds_of_time_fatal.
  - rewrite TimecodeFacts.duration_dispatch by discriminate.
    apply TimecodeFacts.seconds_of_time_fatal.
Qed.

(** The fraction of a parsed time is written back from the microsecond
    count. A count of six digits is written as it is; any other count is
    written after one zero, so a count of [n] digits is read as a
    multiple of [10 ^ -(n + 1)]: right for five digits and for zero,
    ten times too large for four digits, as in 1.005, which gives the
    float of 1.05. The value returned is the binary64 nearest to the
    decimal so written. *)
Theorem fraction_written_after_one_zero (self : t) (text : string)
    (fmt : list item) (h m s micro : N) (w : World Env) :
  text <> "" -> text <> "N/A" ->
  timecode_format text = Some fmt ->
  strptime text fmt = Some (mkTime h m s micro) ->
  let n := String.length (of_N micro) in
  let k := if (n =? 6)%nat then 6%nat else S n in
  _return_input_duration_in_sec spawn self text w
  = (Return (Some (round_binary64
                     (Qred (Z.of_N ((h * 3600 + m * 60 + s) * 10 ^ N.of_nat k + micro)
                            # Pos.pow 10 (Pos.of_nat k))))), w)
  /\ _return_input_duration_in_sec spawn self "1.005" w
     = (Return (Some (round_binary64 (Qred (105 # 100)))), w).
Proof.
  intros Hne Hna Hf Hp n k. split.
  - rewrite TimecodeFacts.duration_dispatch by done. rewrite Hf, Hp.
    unfold seconds_of_time, length_sec_text.
    cbn [hour minute second microsecond]. fold n.
    set (secs := (h * 3600 + m * 60 + s)%N).
    set (fp := if (n =? 6)%nat then of_N micro else "0" +:+ of_N micro).
    assert ((if (n =? 6)%nat then of_N secs +:+ "." +:+ of_N micro
             else of_N secs +:+ ".0" +:+ of_N micro)
            = of_N secs +:+ "." +:+ fp) as ->
      by (subst fp; by destruct (n =? 6)%nat).
    assert (all_digits fp = true) as Hd.
    { subst fp. destruct (n =? 6)%nat; [apply all_digits_of_N|].
      change ("0" +:+ of_N micro) with (String "0"%char (of_N micro)).
      unfold all_digits. simpl. apply all_digits_of_N. }
    assert (String.length fp = k) as Hk.
    { subst fp k. destruct (n =? 6)%nat eqn:E; [by apply Nat.eqb_eq in E|].
      reflexivity. }
    assert (int_of_digits fp = micro) as Hv.
    { subst fp. destruct (n =? 6)%nat; [apply int_of_digits_of_N|].
      unfold int_of_digits. simpl. apply int_of_digits_of_N. }
    assert (fp <> "") as Hfp.
    { intros E. rewrite E in Hk. subst k. by destruct (n =? 6)%nat. }
    rewrite float_of_point_text;
      [|apply all_digits_of_N|exact Hd|apply of_N_nonempty|exact Hfp].
    rewrite run_ret, int_of_digits_append, int_of_digits_of_N, Hv, Hk.
    reflexivity.
  - rewrite TimecodeFacts.duration_dispatch by discriminate. reflexivity.
Qed.

End Values.

Lemma two_digit_timecodes_nearest_double_witness :
  _return_input_duration_in_sec failing_patch_tools clip_ops "01:02:03.45" clip_world
  = (Return (Some (4093976570442547 # 1099511627776)), clip_world)
  /\ _return_input_duration_in_sec failing_patch_tools clip_ops "02:03" clip_world
     = (Return (Some (123 # 1)), clip_world).
Proof.
  destruct (two_digit_timecodes_nearest_double failing_patch_tools clip_ops 1 2 3 45
              clip_world) as (H1 & _ & _ & _ & H5 & _); try reflexivity.
  split; [etransitivity; [exact H1|] | etransitivity; [exact H5|]];
    vm_compute; reflexivity.
Defined.

Lemma fraction_format_chosen_by_length_witness :
  _return_input_duration_in_sec failing_patch_tools clip_ops "1:30.5" clip_world
  = seconds_of_time clip_ops "1:30.5" (strptime "1:30.5" fmt_MSf) clip_world
  /\ _return_input_duration_in_sec failing_patch_tools clip_ops "1:30.5" clip_world
     = (Return (Some (181 # 2)), clip_world).
Proof.
  assert (contains "." "1:30.5" = true) as Hdot by reflexivity.
  destruct (fraction_format_chosen_by_length failing_patch_tools clip_ops "1:30.5"
              clip_world Hdot) as (_ & H & _).
  assert (5 < String.length "1:30.5" <= 9) as Hlen by (simpl; lia).
  split; [exact (H Hlen)|].
  rewrite (H Hlen). vm_compute. reflexivity.
Defined.

Lemma fraction_written_after_one_zero_witness :
  _return_input_duration_in_sec failing_patch_tools clip_ops "1.005" clip_world
  = (Return (Some (4728779608739021 # 4503599627370496)), clip_world)
  /\ round_binary64 (105 # 100) = 4728779608739021 # 4503599627370496
  /\ strptime "1.005" fmt_Sf = Some (mkTime 0 0 1 5000).
Proof.
  assert (strptime "1.005" fmt_Sf = Some (mkTime 0 0 1 5000)) as Hp.
  2:{ split; [|split; [vm_compute; reflexivity | exact Hp]].
      destruct (fraction_written_after_one_zero failing_patch_tools clip_ops
                  "1.005" fmt_Sf 0 0 1 5000 clip_world) as [H _];
        [discriminate|discriminate|reflexivity|exact Hp|].
      rewrite H. vm_compute. reflexivity. }
  vm_compute. reflexivity.
Defined.

End TimecodeValueFacts.

(* ================================================================= *)
(** ** The classifier, line by line *)

Module ClassifierFacts.
Import PyStr PyStrFacts StreamTypes Words Scenarios.

Lemma prefix_head (x y : ascii) (w1 w2 s : string) :
  x <> y -> String.prefix (String x w1) s = true ->
  String.prefix (String y w2) s = false.
Proof.
  intros Hne. destruct s as [|c s]; simpl; [done|].
  destruct (ascii_dec x c), (ascii_dec y c); congruence.
Qed.

(** A marker word that comes before the others decides alone. *)
Lemma scan_strm_word_first (w d : string) (others : list string)
    (strm suffix : string) (acc : list string) :
  (w = "Audio" /\ d = "Audio" /\ others = ["Video"; "Data"; "Subtitle"])
  \/ (w = "Data" /\ d = "Chapter" /\ others = ["Video"; "Audio"; "Subtitle"]) ->
  occurs_first w others suffix = true ->
  scan_strm strm suffix acc = acc ++ [d].
Proof.
  intros Hw (i & Hi & Hothers)%StreamTypesFacts.occurs_first_spec.
  revert suffix Hi Hothers.
  induction i as [|i IH]; intros suffix Hi Hothers.
  - apply find_zero_prefix in Hi.
    destruct suffix as [|c rest];
      [destruct Hw as [(-> & _)|(-> & _)]; simpl in Hi; discriminate Hi|].
    rewrite StreamTypesFacts.scan_strm_cons.
    destruct Hw as [(-> & -> & _)|(-> & -> & _)].
    + by rewrite (prefix_head "A" "V" _ "ideo" _ ltac:(discriminate) Hi), Hi.
    + by rewrite (prefix_head "D" "V" _ "ideo" _ ltac:(discriminate) Hi),
        (prefix_head "D" "A" _ "udio" _ ltac:(discriminate) Hi), Hi.
  - destruct suffix as [|c rest];
      [rewrite find_nil in Hi; by destruct (String.prefix w "")|].
    apply find_succ_tail in Hi as [Hp Hi].
    assert (forall o, In o others -> String.prefix o (String c rest) = false) as Hno.
    { intros o Ho. destruct (String.prefix o (String c rest)) eqn:E; [|done].
      assert (find o (String c rest) = Some 0) as H0
        by (by rewrite find_cons, E).
      specialize (Hothers o 0 Ho H0). lia. }
    assert (scan_strm strm (String c rest) acc = scan_strm strm rest acc) as ->.
    { rewrite StreamTypesFacts.scan_strm_cons.
      destruct Hw as [(-> & -> & ->)|(-> & -> & ->)];
        rewrite ?Hp, !Hno by (simpl; tauto); reflexivity. }
    apply IH; [done|].
    intros o j Ho Hj.
    assert (find o (String c rest) = Some (S j)) as HS.
    { rewrite find_cons, (Hno o Ho), Hj. reflexivity. }
    specialize (Hothers o (S j) Ho HS). lia.
Qed.

(** A line in which the word Audio comes before every other marker word
    yields the one descriptor Audio, and a line in which the word Data
    comes first the one descriptor Chapter, whatever follows the word. *)
Theorem audio_or_data_first (strm : string) :
  (occurs_first "Audio" ["Video"; "Data"; "Subtitle"] strm = true ->
   classify_lines [strm] = ["Audio"])
  /\ (occurs_first "Data" ["Video"; "Audio"; "Subtitle"] strm = true ->
      classify_lines [strm] = ["Chapter"]).
Proof.
  split; intros H; unfold classify_lines; simpl.
  - apply (scan_strm_word_first "Audio" "Audio" ["Video"; "Data"; "Subtitle"]
             strm strm []); [|exact H].
    left. done.
  - apply (scan_strm_word_first "Data" "Chapter" ["Video"; "Audio"; "Subtitle"]
             strm strm []); [|exact H].
    right. done.
Qed.

Lemma audio_or_data_first_witness :
  classify_lines ["0:1(und): Audio: aac (LC), 44100 Hz, stereo, Video bitrate n/a"]
  = ["Audio"]
  /\ classify_lines ["0:2(eng): Data: bin_data (text / 0x74786574)"] = ["Chapter"].
Proof.
  split.
  - apply (audio_or_data_first _). vm_compute. reflexivity.
  - apply (audio_or_data_first _). vm_compute. reflexivity.
Defined.

Lemma subtitle_lang_after_paren (strm : string) (acc : list string) :
  subtitle_lang strm acc =
  match after_paren strm with
  | Some rest => acc ++ ["Subtitle=" +:+ take 3 rest]
  | None => acc
  end.
Proof.
  induction strm as [|c rest IH]; [reflexivity|].
  cbn [subtitle_lang after_paren]. by destruct (Ascii.eqb c "("%char).
Qed.

Lemma occurrences_cons (w : string) (c : ascii) (s : string) :
  occurrences w (String c s)
  = (if String.prefix w (String c s) then 1 else 0) + occurrences w s.
Proof. reflexivity. Qed.

Lemma scan_strm_subtitles (strm suffix : string) (acc : list string) :
  find "Video" suffix = None -> find "Audio" suffix = None ->
  find "Data" suffix = None ->
  scan_strm strm suffix acc =
  match after_paren strm with
  | Some rest =>
      acc ++ replicate (occurrences "Subtitle" suffix) ("Subtitle=" +:+ take 3 rest)
  | None => acc
  end.
Proof.
  revert acc. induction suffix as [|c rest IH]; intros acc HV HA HD.
  - simpl. destruct (after_paren strm); [by rewrite app_nil_r | done].
  - rewrite StreamTypesFacts.scan_strm_cons.
    rewrite (find_none_prefix _ _ HV), (find_none_prefix _ _ HA),
      (find_none_prefix _ _ HD).
    apply find_none_tail in HV, HA, HD.
    rewrite occurrences_cons.
    destruct (String.prefix "Subtitle" (String c rest)).
    + rewrite IH, subtitle_lang_after_paren by done.
      destruct (after_paren strm); [|done].
      simpl. by rewrite <- app_assoc.
    + by rewrite IH.
Qed.

(** A line that holds none of the words Video, Audio and Data yields one
    descriptor for each occurrence of the word Subtitle, each made of
    the three characters after the first parenthesis of the line,
    wherever that parenthesis stands; it yields nothing when the word
    does not occur or the line has no parenthesis. *)
Theorem subtitle_line_descriptors (strm : string) :
  contains "Video" strm = false ->
  contains "Audio" strm = false ->
  contains "Data" strm = false ->
  classify_lines [strm] = subtitle_descriptors strm.
Proof.
  intros HV HA HD. rewrite contains_find in HV, HA, HD.
  assert (forall w, bool_decide (is_Some (find w strm)) = false ->
                    find w strm = None) as Hnone.
  { intros w H. destruct (find w strm); [done | reflexivity]. }
  apply Hnone in HV, HA, HD.
  unfold classify_lines, subtitle_descriptors. simpl.
  rewrite scan_strm_subtitles by done. by destruct (after_paren strm).
Qed.

Lemma subtitle_line_descriptors_witness :
  classify_lines ["0:2(eng): Subtitle: mov_text (tx3g / 0x67337874), 0 kb/s (default)"]
  = ["Subtitle=eng"]
  /\ classify_lines ["0:2: Subtitle: mov_text (tx3g / 0x67337874), 0 kb/s"]
     = ["Subtitle=tx3"]
  /\ classify_lines ["    Metadata:"] = [].
Proof.
  repeat apply conj.
  - rewrite subtitle_line_descriptors by (vm_compute; reflexivity).
    vm_compute. reflexivity.
  - rewrite subtitle_line_descriptors by (vm_compute; reflexivity).
    vm_compute. reflexivity.
  - rewrite subtitle_line_descriptors by (vm_compute; reflexivity).
    vm_compute. reflexivity.
Defined.

End ClassifierFacts.

(* ================================================================= *)
(** ** The primary phase: dependencies, exit status, elapsed time *)

Module PrimaryPhaseFacts.
Import PyStr Frame Run Render Words Scenarios.

Section PrimaryPhaseFacts.
Context {Env : Type}.
Variable spawn :
  list arg -> gmap (list string) node -> Env ->
  proc * gmap (list string) node * Env.

Lemma also_logged_nil (w : World Env) : also_logged w [] = w.
Proof. destruct w. unfold also_logged. simpl. by rewrite app_nil_r. Qed.

Lemma also_logged_app (w : World Env) (e1 e2 : list event) :
  also_logged (also_logged w e1) e2 = also_logged w (e1 ++ e2).
Proof. unfold also_logged. simpl. by rewrite app_assoc. Qed.

Lemma logged_also (w : World Env) (e : event) : logged w e = also_logged w [e].
Proof. reflexivity. Qed.

Lemma spawned_app (e1 e2 : list event) :
  spawned (e1 ++ e2) = spawned e1 ++ spawned e2.
Proof. unfold spawned. apply omap_app. Qed.

(** The loop over the inputs: it only looks, and it passes exactly when
    every input is a regular file. *)
Lemma check_inputs_run (l : list path) (w : World Env) :
  exists evs, spawned evs = []
    /\ check_inputs l w
       = (if forallb (is_regular (fs w)) l then Return tt else Raise SystemExit,
          also_logged w evs).
Proof.
  revert w. induction l as [|p l IH]; intros w.
  - exists []. by rewrite also_logged_nil.
  - cbn [check_inputs forallb]. unfold is_regular at 1.
    rewrite run_bind, run_path_exists.
    destruct (fs w !! parts p) as [[c|]|] eqn:E; cbn [negb bool_decide].
    + rewrite bool_decide_eq_true_2 by eauto. cbn [negb].
      rewrite run_bind, run_is_file. cbn [fs logged]. rewrite E. cbn [negb andb].
      destruct (IH (logged (logged w (Statted p)) (Statted p))) as (evs & Hs & ->).
      exists ([Statted p; Statted p] ++ evs).
      split; [by rewrite spawned_app, Hs|].
      by rewrite !logged_also, !also_logged_app.
    + rewrite bool_decide_eq_true_2 by eauto. cbn [negb].
      rewrite run_bind, run_is_file. cbn [fs logged]. rewrite E. cbn [negb andb].
      rewrite run_bind, run_print, run_quit.
      eexists. split; last (by rewrite !logged_also, !also_logged_app).
      reflexivity.
    + rewrite bool_decide_eq_false_2 by (by intros [? ?]). cbn [negb andb].
      rewrite run_bind, run_print, run_quit.
      eexists. split; last (by rewrite !logged_also, !also_logged_app).
      reflexivity.
Qed.

(** The loop over the outputs. *)
Lemma check_outputs_run (l : list path) (w : World Env) :
  exists evs, spawned evs = []
    /\ check_outputs l w
       = (if forallb (output_free (fs w)) l then Return tt else Raise SystemExit,
          also_logged w evs).
Proof.
  revert w. induction l as [|p l IH]; intros w.
  - exists []. by rewrite also_logged_nil.
  - cbn [check_outputs forallb]. unfold output_free at 1, is_regular.
    rewrite run_bind, run_is_file.
    destruct (match fs w !! parts p with Some (File _) => true | _ => false end);
      cbn [negb andb].
    + rewrite run_bind, run_print, run_quit.
      eexists. split; last (by rewrite !logged_also, !also_logged_app).
      reflexivity.
    + rewrite run_bind, run_path_exists. cbn [fs logged].
      destruct (bool_decide (is_Some (fs w !! parts (PurePath.parent p))));
        cbn [negb andb].
      * destruct (IH (logged (logged w (Statted p)) (Statted (PurePath.parent p))))
          as (evs & Hs & ->).
        exists ([Statted p; Statted (PurePath.parent p)] ++ evs).
        split; [by rewrite spawned_app, Hs|].
        by rewrite !logged_also, !also_logged_app.
      * rewrite run_bind, run_print, run_quit.
        eexists. split; last (by rewrite !logged_also, !also_logged_app).
        reflexivity.
Qed.

(** [check_depend_then_ren] looks at the inputs and outputs without
    changing anything and without running a process; when every input
    is a regular file, no output is one and every output has its
    directory, it goes on as [run_terminal_cmd] with the banner flag;
    otherwise it quits, and the command object has not been touched. *)
Theorem check_depend_then_ren_guards (self : t) (append_faststart : bool)
    (w : World Env) :
  exists evs,
    spawned evs = []
    /\ check_depend_then_ren spawn self append_faststart w
       = if dependencies_met (fs w) self
         then run_terminal_cmd spawn self true append_faststart (also_logged w evs)
         else (Raise SystemExit, also_logged w evs).
Proof.
  unfold check_depend_then_ren, dependencies_met.
  change (match in_path self with OnePath p => [p] | PathList l => l end)
    with (inputs_of self).
  rewrite run_bind.
  destruct (check_inputs_run (inputs_of self) w) as (e1 & S1 & ->).
  destruct (forallb (is_regular (fs w)) (inputs_of self)); cbn [andb].
  - rewrite run_bind.
    destruct (check_outputs_run (out_paths_list self) (also_logged w e1))
      as (e2 & S2 & ->).
    cbn [fs also_logged].
    exists (e1 ++ e2). split; [by rewrite spawned_app, S1, S2|].
    rewrite also_logged_app.
    by destruct (forallb (output_free (fs w)) (out_paths_list self)).
  - by exists e1.
Qed.

(** *** The exit status *)

Lemma run_extend_list (r : nat) (xs : list arg) (w : World Env) :
  extend_list r xs w
  = (Return tt,
     mkWorld (fs w) (<[r := default [] (heap w !! r) ++ xs]> (heap w))
             (log w) (env w)).
Proof. reflexivity. Qed.

(** The flags are appended to the command object, the process runs with
    the grown command, and what follows depends on its exit status. *)
Lemma run_terminal_cmd_spawns (self : t) (hb af : bool) (w : World Env)
    (cmd : list arg) :
  heap w !! ren_cmd self = Some cmd ->
  let cmd' := cmd ++ flags_appended hb af in
  let ran := spawn cmd' (fs w) (env w) in
  let w1 := mkWorld ran.1.2 (<[ren_cmd self := cmd']> (heap w))
                    (log w ++ [Spawned cmd']) ran.2 in
  run_terminal_cmd spawn self hb af w
  = match run_terminal_cmd_checked spawn self hb af ran.1.1 w1 with
    | (Raise e, w2) =>
        if decide (e = CalledProcessError)
        then run_terminal_cmd_failed self (Some ran.1.1) w2
        else (Raise e, w2)
    | r => r
    end.
Proof.
  intros Hcmd cmd' ran w1. unfold run_terminal_cmd.
  assert ((_ ← (if hb then extend_list (ren_cmd self) [S_ "-hide_banner"]
                else ret tt);
           (if af then extend_list (ren_cmd self) [S_ "-movflags"; S_ "+faststart"]
            else ret tt)) w
          = (Return tt, mkWorld (fs w) (<[ren_cmd self := cmd']> (heap w))
                                (log w) (env w))) as Hext.
  { subst cmd'. unfold flags_appended. rewrite run_bind.
    destruct hb, af;
      repeat (progress (rewrite ?run_extend_list, ?run_ret; cbn [heap fs log env])).
    - rewrite Hcmd, lookup_insert_eq. cbn [default]. unfold id.
      by rewrite insert_insert_eq, <- app_assoc.
    - by rewrite Hcmd.
    - by rewrite Hcmd.
    - rewrite app_nil_r, insert_id by done. by destruct w. }
  rewrite run_bind in Hext. rewrite !run_bind.
  destruct ((if hb then extend_list (ren_cmd self) [S_ "-hide_banner"] else ret tt) w)
    as [[[]|e0] w0]; [|discriminate Hext].
  rewrite run_bind, Hext. unfold try_bound.
  rewrite run_bind. unfold read_list at 1. cbn [heap].
  rewrite lookup_insert_eq. cbn [default]. unfold id. fold cmd'.
  unfold sub_run. cbn [fs env log heap andb].
  subst w1 ran. destruct (spawn cmd' (fs w) (env w)) as [[p f] e]. reflexivity.
Qed.

Lemma for_each_returns {A : Type} (l : list A) (body : A -> M Env unit)
    (w : World Env) :
  (forall a w0, exists w', body a w0 = (Return tt, w')) ->
  exists w', for_each l body w = (Return tt, w').
Proof.
  intros Hb. revert w. induction l as [|a l IH]; intros w; simpl; [by eexists|].
  rewrite run_bind. destruct (Hb a w) as [w' ->]. apply IH.
Qed.

Lemma print_rendered_returns (self : t) (w : World Env) :
  exists w', print_rendered self w = (Return tt, w').
Proof.
  unfold print_rendered. apply for_each_returns. intros a w0.
  rewrite run_print. by eexists.
Qed.

Lemma check_open_after_ren_returns (self : t) (outs : list path) (w : World Env) :
  exists b w', _check_open_after_ren_loop spawn self outs w = (Return b, w').
Proof.
  revert w. induction outs as [|p outs IH]; intros w; simpl; [by eexists _, _|].
  destruct (open_after_ren self), (path_flavour p); try apply IH;
    rewrite run_bind; unfold sub_run; cbn [andb];
    try (destruct (spawn _ (fs w) (env w)) as [[? ?] ?]; apply IH).
  rewrite run_print, run_ret. by eexists _, _.
Qed.

Lemma run_terminal_cmd_checked_returns (self : t) (hb af : bool) (p : proc)
    (w : World Env) :
  returncode p = 0%Z -> out_paths_list self <> [] ->
  exists w', run_terminal_cmd_checked spawn self hb af p w = (Return true, w').
Proof.
  intros Hrc Houts. unfold run_terminal_cmd_checked, check_returncode.
  rewrite Hrc. cbn [Z.eqb]. rewrite run_bind, run_ret.
  assert (forall w0 : World Env,
            exists b w', first_out_exists self w0 = (Return b, w')) as Hfirst.
  { intros w0. unfold first_out_exists.
    destruct (out_paths_list self) as [|o outs]; [done|].
    rewrite run_path_exists. by eexists _, _. }
  rewrite run_bind.
  assert (exists b w',
            (if print_ren_info self then first_out_exists self else ret false) w
            = (Return b, w')) as (b1 & w1 & ->).
  { destruct (print_ren_info self); [apply Hfirst | by eexists _, _]. }
  rewrite run_bind, run_print_if. set (w2 := if b1 then _ else _).
  rewrite run_bind.
  assert (exists w',
            (if print_success self && negb af && negb hb
             then print_rendered self
             else made ← (if print_success self then first_out_exists self
                          else ret false);
                  if (made : bool) then print_rendered self else ret tt) w2
            = (Return tt, w')) as (w3 & ->).
  { destruct (print_success self && negb af && negb hb);
      [apply print_rendered_returns|].
    rewrite run_bind.
    assert (exists b w',
              (if print_success self then first_out_exists self else ret false) w2
              = (Return b, w')) as (b2 & w' & ->).
    { destruct (print_success self); [apply Hfirst | by eexists _, _]. }
    destruct b2; [apply print_rendered_returns | by eexists]. }
  rewrite run_bind, run_print_if, run_bind. unfold _check_open_after_ren.
  match goal with
  | |- context [_check_open_after_ren_loop spawn self ?l ?w0] =>
      destruct (check_open_after_ren_returns self l w0) as (b & w4 & ->)
  end.
  rewrite run_ret. by eexists.
Qed.

(** *** What the checked part adds to the log *)

Lemma runs_nothing_ret {A : Type} (a : A) : runs_nothing (ret a : M Env A).
Proof. intros w. exists a, []. by rewrite also_logged_nil. Qed.

Lemma runs_nothing_bind {A B : Type} (m : M Env A) (f : A -> M Env B) :
  runs_nothing m -> (forall a, runs_nothing (f a)) -> runs_nothing (m ≫= f).
Proof.
  intros Hm Hf w. destruct (Hm w) as (a & e1 & H1 & Em).
  destruct (Hf a (also_logged w e1)) as (b & e2 & H2 & Ef).
  exists b, (e1 ++ e2). split; [by rewrite spawned_app, H1, H2|].
  by rewrite run_bind, Em, Ef, also_logged_app.
Qed.

Lemma runs_nothing_print (msg : list piece) : runs_nothing (print msg : M Env unit).
Proof. intros w. exists tt, [Printed msg]. by rewrite run_print. Qed.

Lemma runs_nothing_print_if (b : bool) (msg : list piece) :
  runs_nothing (print_if b msg : M Env unit).
Proof.
  destruct b; [apply runs_nothing_print | apply (runs_nothing_ret tt)].
Qed.

Lemma runs_nothing_first_out (self : t) :
  out_paths_list self <> [] -> runs_nothing (first_out_exists (Env:=Env) self).
Proof.
  intros Houts w. unfold first_out_exists.
  destruct (out_paths_list self) as [|o outs]; [done|].
  rewrite run_path_exists. by eexists _, [Statted o].
Qed.

Lemma runs_nothing_print_rendered (self : t) :
  runs_nothing (print_rendered (Env:=Env) self).
Proof.
  unfold print_rendered. induction (out_paths_list self) as [|p l IH].
  - apply (runs_nothing_ret tt).
  - cbn [for_each]. apply runs_nothing_bind; [apply runs_nothing_print|].
    intros _. exact IH.
Qed.

(** With nothing to open, the loop over the outputs does nothing. *)
Lemma check_open_after_ren_none (self : t) (outs : list path) :
  open_after_ren self = OpenNo ->
  runs_nothing (_check_open_after_ren_loop spawn self outs).
Proof.
  intros Hno. induction outs as [|p outs IH]; cbn [_check_open_after_ren_loop].
  - apply runs_nothing_ret.
  - rewrite Hno. exact IH.
Qed.

Lemma run_terminal_cmd_checked_quiet (self : t) (hb af : bool) (p : proc)
    (w : World Env) :
  returncode p = 0%Z -> out_paths_list self <> [] ->
  open_after_ren self = OpenNo ->
  exists evs, spawned evs = []
    /\ run_terminal_cmd_checked spawn self hb af p w
       = (Return true, also_logged w evs).
Proof.
  intros Hrc Houts Hno.
  destruct (run_terminal_cmd_checked_returns self hb af p w Hrc Houts) as [w' Hret].
  assert (runs_nothing (run_terminal_cmd_checked spawn self hb af p)) as Hq.
  { unfold run_terminal_cmd_checked, check_returncode. rewrite Hrc. cbn [Z.eqb].
    apply runs_nothing_bind; [apply (runs_nothing_ret tt)|]. intros _.
    apply runs_nothing_bind.
    { destruct (print_ren_info self);
        [by apply runs_nothing_first_out | apply runs_nothing_ret]. }
    intros shown. apply runs_nothing_bind; [apply runs_nothing_print_if|].
    intros _. apply runs_nothing_bind.
    { destruct (print_success self && negb af && negb hb);
        [apply runs_nothing_print_rendered|].
      apply runs_nothing_bind.
      - destruct (print_success self);
          [by apply runs_nothing_first_out | apply runs_nothing_ret].
      - intros [|]; [apply runs_nothing_print_rendered | apply (runs_nothing_ret tt)]. }
    intros _. apply runs_nothing_bind; [apply runs_nothing_print_if|].
    intros _. apply runs_nothing_bind; [by apply check_open_after_ren_none|].
    intros _. apply runs_nothing_ret. }
  destruct (Hq w) as (a & evs & Hs & Hrun).
  exists evs. split; [exact Hs|]. rewrite Hrun in Hret.
  injection Hret as -> _. exact Hrun.
Qed.

(** [run_terminal_cmd] answers with the exit status of the render
    process, the stored command followed by the appended flags, once
    that process has run. A status other than zero is the
    [CalledProcessError] the method catches: the answer is [False]. A
    status of zero is answered with [True] when no output is to be
    opened. In both cases the render is the only process of the call. *)
Theorem run_terminal_cmd_mirrors_status (self : t) (hb af : bool) (w : World Env)
    (cmd : list arg) :
  heap w !! ren_cmd self = Some cmd ->
  let cmd' := cmd ++ flags_appended hb af in
  let status := returncode (spawn cmd' (fs w) (env w)).1.1 in
  let result := run_terminal_cmd spawn self hb af w in
  (status <> 0%Z ->
   result.1 = Return false
   /\ spawned (log result.2) = spawned (log w) ++ [cmd'])
  /\ (status = 0%Z -> open_after_ren self = OpenNo ->
      out_paths_list self <> [] ->
      result.1 = Return true
      /\ spawned (log result.2) = spawned (log w) ++ [cmd']).
Proof.
  intros Hcmd cmd' status result. subst result.
  rewrite (run_terminal_cmd_spawns self hb af w cmd Hcmd).
  cbv zeta. fold cmd'. set (ran := spawn cmd' (fs w) (env w)). fold ran in status.
  set (w1 := mkWorld _ _ _ _).
  assert (spawned (log w1) = spawned (log w) ++ [cmd']) as Hlog
    by (subst w1; cbn [log]; by rewrite spawned_app).
  split.
  - intros Hrc. apply Z.eqb_neq in Hrc.
    unfold run_terminal_cmd_checked, check_returncode. fold status. rewrite Hrc.
    rewrite run_bind, run_raise. cbn [decide]. rewrite decide_True by done.
    unfold run_terminal_cmd_failed. destruct (print_err self); [|by split].
    rewrite run_bind. unfold read_list at 1. run.
    split; [reflexivity|]. unfold logged. cbn [log].
    rewrite !spawned_app. cbn. by rewrite !app_nil_r.
  - intros Hrc Hno Houts.
    destruct (run_terminal_cmd_checked_quiet self hb af ran.1.1 w1 Hrc Houts Hno)
      as (evs & Hs & ->).
    split; [reflexivity|]. cbn [snd log also_logged].
    by rewrite spawned_app, Hlog, Hs, app_nil_r.
Qed.

End PrimaryPhaseFacts.

(** *** The elapsed time *)

(** The text of the elapsed time names the hours only next to minutes:
    when the minutes of the hour are zero the hours are left out, and a
    render of one hour and five seconds is reported as one of five
    seconds. *)
Theorem terminal_render_timer_drops_hours (cs : N) (operation_keyword : string) :
  ((cs / 6000) mod 60 = 0)%N ->
  terminal_render_timer cs operation_keyword
  = terminal_render_timer (cs mod 6000) operation_keyword
  /\ terminal_render_timer 360500 "" = "Over the course of 5.00 seconds.".
Proof.
  intros Hmin. split; [|reflexivity].
  assert ((cs mod 6000) mod 100 = cs mod 100)%N as Hfrac.
  { change 6000%N with (100 * 60)%N. rewrite N.Div0.mod_mul_r.
    rewrite (N.mul_comm 100), N.Div0.mod_add.
    apply N.Div0.mod_mod. }
  assert (cs mod 6000 / 100 = (cs / 100) mod 60)%N as Hsec.
  { change 6000%N with (100 * 60)%N. rewrite N.Div0.mod_mul_r.
    rewrite (N.mul_comm 100), N.div_add by done.
    rewrite (N.div_small (cs mod 100)) by (apply N.mod_lt; done). lia. }
  assert (cs / 100 / 60 = cs / 6000)%N as Hdiv
    by (rewrite N.Div0.div_div; reflexivity).
  unfold terminal_render_timer. cbv zeta.
  rewrite Hfrac, Hsec, Hdiv, Hmin.
  rewrite (N.div_small ((cs / 100) mod 60) 60) by (apply N.mod_lt; done).
  rewrite N.Div0.mod_mod.
  change (0 / 60)%N with 0%N. change (0 mod 60)%N with 0%N.
  change (1 <=? 0)%N with false. rewrite andb_false_r. reflexivity.
Qed.

Lemma terminal_render_timer_drops_hours_witness :
  terminal_render_timer 360500 " to scan" = terminal_render_timer 500 " to scan"
  /\ terminal_render_timer 500 " to scan" = "took 5.00 seconds to scan.".
Proof.
  split; [|reflexivity].
  apply (terminal_render_timer_drops_hours 360500 " to scan"). reflexivity.
Defined.

Lemma run_terminal_cmd_mirrors_status_witness :
  (run_terminal_cmd failing_patch_tools clip_job true true clip_world).1 = Return true
  /\ (run_terminal_cmd failing_patch_tools clip_job true true
        (mkWorld (fs clip_world) (heap clip_world) [] 1)).1 = Return false.
Proof.
  split.
  - apply (run_terminal_cmd_mirrors_status failing_patch_tools clip_job true true
             clip_world [S_ "ffmpeg"; S_ "-i"; P_ clip_in; P_ clip_out]);
      [vm_compute; reflexivity | reflexivity | reflexivity | discriminate].
  - apply (run_terminal_cmd_mirrors_status failing_patch_tools clip_job true true
             (mkWorld (fs clip_world) (heap clip_world) [] 1)
             [S_ "ffmpeg"; S_ "-i"; P_ clip_in; P_ clip_out]);
      [vm_compute; reflexivity | discriminate].
Defined.

End PrimaryPhaseFacts.

(* ================================================================= *)
(** ** The checks of a metadata query *)

Module QueryFacts.
Import PyStr MetadataAcquisition Run Words Scenarios.

Section QueryFacts.
Context {Env : Type}.
Variable spawn :
  list arg -> gmap (list string) node -> Env ->
  proc * gmap (list string) node * Env.

(** *** The dictionary holds every value given *)

Lemma dict_of_lookup (pairs : list (meta_arg * string))
    (d0 : gmap (Z + string) string) (a : meta_arg) :
  a ∈ map fst pairs \/ is_Some (d0 !! key_of a) ->
  is_Some (fold_left (λ d kv, <[key_of kv.1 := kv.2]> d) pairs d0 !! key_of a).
Proof.
  revert d0. induction pairs as [|[b kw] pairs IH]; intros d0 H.
  - destruct H as [H|H]; [by apply elem_of_nil in H | exact H].
  - cbn [fold_left]. apply IH. cbn [map fst] in H.
    destruct H as [[->|H]%elem_of_cons|H]; [right|by left|right]; cbn [fst snd].
    + rewrite lookup_insert_eq. eauto.
    + destruct (decide (key_of b = key_of a)) as [->|Hne].
      * rewrite lookup_insert_eq. eauto.
      * by rewrite lookup_insert_ne.
Qed.

Lemma meta_dict_lookup (q : query) (a : meta_arg) :
  a ∈ in_meta_value_list q -> is_Some (meta_dict q !! key_of a).
Proof. intros H. apply dict_of_lookup. by left. Qed.

(** *** Values that are neither integers nor [False] *)

Lemma collect_fields_rejects (d : gmap (Z + string) string) (vals : list meta_arg)
    (ints : list Z) (kws : list string) (w : World Env) :
  (forall a, a ∈ vals -> is_Some (d !! key_of a)) ->
  forallb (fun a => match a with MFalse | MInt _ => true | _ => false end) vals
  = false ->
  exists msg,
    collect_fields d vals ints kws w = (Raise SystemExit, also_logged w [Printed msg]).
Proof.
  revert ints kws. induction vals as [|a vals IH]; intros ints kws Hd Hbad;
    [discriminate|].
  assert (forall b, b ∈ vals -> is_Some (d !! key_of b)) as Hd'
    by (intros b Hb; apply Hd; by right).
  destruct a as [| |n|s]; cbn [collect_fields forallb andb] in *.
  - by apply IH.
  - rewrite run_bind, run_print, run_quit. by eexists.
  - destruct (Hd (MInt n)) as [kw Hkw]; [by left|]. cbn [key_of] in Hkw.
    rewrite Hkw. by apply IH.
  - rewrite run_bind, run_print, run_quit. by eexists.
Qed.

(** A field given [True] or a string makes [return_metadata] quit
    before it looks at the input file and before any process runs,
    whatever the other fields hold. *)
Theorem non_integer_field_rejected (self : t) (q : query) (w : World Env) :
  integers_or_false q = false ->
  exists evs,
    return_metadata spawn self q w = (Raise SystemExit, also_logged w evs)
    /\ only_prints evs = true.
Proof.
  intros Hbad. unfold return_metadata. rewrite run_bind, run_print_if.
  set (w1 := if forallb truthy (in_meta_value_list q) then _ else _).
  assert (exists e1, w1 = also_logged w e1 /\ only_prints e1 = true) as (e1 & -> & P1).
  { subst w1. destruct (forallb truthy _).
    - by exists [Printed at_least_one_error].
    - exists []. by rewrite PrimaryPhaseFacts.also_logged_nil. }
  rewrite run_bind.
  destruct (collect_fields_rejects (meta_dict q) (in_meta_value_list q) [] []
              (also_logged w e1) (meta_dict_lookup q) Hbad) as [msg ->].
  exists (e1 ++ [Printed msg]).
  split; [by rewrite PrimaryPhaseFacts.also_logged_app|].
  unfold only_prints in *. by rewrite forallb_app, P1.
Qed.

(** *** Output-order integers that are not 1, ..., N *)

Lemma collect_fields_collects (d : gmap (Z + string) string) (vals : list meta_arg)
    (ints : list Z) (kws : list string) (w : World Env) :
  (forall a, a ∈ vals -> is_Some (d !! key_of a)) ->
  forallb (fun a => match a with MFalse | MInt _ => true | _ => false end) vals
  = true ->
  exists kws',
    collect_fields d vals ints kws w
    = (Return (ints ++ omap (fun a => match a with MInt n => Some n | _ => None end)
                            vals, kws'), w).
Proof.
  revert ints kws. induction vals as [|a vals IH]; intros ints kws Hd Hok.
  - exists kws. by rewrite app_nil_r.
  - assert (forall b, b ∈ vals -> is_Some (d !! key_of b)) as Hd'
      by (intros b Hb; apply Hd; by right).
    destruct a as [| |n|s]; cbn [collect_fields forallb andb] in *; try done.
    + by apply IH.
    + destruct (Hd (MInt n)) as [kw Hkw]; [by left|]. cbn [key_of] in Hkw.
      rewrite Hkw.
      destruct (IH (ints ++ [n]) (kws ++ [fmt02d n +:+ kw]) Hd' Hok) as [kws' ->].
      exists kws'. by rewrite <- app_assoc.
Qed.

Lemma collect_positions (q : query) (w : World Env) :
  integers_or_false q = true ->
  exists kws,
    collect_fields (meta_dict q) (in_meta_value_list q) [] [] w
    = (Return (positions q, kws), w).
Proof.
  intros Hok.
  destruct (collect_fields_collects (meta_dict q) (in_meta_value_list q) [] [] w
              (meta_dict_lookup q) Hok) as [kws H].
  exists kws. rewrite H. unfold positions. rewrite app_nil_l. reflexivity.
Qed.

Lemma insert_int_perm (x : Z) (l : list Z) : Permutation (insert_int x l) (x :: l).
Proof.
  induction l as [|y l IH]; [done|]. cbn [insert_int].
  destruct (x <? y)%Z; [done|]. rewrite IH. apply perm_swap.
Qed.

Lemma sort_int_perm (l : list Z) : Permutation (sort_int l) l.
Proof.
  unfold sort_int.
  assert (forall acc, Permutation (fold_left (λ acc x, insert_int x acc) l acc)
                                  (acc ++ l)) as H.
  { induction l as [|x l IH]; intros acc; cbn [fold_left].
    - by rewrite app_nil_r.
    - rewrite IH, insert_int_perm. apply Permutation_middle. }
  apply (H []).
Qed.

Lemma scan_dupes_grows (l : list Z) (m : gmap Z Z) (acc : list Z) :
  acc <> [] -> scan_dupes l m acc <> [].
Proof.
  revert m acc. induction l as [|x l IH]; intros m acc Hacc; [done|].
  cbn [scan_dupes]. destruct (m !! x) as [c|]; [|by apply IH].
  apply IH. destruct (c =? 1)%Z; [by destruct acc | done].
Qed.

Lemma scan_dupes_seen (l : list Z) (m : gmap Z Z) (acc : list Z) (x : Z) :
  counted_once_or_collected m acc -> x ∈ l -> is_Some (m !! x) ->
  scan_dupes l m acc <> [].
Proof.
  revert m acc. induction l as [|y l IH]; intros m acc Hinv Hx Hm;
    [by apply elem_of_nil in Hx|].
  cbn [scan_dupes].
  destruct (decide (y = x)) as [->|Hne].
  - destruct Hm as [c Hc]. rewrite Hc. apply scan_dupes_grows.
    destruct (Z.eqb_spec c 1) as [->|Hc1]; [by destruct acc|].
    by destruct (Hinv x c Hc).
  - apply elem_of_cons in Hx as [->|Hx]; [done|].
    destruct (m !! y) as [c|] eqn:Ey.
    + destruct (Z.eqb_spec c 1) as [->|Hc1].
      * apply scan_dupes_grows. by destruct acc.
      * apply scan_dupes_grows. by destruct (Hinv y c Ey).
    + apply IH; [|done|by rewrite lookup_insert_ne].
      intros k c. destruct (decide (k = y)) as [->|Hk].
      * rewrite lookup_insert_eq. intros [= <-]. by left.
      * rewrite lookup_insert_ne by done. apply Hinv.
Qed.

Lemma scan_dupes_dup (l : list Z) (m : gmap Z Z) (acc : list Z) :
  counted_once_or_collected m acc -> ~ NoDup l -> scan_dupes l m acc <> [].
Proof.
  revert m acc. induction l as [|y l IH]; intros m acc Hinv Hdup.
  - destruct Hdup. constructor.
  - cbn [scan_dupes]. destruct (m !! y) as [c|] eqn:Ey.
    + apply scan_dupes_grows.
      destruct (Z.eqb_spec c 1) as [->|Hc1]; [by destruct acc|].
      by destruct (Hinv y c Ey).
    + assert (counted_once_or_collected (<[y := 1%Z]> m) acc) as Hinv'.
      { intros k c. destruct (decide (k = y)) as [->|Hk].
        - rewrite lookup_insert_eq. intros [= <-]. by left.
        - rewrite lookup_insert_ne by done. apply Hinv. }
      destruct (decide (y ∈ l)) as [Hin|Hnin].
      * apply (scan_dupes_seen l _ acc y Hinv' Hin).
        rewrite lookup_insert_eq. eauto.
      * apply IH; [exact Hinv'|]. intros Hnd. apply Hdup.
        by apply NoDup_cons.
Qed.

Lemma check_range_rejects (l : list Z) (count keywords : nat) (w : World Env) :
  Exists (λ n, n < 1 \/ Z.of_nat count < n)%Z l ->
  exists msg,
    check_range l count keywords w = (Raise SystemExit, also_logged w [Printed msg]).
Proof.
  induction l as [|n l IH]; intros H; [by apply Exists_nil in H|].
  cbn [check_range].
  destruct ((n <? 1)%Z || (Z.of_nat count <? n)%Z) eqn:E.
  - rewrite run_bind, run_print, run_quit. by eexists.
  - apply IH. apply Exists_cons in H as [H|H]; [|exact H].
    apply orb_false_iff in E as [E1%Z.ltb_ge E2%Z.ltb_ge]. lia.
Qed.

(** The integers of a valid query are 1, ..., N in some order. *)
Lemma one_to_n_or_not (l : list Z) :
  ~ Permutation l (map Z.of_nat (seq 1 (length l))) ->
  ~ NoDup l \/ Exists (λ n, n < 1 \/ Z.of_nat (length l) < n)%Z l.
Proof.
  intros Hperm.
  destruct (decide (NoDup l)) as [Hnd|Hnd]; [|by left]. right.
  destruct (decide (Exists (λ n, n < 1 \/ Z.of_nat (length l) < n)%Z l))
    as [He|He]; [exact He|].
  exfalso. apply Hperm.
  apply NoDup_Permutation_bis; [by apply NoDup_ListNoDup| |].
  - by rewrite length_map, length_seq.
  - intros n Hn%list_elem_of_In. apply not_Exists_Forall in He; [|intros ?; apply _].
    rewrite Forall_forall in He. specialize (He n Hn). simpl in He.
    apply in_map_iff. exists (Z.to_nat n). split; [lia|].
    apply in_seq. lia.
Qed.

(** Output-order integers that are not exactly 1, ..., N, each once,
    make [return_metadata] quit before it looks at the input file and
    before any process runs. *)
Theorem positions_not_one_to_n_rejected (self : t) (q : query) (w : World Env) :
  integers_or_false q = true ->
  ~ Permutation (positions q) (map Z.of_nat (seq 1 (length (positions q)))) ->
  exists evs,
    return_metadata spawn self q w = (Raise SystemExit, also_logged w evs)
    /\ only_prints evs = true.
Proof.
  intros Hok Hperm. apply one_to_n_or_not in Hperm.
  unfold return_metadata. rewrite run_bind, run_print_if.
  set (w1 := if forallb truthy (in_meta_value_list q) then _ else _).
  assert (exists e1, w1 = also_logged w e1 /\ only_prints e1 = true) as (e1 & -> & P1).
  { subst w1. destruct (forallb truthy _).
    - by exists [Printed at_least_one_error].
    - exists []. by rewrite PrimaryPhaseFacts.also_logged_nil. }
  rewrite run_bind.
  destruct (collect_positions q (also_logged w e1) Hok) as [kws ->].
  cbn [fst snd].
  pose proof (sort_int_perm (positions q)) as Hsort.
  rewrite run_bind.
  destruct (scan_dupes (sort_int (positions q)) ∅ []) as [|dupe dupes] eqn:Edup.
  - rewrite run_ret, run_bind.
    destruct Hperm as [Hdup|Hrange].
    { exfalso. apply (scan_dupes_dup (sort_int (positions q)) ∅ []); [|  |exact Edup].
      - intros k c Hk. by rewrite lookup_empty in Hk.
      - intros Hnd. apply Hdup. by rewrite <- Hsort. }
    destruct (check_range_rejects (sort_int (positions q))
                (length (sort_int (positions q))) (length (sort_str kws))
                (also_logged w e1)) as [msg ->].
    { rewrite (Permutation_length Hsort). rewrite Exists_exists in *.
      destruct Hrange as (n & Hn & Hbad). exists n. split; [|exact Hbad].
      by rewrite Hsort. }
    exists (e1 ++ [Printed msg]).
    split; [by rewrite PrimaryPhaseFacts.also_logged_app|].
    unfold only_prints in *. by rewrite forallb_app, P1.
  - rewrite run_bind, run_print, run_quit.
    eexists (e1 ++ [Printed _]).
    split; [by rewrite PrimaryPhaseFacts.logged_also, PrimaryPhaseFacts.also_logged_app|].
    unfold only_prints in *. by rewrite forallb_app, P1.
Qed.

End QueryFacts.

Lemma positions_not_one_to_n_rejected_witness :
  (return_metadata tag_tools song title_and_album_first song_world).1 = Raise SystemExit
  /\ (return_metadata tag_tools song title_second song_world).1 = Raise SystemExit
  /\ fs (return_metadata tag_tools song title_second song_world).2 = fs song_world.
Proof.
  destruct (positions_not_one_to_n_rejected tag_tools song title_and_album_first
              song_world) as (e1 & E1 & _); [vm_compute; reflexivity| |].
  { intros HP.
    assert (NoDup (positions title_and_album_first)) as HN.
    { rewrite HP. by apply (bool_decide_unpack _). }
    apply (bool_decide_pack _) in HN. vm_compute in HN. exact HN. }
  destruct (positions_not_one_to_n_rejected tag_tools song title_second
              song_world) as (e2 & E2 & _); [vm_compute; reflexivity| |].
  { intros HP.
    assert (1%Z ∈ positions title_second) as Hin.
    { rewrite HP. by apply (bool_decide_unpack _). }
    apply (bool_decide_pack _) in Hin. vm_compute in Hin. exact Hin. }
  rewrite E1, E2. repeat split; reflexivity.
Defined.

Lemma non_integer_field_rejected_witness :
  (return_metadata tag_tools song album_and_title_true song_world).1 = Raise SystemExit
  /\ fs (return_metadata tag_tools song album_and_title_true song_world).2
     = fs song_world.
Proof.
  destruct (non_integer_field_rejected tag_tools song album_and_title_true song_world)
    as (evs & E & P); [vm_compute; reflexivity|].
  rewrite E. split; reflexivity.
Defined.

End QueryFacts.
